(** * Settlement offer workflow of the Debt Collection Portal

    The repository holds three listings of [Debt Collection Portal.py], all
    Streamlit scripts that keep their data in [st.session_state]:

    - the first listing (module [Basic]): offer creation and a supervisor
      review with one-click decisions;
    - the second listing (module [Enhanced], "v2.0"): a supervisor panel
      whose approval sends the offer at once;
    - the third listing (module [Workflow]): creation, sending, capture of
      the customer response and a supervisor review with comment dialogs.

    Each page function is embedded as a function of the session state and of
    what the browser sent for this run of the script (the button that was
    clicked and the values of the widgets).  A run ends normally, by
    [st.rerun()], or with a Python exception; the session state written so
    far survives in all three cases.

    Modelling conventions.
    - Python numbers ([int] and [float]) are exact rationals [Q]; rounding of
      binary floating point is outside the model.
    - [datetime] is a count of microseconds and [date] a count of days.
    - Every [st.error], [st.warning], [st.success] and [st.info] call is
      recorded as a [Notice]; layout calls ([st.markdown], [st.metric],
      [st.columns], charts) write no state and are left out.
    - Strings are byte strings; [strip] knows the ASCII white space.
    - A reference to an offer object is the position of the object in
      [st.session_state.offers]; assigning to a field of the object updates
      the list at that position.
    - [datetime.now()] and the random draws of the sample data are inputs:
      each reading of the clock is a parameter of the page that reads it.
    - Fields carry the names of the dataclasses.  Where two records of one
      module would share a field name, the later one gets a prefix:
      [offer_loan_id] is [Offer.loan_id], [loan_customer_id] is
      [Loan.customer_id], [user_name] is the [name] of the current user, and
      the fields of [Communication] and [CustomerResponse] that repeat a name
      of [Offer] start with [comm_] and [resp_].

    The embedding of the three listings comes first, then the vocabulary of
    the statements and a few sample sessions, then the proofs. *)

From Stdlib Require Import ZArith QArith String Ascii List Lia DecimalString.
From stdpp Require Import base option list strings gmap.

From Stdlib Require DecimalNat DecimalPos DecimalFacts.
From Stdlib Require Import Lqa Qabs.

Local Open Scope Z_scope.

(** ** Python helpers *)

(** [str.isspace] on the ASCII range: TAB..CR, FS..US and the blank. *)
Definition isspace (c : ascii) : bool :=
  let n := nat_of_ascii c in
  ((9 <=? n)%nat && (n <=? 13)%nat) || ((28 <=? n)%nat && (n <=? 32)%nat).

Fixpoint lstrip (s : string) : string :=
  match s with
  | EmptyString => EmptyString
  | String c s' => if isspace c then lstrip s' else s
  end.

Definition reverse_string (s : string) : string :=
  string_of_list_ascii (rev (list_ascii_of_string s)).

Definition rstrip (s : string) : string :=
  reverse_string (lstrip (reverse_string s)).

(** [s.strip()] *)
Definition strip (s : string) : string := rstrip (lstrip s).

(** Truth value of a Python string: the empty string is false. *)
Definition truthy (s : string) : bool :=
  match s with EmptyString => false | String _ _ => true end.

(** [str(n)] for a natural number. *)
Definition str_nat (n : nat) : string := NilZero.string_of_uint (Nat.to_uint n).

(** [str(z)] for an integer. *)
Definition str_int (z : Z) : string := NilZero.string_of_int (Z.to_int z).

Fixpoint zeros (k : nat) : string :=
  match k with O => EmptyString | S k' => String "0" (zeros k') end.

(** The format [{n:03d}]: decimal, padded with zeros to three digits. *)
Definition fmt_03d (n : nat) : string :=
  let d := str_nat n in zeros (3 - String.length d) +:+ d.

(** The format [{x:.1f}]: one decimal, ties to even. *)
Definition fmt_1f (x : Q) : string :=
  let n := Z.abs (Qnum x) in
  let d := Z.pos (Qden x) in
  let q := (10 * n) / d in
  let r := (10 * n) mod d in
  let t := if (d <? 2 * r) || ((d =? 2 * r) && Z.odd q) then q + 1 else q in
  (if Qnum x <? 0 then "-" else "") +:+ str_int (t / 10) +:+ "." +:+ str_int (t mod 10).

(** Positions of the elements of [l] that satisfy [p], counted from [k]: a
    list comprehension [[o for o in l if p(o)]] over objects, kept as
    references into [l]. *)
Fixpoint positions_where {A} (p : A -> bool) (k : nat) (l : list A) : list nat :=
  match l with
  | [] => []
  | o :: l' =>
    if p o then k :: positions_where p (S k) l' else positions_where p (S k) l'
  end.

(** [s.lower()] on the ASCII letters. *)
Definition lower_char (c : ascii) : ascii :=
  let n := nat_of_ascii c in
  if (65 <=? n)%nat && (n <=? 90)%nat then ascii_of_nat (n + 32) else c.

Fixpoint lower (s : string) : string :=
  match s with
  | EmptyString => EmptyString
  | String c s' => String (lower_char c) (lower s')
  end.

(** [s.replace(a, b)] for one-character strings [a] and [b]. *)
Fixpoint replace_char (a b : ascii) (s : string) : string :=
  match s with
  | EmptyString => EmptyString
  | String c s' => String (if Ascii.eqb c a then b else c) (replace_char a b s')
  end.

(** The format [{n:04d}]. *)
Definition fmt_04d (n : nat) : string :=
  let d := str_nat n in zeros (4 - String.length d) +:+ d.

(** The format [{n:02d}], for the two decimals of an amount. *)
Definition fmt_02d (n : nat) : string :=
  let d := str_nat n in zeros (2 - String.length d) +:+ d.

(** [|x| * scale] rounded to the nearest integer, ties to even: how the
    fixed-point formats round. *)
Definition round_half_even (scale : Z) (x : Q) : Z :=
  let n := Z.abs (Qnum x) in
  let d := Z.pos (Qden x) in
  let q := (scale * n) / d in
  let r := (scale * n) mod d in
  if (d <? 2 * r) || ((d =? 2 * r) && Z.odd q) then q + 1 else q.

(** The thousands separator of the format [{x:,}], on the digits of the
    integer part written from the unit upwards. *)
Fixpoint commas (units_first : list ascii) : list ascii :=
  match units_first with
  | a :: b :: c :: rest =>
    match rest with
    | [] => units_first
    | _ :: _ => a :: b :: c :: ","%char :: commas rest
    end
  | _ => units_first
  end.

Definition group_thousands (digits : string) : string :=
  string_of_list_ascii (rev (commas (rev (list_ascii_of_string digits)))).

(** The format [{x:,.2f}]. *)
Definition fmt_comma_2f (x : Q) : string :=
  let t := round_half_even 100 x in
  (if Qnum x <? 0 then "-" else "") +:+ group_thousands (str_int (t / 100))
  +:+ "." +:+ fmt_02d (Z.to_nat (t mod 100)).

(** [format_currency]: [f"${amount:,.2f}"] *)
Definition format_currency (amount : Q) : string := "$" +:+ fmt_comma_2f amount.

(** [sum(...)] and [np.mean(...)] of a list of numbers. *)
Definition sum_Q (l : list Q) : Q := foldl Qplus 0%Q l.

Definition mean (l : list Q) : Q := (sum_Q l / inject_Z (Z.of_nat (length l)))%Q.

(** [len([x for x in l if p(x)])] *)
Definition count_where {A} (p : A -> bool) (l : list A) : nat :=
  length (filter (fun x => p x = true) l).

(** The counting loop [counts[k] = counts.get(k, 0) + 1] over the keys
    [key x] of a list. *)
Definition count_by {A} (key : A -> string) (l : list A) : gmap string nat :=
  foldl (fun counts x => <[key x := (default 0%nat (counts !! key x) + 1)%nat]> counts) ∅ l.

(** ** Dates *)

Definition datetime := Z.
Definition date := Z.

Definition day_us : Z := 86400000000.

(** [dt + timedelta(days=n)] *)
Definition plus_days (dt : datetime) (n : Z) : datetime := dt + n * day_us.

(** [dt.date()] *)
Definition date_of (dt : datetime) : date := dt / day_us.

(** [datetime.combine(d, datetime.min.time())] *)
Definition combine_min (d : date) : datetime := d * day_us.

(** ** Runs of a page script *)

Inductive PyExn := AttributeError | DuplicateWidgetID.

(** How a run of the script ends: it falls off the end of the page function
    (or returns from it), calls [st.rerun()], or raises. *)
Inductive Ending := Finished | Rerun | Raised (e : PyExn).

Inductive Notice :=
| st_error (text : string)
| st_warning (text : string)
| st_success (text : string)
| st_info (text : string).

Inductive Flow (A : Type) :=
| Go (a : A)
| Halt (e : Ending).
Arguments Go {A} a.
Arguments Halt {A} e.

(** A script reads and writes the session state [S], shows notices, and
    either goes on with a value or halts. *)
Definition Script (S A : Type) : Type :=
  S -> list Notice -> S * list Notice * Flow A.

Section ScriptOps.
Context {S : Type}.

Definition script_ret {A} (a : A) : Script S A := fun s out => (s, out, Go a).

Definition script_bind {A B} (k : A -> Script S B) (m : Script S A) : Script S B :=
  fun s out =>
    match m s out with
    | (s', out', Go a) => k a s' out'
    | (s', out', Halt e) => (s', out', Halt e)
    end.

Definition get : Script S S := fun s out => (s, out, Go s).

Definition modify (f : S -> S) : Script S unit := fun s out => (f s, out, Go tt).

Definition notify (n : Notice) : Script S unit := fun s out => (s, out ++ [n], Go tt).

Definition halt {A} (e : Ending) : Script S A := fun s out => (s, out, Halt e).

(** [return] from the page function *)
Definition py_return {A} : Script S A := halt Finished.

(** [st.rerun()] *)
Definition rerun {A} : Script S A := halt Rerun.

(** Attribute access on the result of a lookup: [None.attr] raises. *)
Definition attr {A} (o : option A) : Script S A :=
  match o with
  | Some a => script_ret a
  | None => halt (Raised AttributeError)
  end.

(** [if c: body] *)
Definition when (c : bool) (body : Script S unit) : Script S unit :=
  if c then body else script_ret tt.

(** [for x in xs: body x] *)
Fixpoint for_each {A} (xs : list A) (body : A -> Script S unit) : Script S unit :=
  match xs with
  | [] => script_ret tt
  | x :: xs' => script_bind (fun _ => for_each xs' body) (body x)
  end.

(** [for offer in pending_offers: body] of the review pages.  The loop
    variable is a reference into the list of offers, kept as a position.  The
    widgets of the body are keyed by the offer id ([key i] reads it); [seen]
    holds the ids of the offers rendered earlier in this run, for the body to
    refuse a widget key that is already in use. *)
Fixpoint for_pending (key : nat -> Script S string)
    (body : list string -> nat -> Script S unit) (seen : list string)
    (pending : list nat) : Script S unit :=
  match pending with
  | [] => script_ret tt
  | i :: rest =>
    script_bind (fun k =>
      script_bind (fun _ => for_pending key body (k :: seen) rest) (body seen i))
      (key i)
  end.
End ScriptOps.

#[global] Instance script_mret {S} : MRet (Script S) := @script_ret S.
#[global] Instance script_mbind {S} : MBind (Script S) := @script_bind S.

Record Outcome (S : Type) := {
  final : S;
  notices : list Notice;
  ending : Ending
}.
Arguments final {S} o.
Arguments notices {S} o.
Arguments ending {S} o.

(** One run of a page on session state [s]. *)
Definition run {S} (page : Script S unit) (s : S) : Outcome S :=
  match page s [] with
  | (s', out, Go _) => {| final := s'; notices := out; ending := Finished |}
  | (s', out, Halt e) => {| final := s'; notices := out; ending := e |}
  end.

(** ** Pages that index tables

    Outside the offer workflow the pages also index a dictionary, a data
    frame or a list of options, which raises when the key, the row or the
    value is not there.  Such pages are scripts with these further ways to
    stop. *)

Inductive LookupError := KeyError | IndexError | ValueError.

Inductive Stop := Ends (e : Ending) | Fails (x : LookupError).

Inductive Next (A : Type) :=
| Continue (a : A)
| Stopped (e : Stop).
Arguments Continue {A} a.
Arguments Stopped {A} e.

Definition Page (S A : Type) : Type :=
  S -> list Notice -> S * list Notice * Next A.

Section PageOps.
Context {S : Type}.

Definition page_ret {A} (a : A) : Page S A := fun s out => (s, out, Continue a).

Definition page_bind {A B} (k : A -> Page S B) (m : Page S A) : Page S B :=
  fun s out =>
    match m s out with
    | (s', out', Continue a) => k a s' out'
    | (s', out', Stopped e) => (s', out', Stopped e)
    end.

(** A script as a page. *)
Definition lift {A} (m : Script S A) : Page S A :=
  fun s out =>
    match m s out with
    | (s', out', Go a) => (s', out', Continue a)
    | (s', out', Halt e) => (s', out', Stopped (Ends e))
    end.

Definition raise {A} (x : LookupError) : Page S A := fun s out => (s, out, Stopped (Fails x)).

(** [d[k]] on a dictionary: [None] stands for a key that is not there. *)
Definition item {A} (o : option A) : Page S A :=
  match o with
  | Some a => page_ret a
  | None => raise KeyError
  end.
End PageOps.

#[global] Instance page_mret {S} : MRet (Page S) := @page_ret S.
#[global] Instance page_mbind {S} : MBind (Page S) := @page_bind S.

Record Result (S : Type) := {
  after : S;
  shown : list Notice;
  stop : Stop
}.
Arguments after {S} r.
Arguments shown {S} r.
Arguments stop {S} r.

(** One run of a page on session state [s]. *)
Definition run_page {S} (page : Page S unit) (s : S) : Result S :=
  match page s [] with
  | (s', out, Continue _) => {| after := s'; shown := out; stop := Ends Finished |}
  | (s', out, Stopped e) => {| after := s'; shown := out; stop := e |}
  end.

(** ** Data models shared by the first and the third listing *)

Inductive LoanType := PERSONAL | MORTGAGE | BUSINESS | CREDIT_CARD.

Inductive WorkflowStatus := SETTLEMENT | LEGAL | BANKRUPTCY.

Inductive OfferStatus :=
| DRAFT
| SENT
| ACCEPTED
| REJECTED
| COUNTER_OFFER
| PENDING_APPROVAL
| REJECTED_BY_SUPERVISOR.

Inductive CommunicationChannel := SMS | EMAIL | PHONE.

#[global] Instance OfferStatus_eq_dec : EqDecision OfferStatus.
Proof. solve_decision. Defined.

(** [channel.value] *)
Definition channel_value (c : CommunicationChannel) : string :=
  match c with SMS => "SMS" | EMAIL => "Email" | PHONE => "Phone" end.

Record Customer := {
  customer_id : string;
  name : string;
  email : string;
  phone : string;
  address : string;
  risk_profile : string
}.

Record Loan := {
  loan_id : string;
  loan_customer_id : string;
  loan_type : LoanType;
  principal_amount : Q;
  outstanding_principal : Q;
  interest_amount : Q;
  penalties : Q;
  days_overdue : Z;
  current_balance : Q;
  workflow_status : WorkflowStatus;
  is_secured : bool
}.

Record Offer := {
  offer_id : string;
  offer_loan_id : string;
  agent_id : string;
  settlement_percentage : Q;
  settlement_amount : Q;
  due_date : datetime;
  status : OfferStatus;
  justification_notes : string;
  created_date : datetime;
  sent_date : option datetime;
  response_date : option datetime;
  supervisor_comments : string
}.

(** The entries of the [current_user] dictionary. *)
Record User := {
  user_name : string;
  role : string;
  user_id : string
}.

(** Assignments to the fields of an offer object. *)
Definition set_status (v : OfferStatus) (o : Offer) : Offer :=
  {| offer_id := offer_id o; offer_loan_id := offer_loan_id o; agent_id := agent_id o;
     settlement_percentage := settlement_percentage o;
     settlement_amount := settlement_amount o; due_date := due_date o;
     status := v; justification_notes := justification_notes o;
     created_date := created_date o; sent_date := sent_date o;
     response_date := response_date o; supervisor_comments := supervisor_comments o |}.

Definition set_sent_date (v : datetime) (o : Offer) : Offer :=
  {| offer_id := offer_id o; offer_loan_id := offer_loan_id o; agent_id := agent_id o;
     settlement_percentage := settlement_percentage o;
     settlement_amount := settlement_amount o; due_date := due_date o;
     status := status o; justification_notes := justification_notes o;
     created_date := created_date o; sent_date := Some v;
     response_date := response_date o; supervisor_comments := supervisor_comments o |}.

Definition set_response_date (v : datetime) (o : Offer) : Offer :=
  {| offer_id := offer_id o; offer_loan_id := offer_loan_id o; agent_id := agent_id o;
     settlement_percentage := settlement_percentage o;
     settlement_amount := settlement_amount o; due_date := due_date o;
     status := status o; justification_notes := justification_notes o;
     created_date := created_date o; sent_date := sent_date o;
     response_date := Some v; supervisor_comments := supervisor_comments o |}.

Definition set_supervisor_comments (v : string) (o : Offer) : Offer :=
  {| offer_id := offer_id o; offer_loan_id := offer_loan_id o; agent_id := agent_id o;
     settlement_percentage := settlement_percentage o;
     settlement_amount := settlement_amount o; due_date := due_date o;
     status := status o; justification_notes := justification_notes o;
     created_date := created_date o; sent_date := sent_date o;
     response_date := response_date o; supervisor_comments := v |}.

(** ** Policy guidelines

    [min_percentage = 40 if loan.is_secured else 35] and
    [max_percentage = 70 if loan.is_secured else 65], as written in
    [render_create_offer] and again in [render_supervisor_review]. *)

Definition min_percentage (loan : Loan) : Z := if is_secured loan then 40 else 35.
Definition max_percentage (loan : Loan) : Z := if is_secured loan then 70 else 65.

(** The policy band of a loan. *)
Definition policy_band (loan : Loan) : Z * Z := (min_percentage loan, max_percentage loan).

(** [min_percentage <= settlement_percentage <= max_percentage] *)
Definition is_within_policy (loan : Loan) (pct : Z) : bool :=
  (min_percentage loan <=? pct) && (pct <=? max_percentage loan).

(** [loan.current_balance * (settlement_percentage / 100)] *)
Definition amount_for (loan : Loan) (pct : Z) : Q :=
  (current_balance loan * (inject_Z pct / 100))%Q.

(** ** Page elements shared by the first and the third listing *)

(** The form of [render_create_offer]. *)
Inductive CreateButton := BackToLoanDetails | CreateOffer.

Record CreateInput := {
  create_click : option CreateButton;
  in_settlement_percentage : Z;
  in_due_date : date;
  in_justification_notes : string
}.

Definition policy_text (loan : Loan) : string :=
  "Policy Guidelines: Settlement percentage should be between "
  +:+ str_int (min_percentage loan) +:+ "% - " +:+ str_int (max_percentage loan)
  +:+ "% for " +:+ (if is_secured loan then "secured" else "unsecured") +:+ " loans".

Definition justification_required : string :=
  "Justification notes are required for offers outside policy guidelines".

Definition due_date_too_far : string :=
  "Due date cannot be more than 90 days from today".

(** The [errors] list built after the form is submitted. *)
Definition create_errors (loan : Loan) (inp : CreateInput) (now : datetime) : list string :=
  (if negb (is_within_policy loan (in_settlement_percentage inp))
      && negb (truthy (strip (in_justification_notes inp)))
   then [justification_required] else [])
  ++ (if date_of (plus_days now 90) <? in_due_date inp then [due_date_too_far] else []).

Definition is_pending (o : Offer) : bool := bool_decide (status o = PENDING_APPROVAL).

(** [[o for o in offers if o.status == OfferStatus.PENDING_APPROVAL]], as
    references into the list of the session state. *)
Definition pending_offers (l : list Offer) : list nat := positions_where is_pending 0 l.

(** The notices of the "Policy Analysis" column. *)
Definition policy_analysis {S} (offer : Offer) (loan : Loan) : Script S unit :=
  let min_pct := min_percentage loan in
  let max_pct := max_percentage loan in
  (if negb (Qle_bool (inject_Z min_pct) (settlement_percentage offer)) then
     notify (st_error ("⚠️ Below minimum policy (" +:+ str_int min_pct +:+ "%)"))
   else if negb (Qle_bool (settlement_percentage offer) (inject_Z max_pct)) then
     notify (st_error ("⚠️ Above maximum policy (" +:+ str_int max_pct +:+ "%)"))
   else notify (st_success "✅ Within policy guidelines"));;
  when (negb (Qle_bool (settlement_amount offer) 10000))
    (notify (st_warning "💰 High value offer (>$10k)")).

(** ** Sample offers

    The sample data are drawn at random; the draws are inputs of the model.
    [generate_sample_customers] and [generate_sample_loans] only produce
    reference data, which is taken as given. *)

(** What [generate_sample_offers] draws for one offer: the percentage
    ([np.random.uniform(40, 70)]), the days to the due date, the status
    ([np.random.choice(list(OfferStatus))]), the age in days, and the two
    clock readings. *)
Record SampleDraw := {
  drawn_percentage : Q;
  drawn_due_days : Z;
  drawn_status : OfferStatus;
  drawn_age_days : Z;
  drawn_now_due : datetime;
  drawn_now_created : datetime
}.

Definition sample_offer (i : nat) (loan : Loan) (d : SampleDraw) : Offer :=
  {| offer_id := "OFFER_" +:+ fmt_03d (i + 1);
     offer_loan_id := loan_id loan;
     agent_id := "agent_001";
     settlement_percentage := drawn_percentage d;
     settlement_amount := (current_balance loan * (drawn_percentage d / 100))%Q;
     due_date := plus_days (drawn_now_due d) (drawn_due_days d);
     status := drawn_status d;
     justification_notes :=
       "Customer showing financial hardship. Settlement within policy guidelines.";
     created_date := plus_days (drawn_now_created d) (- drawn_age_days d);
     sent_date := None;
     response_date := None;
     supervisor_comments := "" |}.

(** [generate_sample_offers]: one offer for each of the first three loans. *)
Definition generate_sample_offers (loans : list Loan) (draw : nat -> SampleDraw)
    : list Offer :=
  imap (fun i loan => sample_offer i loan (draw i)) (take 3 loans).

(** ** The values of the enumerations *)

Definition loan_type_value (t : LoanType) : string :=
  match t with
  | PERSONAL => "Personal"
  | MORTGAGE => "Mortgage"
  | BUSINESS => "Business"
  | CREDIT_CARD => "Credit Card"
  end.

Definition workflow_status_value (w : WorkflowStatus) : string :=
  match w with
  | SETTLEMENT => "Settlement"
  | LEGAL => "Legal"
  | BANKRUPTCY => "Bankruptcy"
  end.

Definition offer_status_value (st : OfferStatus) : string :=
  match st with
  | DRAFT => "Draft"
  | SENT => "Sent"
  | ACCEPTED => "Accepted"
  | REJECTED => "Rejected"
  | COUNTER_OFFER => "Counter Offer"
  | PENDING_APPROVAL => "Pending Approval"
  | REJECTED_BY_SUPERVISOR => "Rejected by Supervisor"
  end.

(** ** Sample customers and loans

    [generate_sample_customers] and [generate_sample_loans] of the first and
    the third listing.  What they draw at random is an input. *)

(** The entries that [np.random.choice(["Low", "Medium", "High"])] chooses
    from. *)
Inductive RiskDraw := Low | Medium | High.

Definition risk_value (r : RiskDraw) : string :=
  match r with Low => "Low" | Medium => "Medium" | High => "High" end.

Definition sample_names : list string :=
  ["Alice Johnson"; "Bob Wilson"; "Carol Davis"; "David Brown"; "Eva Martinez";
   "Frank Taylor"].

Definition sample_customer (i : nat) (name : string) (risk : RiskDraw) : Customer :=
  {| customer_id := "CUST_" +:+ fmt_03d (i + 1);
     name := name;
     email := replace_char " " "." (lower name) +:+ "@email.com";
     phone := "+1-555-" +:+ fmt_04d (1000 + i);
     address := str_nat (100 + i * 10) +:+ " Main St, City, State";
     risk_profile := risk_value risk |}.

(** [generate_sample_customers] *)
Definition generate_sample_customers (risk : nat -> RiskDraw) : list Customer :=
  imap (fun i name => sample_customer i name (risk i)) sample_names.

(** What [generate_sample_loans] draws for one loan: the principal
    ([np.random.uniform(5000, 50000)]), the share of it that is outstanding
    ([np.random.uniform(0.6, 1.0)]), the penalty rate
    ([np.random.uniform(0.05, 0.2)]), the loan type, the days overdue
    ([np.random.randint(30, 365)]), the workflow and whether the loan is
    secured. *)
Record LoanDraw := {
  drawn_principal : Q;
  drawn_outstanding_share : Q;
  drawn_penalty_rate : Q;
  drawn_loan_type : LoanType;
  drawn_days_overdue : Z;
  drawn_workflow_status : WorkflowStatus;
  drawn_is_secured : bool
}.

Definition sample_loan (i : nat) (customer : Customer) (d : LoanDraw) : Loan :=
  let principal := drawn_principal d in
  let outstanding := (principal * drawn_outstanding_share d)%Q in
  let interest := (outstanding * (15 # 100))%Q in
  let penalties := (outstanding * drawn_penalty_rate d)%Q in
  {| loan_id := "LOAN_" +:+ fmt_03d (i + 1);
     loan_customer_id := customer_id customer;
     loan_type := drawn_loan_type d;
     principal_amount := principal;
     outstanding_principal := outstanding;
     interest_amount := interest;
     penalties := penalties;
     days_overdue := drawn_days_overdue d;
     current_balance := (outstanding + interest + penalties)%Q;
     workflow_status := drawn_workflow_status d;
     is_secured := drawn_is_secured d |}.

(** [generate_sample_loans]: one loan for each customer of the session. *)
Definition generate_sample_loans (customers : list Customer) (draw : nat -> LoanDraw)
    : list Loan :=
  imap (fun i customer => sample_loan i customer (draw i)) customers.

(** ** The loan queue of the dashboard

    [render_dashboard] of the first and of the third listing build the same
    table. *)

(** A row of [loan_data]. *)
Record LoanRow := {
  row_loan_id : string;
  row_customer : string;
  row_loan_type : string;
  row_balance : string;
  row_overdue_days : Z;
  row_workflow : string;
  row_status : string;
  row_risk : string
}.

(** The three select boxes above the table. *)
Record QueueFilter := {
  workflow_filter : string;
  status_filter : string;
  overdue_filter : string
}.

(** [offers[-1].status.value if offers else "No Offers"] *)
Definition latest_offer_status (offers : list Offer) : string :=
  match last offers with
  | Some o => offer_status_value (status o)
  | None => "No Offers"
  end.

(** The [continue] statements of the loop: the loan is left out. *)
Definition filtered_out (f : QueueFilter) (loan : Loan) (latest_offer_status : string)
    : bool :=
  if negb (workflow_filter f =? "All")%string
     && negb (workflow_status_value (workflow_status loan) =? workflow_filter f)%string
  then true
  else if negb (status_filter f =? "All")%string
          && negb (latest_offer_status =? status_filter f)%string
  then true
  else if negb (overdue_filter f =? "All")%string then
    if (overdue_filter f =? "< 90 days")%string && (90 <=? days_overdue loan) then true
    else if (overdue_filter f =? "90-180 days")%string
            && negb ((90 <=? days_overdue loan) && (days_overdue loan <=? 180)) then true
    else if (overdue_filter f =? "> 180 days")%string && (days_overdue loan <=? 180)
    then true
    else false
  else false.

Definition loan_row (loan : Loan) (customer : option Customer)
    (latest_offer_status : string) : LoanRow :=
  {| row_loan_id := loan_id loan;
     row_customer := match customer with Some c => name c | None => "Unknown" end;
     row_loan_type := loan_type_value (loan_type loan);
     row_balance := format_currency (current_balance loan);
     row_overdue_days := days_overdue loan;
     row_workflow := workflow_status_value (workflow_status loan);
     row_status := latest_offer_status;
     row_risk := match customer with Some c => risk_profile c | None => "Unknown" end |}.

(** The loop that fills [loan_data]; the two lookups are those of the
    session. *)
Definition loan_data (get_customer_by_id : string -> option Customer)
    (get_offers_by_loan_id : string -> list Offer) (loans : list Loan) (f : QueueFilter)
    : list LoanRow :=
  omap (fun loan =>
    let customer := get_customer_by_id (loan_customer_id loan) in
    let offers := get_offers_by_loan_id (loan_id loan) in
    let latest := latest_offer_status offers in
    if filtered_out f loan latest then None else Some (loan_row loan customer latest))
    loans.

(** [{"Low": "green", "Medium": "orange", "High": "red"}] *)
Definition risk_colors (risk : string) : option string :=
  if (risk =? "Low")%string then Some "green"
  else if (risk =? "Medium")%string then Some "orange"
  else if (risk =? "High")%string then Some "red"
  else None.

(** * The third listing: create, send, respond, review *)

Module Workflow.

Record Communication := {
  communication_id : string;
  comm_loan_id : string;
  comm_offer_id : string;
  channel : CommunicationChannel;
  message_content : string;
  comm_sent_date : datetime;
  delivery_status : string
}.

Record CustomerResponse := {
  response_id : string;
  resp_offer_id : string;
  response_type : string;
  reason : string;
  counter_percentage : option Q;
  counter_amount : option Q;
  counter_due_date : option datetime;
  agent_notes : string;
  resp_response_date : datetime
}.

(** [st.session_state].  [selected_loan_id] and [current_offer_id] are keys
    that may be absent; [flags] holds the dialog keys
    ([show_reject_modal_<id>], [show_sendback_modal_<id>]) that are present,
    which the code only ever sets to [True] or deletes. *)
Record SessionState := {
  customers : list Customer;
  loans : list Loan;
  offers : list Offer;
  communications : list Communication;
  responses : list CustomerResponse;
  current_user : User;
  current_page : string;
  selected_loan_id : option string;
  current_offer_id : option string;
  flags : gset string
}.

Definition with_offers (f : list Offer -> list Offer) (s : SessionState) : SessionState :=
  {| customers := customers s; loans := loans s; offers := f (offers s);
     communications := communications s; responses := responses s;
     current_user := current_user s; current_page := current_page s;
     selected_loan_id := selected_loan_id s; current_offer_id := current_offer_id s;
     flags := flags s |}.

Definition with_communications (f : list Communication -> list Communication)
    (s : SessionState) : SessionState :=
  {| customers := customers s; loans := loans s; offers := offers s;
     communications := f (communications s); responses := responses s;
     current_user := current_user s; current_page := current_page s;
     selected_loan_id := selected_loan_id s; current_offer_id := current_offer_id s;
     flags := flags s |}.

Definition with_responses (f : list CustomerResponse -> list CustomerResponse)
    (s : SessionState) : SessionState :=
  {| customers := customers s; loans := loans s; offers := offers s;
     communications := communications s; responses := f (responses s);
     current_user := current_user s; current_page := current_page s;
     selected_loan_id := selected_loan_id s; current_offer_id := current_offer_id s;
     flags := flags s |}.

Definition with_current_page (p : string) (s : SessionState) : SessionState :=
  {| customers := customers s; loans := loans s; offers := offers s;
     communications := communications s; responses := responses s;
     current_user := current_user s; current_page := p;
     selected_loan_id := selected_loan_id s; current_offer_id := current_offer_id s;
     flags := flags s |}.

Definition with_current_offer_id (i : string) (s : SessionState) : SessionState :=
  {| customers := customers s; loans := loans s; offers := offers s;
     communications := communications s; responses := responses s;
     current_user := current_user s; current_page := current_page s;
     selected_loan_id := selected_loan_id s; current_offer_id := Some i;
     flags := flags s |}.

Definition with_flags (f : gset string -> gset string) (s : SessionState) : SessionState :=
  {| customers := customers s; loans := loans s; offers := offers s;
     communications := communications s; responses := responses s;
     current_user := current_user s; current_page := current_page s;
     selected_loan_id := selected_loan_id s; current_offer_id := current_offer_id s;
     flags := f (flags s) |}.

(** [next((c for c in customers if c.customer_id == customer_id), None)] *)
Definition get_customer_by_id (s : SessionState) (cid : string) : option Customer :=
  snd <$> list_find (fun c => customer_id c = cid) (customers s).

Definition get_loan_by_id (s : SessionState) (lid : string) : option Loan :=
  snd <$> list_find (fun l => loan_id l = lid) (loans s).

(** [[o for o in offers if o.loan_id == loan_id]] *)
Definition get_offers_by_loan_id (s : SessionState) (lid : string) : list Offer :=
  filter (fun o => offer_loan_id o = lid) (offers s).

(** [next((o for o in offers if o.offer_id == current_offer_id), None)].
    The result is a reference to an element of the list; the model keeps the
    position of that element. *)
Definition find_offer (s : SessionState) (oid : string) : option nat :=
  fst <$> list_find (fun o => offer_id o = oid) (offers s).

(** Assignment to a field of the offer object at position [i]: the list in
    the session state holds the same object. *)
Definition assign (i : nat) (f : Offer -> Offer) : Script SessionState unit :=
  modify (with_offers (alter f i)).

(** Read the offer object at position [i]. *)
Definition deref (i : nat) : Script SessionState Offer :=
  s ← get; attr (offers s !! i).

(** ** Initialize session state *)

(** [initialize_session_state] on a new session, where no key is set yet. *)
Definition initialize_session_state (customers : list Customer) (loans : list Loan)
    (draw : nat -> SampleDraw) : SessionState :=
  {| customers := customers;
     loans := loans;
     offers := generate_sample_offers loans draw;
     communications := [];
     responses := [];
     current_user := {| user_name := "John Smith"; role := "Agent"; user_id := "agent_001" |};
     current_page := "dashboard";
     selected_loan_id := None;
     current_offer_id := None;
     flags := ∅ |}.

(** ** Create Settlement Offer *)

Definition new_offer (s : SessionState) (loan : Loan) (inp : CreateInput)
    (now : datetime) : Offer :=
  {| offer_id := "OFFER_" +:+ fmt_03d (length (offers s) + 1);
     offer_loan_id := loan_id loan;
     agent_id := user_id (current_user s);
     settlement_percentage := inject_Z (in_settlement_percentage inp);
     settlement_amount := amount_for loan (in_settlement_percentage inp);
     due_date := combine_min (in_due_date inp);
     status := if negb (is_within_policy loan (in_settlement_percentage inp))
               then PENDING_APPROVAL else DRAFT;
     justification_notes := in_justification_notes inp;
     created_date := now;
     sent_date := None;
     response_date := None;
     supervisor_comments := "" |}.

(** [render_create_offer].  [now_check] is the clock read by the due-date
    validation, [now_created] the one stored as [created_date]. *)
Definition render_create_offer (inp : CreateInput) (now_check now_created : datetime)
    : Script SessionState unit :=
  s ← get;
  match selected_loan_id s with
  | None => notify (st_error "No loan selected");; py_return
  | Some lid =>
    loan ← attr (get_loan_by_id s lid);
    let customer := get_customer_by_id s (loan_customer_id loan) in
    match create_click inp with
    | Some BackToLoanDetails => modify (with_current_page "loan_detail");; rerun
    | click =>
      _ ← attr customer;
      notify (st_info (policy_text loan));;
      let within := is_within_policy loan (in_settlement_percentage inp) in
      when (negb within)
        (notify (st_warning "⚠️ Settlement percentage is outside policy guidelines!"));;
      match click with
      | Some CreateOffer =>
        let errors := create_errors loan inp now_check in
        match errors with
        | _ :: _ => for_each errors (fun e => notify (st_error e))
        | [] =>
          s ← get;
          let o := new_offer s loan inp now_created in
          modify (with_offers (fun l => l ++ [o]));;
          (if negb within
           then notify (st_success "Offer created and sent for supervisor approval!")
           else notify (st_success "Offer created successfully!"));;
          modify (with_current_page "send_offer");;
          modify (with_current_offer_id (offer_id o));;
          rerun
        end
      | _ => mret tt
      end
    end
  end.

(** ** Send Offer to Customer *)

Inductive SendButton := BackToCreateOffer | SendOffer.

Record SendInput := {
  send_click : option SendButton;
  in_channel : CommunicationChannel;
  in_message_content : string
}.

(** [render_send_offer].  [now_comm] is the clock stored in the communication
    record, [now_sent] the one stored as the offer's [sent_date]. *)
Definition render_send_offer (inp : SendInput) (now_comm now_sent : datetime)
    : Script SessionState unit :=
  s ← get;
  match current_offer_id s with
  | None => notify (st_error "No offer selected");; py_return
  | Some oid =>
    match find_offer s oid with
    | None => notify (st_error "Offer not found");; py_return
    | Some i =>
      offer ← deref i;
      loan ← attr (get_loan_by_id s (offer_loan_id offer));
      let customer := get_customer_by_id s (loan_customer_id loan) in
      match send_click inp with
      | Some BackToCreateOffer => modify (with_current_page "create_offer");; rerun
      | click =>
        _ ← attr customer;
        if decide (status offer = PENDING_APPROVAL) then
          notify (st_warning
            "⏳ This offer is pending supervisor approval and cannot be sent yet.");;
          py_return
        else
          match click with
          | Some SendOffer =>
            s ← get;
            let communication :=
              {| communication_id := "COMM_" +:+ fmt_03d (length (communications s) + 1);
                 comm_loan_id := loan_id loan;
                 comm_offer_id := offer_id offer;
                 channel := in_channel inp;
                 message_content := in_message_content inp;
                 comm_sent_date := now_comm;
                 delivery_status := "Delivered" |} in
            modify (with_communications (fun l => l ++ [communication]));;
            assign i (set_status SENT);;
            assign i (set_sent_date now_sent);;
            notify (st_success ("Offer sent successfully via "
                                +:+ channel_value (in_channel inp) +:+ "!"));;
            modify (with_current_page "customer_response");;
            rerun
          | _ => mret tt
          end
      end
    end
  end.

(** ** Customer Response Entry *)

Inductive ResponseChoice := Accepted | Rejected | Counter_offer.

(** The option labels of the radio widget. *)
Definition choice_label (c : ResponseChoice) : string :=
  match c with
  | Accepted => "Accepted"
  | Rejected => "Rejected"
  | Counter_offer => "Counter-offer"
  end.

Inductive ResponseButton := BackToDashboard | SaveCustomerResponse.

(** The widget values of the response form.  [in_rejection_reason] is read
    only for [Rejected], the counter terms only for [Counter_offer]. *)
Record ResponseInput := {
  response_click : option ResponseButton;
  in_response_type : ResponseChoice;
  in_rejection_reason : string;
  in_counter_percentage : Z;
  in_counter_due_date : date;
  in_agent_notes : string
}.

Definition is_counter (c : ResponseChoice) : bool :=
  match c with Counter_offer => true | _ => false end.

Definition is_rejected (c : ResponseChoice) : bool :=
  match c with Rejected => true | _ => false end.

Definition new_response (s : SessionState) (offer : Offer) (loan : Loan)
    (inp : ResponseInput) (now : datetime) : CustomerResponse :=
  let c := in_response_type inp in
  {| response_id := "RESP_" +:+ fmt_03d (length (responses s) + 1);
     resp_offer_id := offer_id offer;
     response_type := choice_label c;
     reason := if is_rejected c then in_rejection_reason inp else "";
     counter_percentage :=
       if is_counter c then Some (inject_Z (in_counter_percentage inp)) else None;
     counter_amount :=
       if is_counter c then Some (amount_for loan (in_counter_percentage inp)) else None;
     counter_due_date :=
       if is_counter c then Some (combine_min (in_counter_due_date inp)) else None;
     agent_notes := in_agent_notes inp;
     resp_response_date := now |}.

(** The offer built for a counter-offer response; [offer] is the responded
    offer as it is when the new one is built. *)
Definition counter_offer (s : SessionState) (offer : Offer) (loan : Loan)
    (inp : ResponseInput) (now : datetime) : Offer :=
  {| offer_id := "OFFER_" +:+ fmt_03d (length (offers s) + 1);
     offer_loan_id := loan_id loan;
     agent_id := user_id (current_user s);
     settlement_percentage := inject_Z (in_counter_percentage inp);
     settlement_amount := amount_for loan (in_counter_percentage inp);
     due_date := combine_min (in_counter_due_date inp);
     status := DRAFT;
     justification_notes :=
       "Counter-offer from customer. Original offer: "
       +:+ fmt_1f (settlement_percentage offer) +:+ "%";
     created_date := now;
     sent_date := None;
     response_date := None;
     supervisor_comments := "" |}.

(** [render_customer_response].  [now_record] is the clock stored in the
    response record, [now_offer] the one stored as the offer's
    [response_date], [now_created] the counter-offer's [created_date]. *)
Definition render_customer_response (inp : ResponseInput)
    (now_record now_offer now_created : datetime) : Script SessionState unit :=
  s ← get;
  match current_offer_id s with
  | None => notify (st_error "No offer selected");; py_return
  | Some oid =>
    match find_offer s oid with
    | None => notify (st_error "Offer not found");; py_return
    | Some i =>
      offer ← deref i;
      loan ← attr (get_loan_by_id s (offer_loan_id offer));
      let customer := get_customer_by_id s (loan_customer_id loan) in
      match response_click inp with
      | Some BackToDashboard => modify (with_current_page "dashboard");; rerun
      | Some SaveCustomerResponse =>
        s ← get;
        modify (with_responses (fun l => l ++ [new_response s offer loan inp now_record]));;
        match in_response_type inp with
        | Accepted =>
          assign i (set_status ACCEPTED);;
          assign i (set_response_date now_offer);;
          notify (st_success "✅ Customer accepted the offer! Terms are now locked.")
        | Rejected =>
          assign i (set_status REJECTED);;
          assign i (set_response_date now_offer);;
          notify (st_error "❌ Customer rejected the offer.")
        | Counter_offer =>
          assign i (set_status COUNTER_OFFER);;
          assign i (set_response_date now_offer);;
          s ← get;
          offer ← deref i;
          modify (with_offers (fun l => l ++ [counter_offer s offer loan inp now_created]));;
          notify (st_info
            "🔄 Counter-offer received! New draft offer created with customer's terms.")
        end;;
        modify (with_current_page "dashboard");;
        rerun
      | None => mret tt
      end
    end
  end.

(** ** Supervisor Review Panel *)

Inductive ReviewButton :=
| Approve (oid : string)
| Reject (oid : string)
| SendBack (oid : string)
| ConfirmRejection (oid : string)
| CancelReject (oid : string)
| SendBackToAgent (oid : string)
| CancelSendBack (oid : string).

#[global] Instance ReviewButton_eq_dec : EqDecision ReviewButton.
Proof. solve_decision. Defined.

(** The button clicked for this run, if any, and the content of the text
    areas by widget key. *)
Record ReviewInput := {
  review_click : option ReviewButton;
  in_text : string -> string
}.

Definition clicked (inp : ReviewInput) (b : ReviewButton) : bool :=
  bool_decide (review_click inp = Some b).

Definition reject_modal_key (oid : string) : string := "show_reject_modal_" +:+ oid.
Definition sendback_modal_key (oid : string) : string := "show_sendback_modal_" +:+ oid.

(** The body of [for offer in pending_offers] for the offer at position [i].
    All widget keys of the body end in the offer id; [seen] holds the ids of
    the offers rendered earlier in this run, and Streamlit refuses a second
    widget with a key already in use. *)
Definition review_offer (inp : ReviewInput) (seen : list string) (i : nat)
    : Script SessionState unit :=
  offer ← deref i;
  s ← get;
  loan ← attr (get_loan_by_id s (offer_loan_id offer));
  _ ← attr (get_customer_by_id s (loan_customer_id loan));
  let oid := offer_id offer in
  policy_analysis offer loan;;
  when (truthy (justification_notes offer)) (notify (st_info (justification_notes offer)));;
  when (bool_decide (oid ∈ seen)) (halt (Raised DuplicateWidgetID));;
  when (clicked inp (Approve oid))
    (assign i (set_status DRAFT);;
     notify (st_success "Offer approved! Agent can now send it to customer.");;
     rerun);;
  when (clicked inp (Reject oid))
    (modify (with_flags (fun f => f ∪ {[reject_modal_key oid]})));;
  when (clicked inp (SendBack oid))
    (modify (with_flags (fun f => f ∪ {[sendback_modal_key oid]})));;
  s ← get;
  when (bool_decide (reject_modal_key oid ∈ flags s))
    (let rejection_comments := in_text inp ("reject_comments_" +:+ oid) in
     when (clicked inp (ConfirmRejection oid))
       (if truthy (strip rejection_comments) then
          assign i (set_status REJECTED_BY_SUPERVISOR);;
          assign i (set_supervisor_comments rejection_comments);;
          notify (st_error "Offer rejected by supervisor.");;
          modify (with_flags (fun f => f ∖ {[reject_modal_key oid]}));;
          rerun
        else notify (st_error "Comments are required for rejection."));;
     when (clicked inp (CancelReject oid))
       (modify (with_flags (fun f => f ∖ {[reject_modal_key oid]}));; rerun));;
  s ← get;
  when (bool_decide (sendback_modal_key oid ∈ flags s))
    (let sendback_comments := in_text inp ("sendback_comments_" +:+ oid) in
     when (clicked inp (SendBackToAgent oid))
       (assign i (set_status DRAFT);;
        assign i (set_supervisor_comments sendback_comments);;
        notify (st_info "Offer sent back to agent for revision.");;
        modify (with_flags (fun f => f ∖ {[sendback_modal_key oid]}));;
        rerun);;
     when (clicked inp (CancelSendBack oid))
       (modify (with_flags (fun f => f ∖ {[sendback_modal_key oid]}));; rerun)).

(** The widget key suffix of the offer at position [i]. *)
Definition offer_key (i : nat) : Script SessionState string :=
  offer ← deref i; mret (offer_id offer).

(** [render_supervisor_review] *)
Definition render_supervisor_review (inp : ReviewInput) : Script SessionState unit :=
  s ← get;
  let pending := pending_offers (offers s) in
  match pending with
  | [] => notify (st_info "📭 No offers pending supervisor approval.");; py_return
  | _ => for_pending offer_key (review_offer inp) [] pending
  end.

(** ** The pages as one transition function *)

Inductive Action :=
| CreatePage (inp : CreateInput) (now_check now_created : datetime)
| SendPage (inp : SendInput) (now_comm now_sent : datetime)
| ResponsePage (inp : ResponseInput) (now_record now_offer now_created : datetime)
| ReviewPage (inp : ReviewInput).

Definition page (a : Action) : Script SessionState unit :=
  match a with
  | CreatePage inp n1 n2 => render_create_offer inp n1 n2
  | SendPage inp n1 n2 => render_send_offer inp n1 n2
  | ResponsePage inp n1 n2 n3 => render_customer_response inp n1 n2 n3
  | ReviewPage inp => render_supervisor_review inp
  end.

(** The session state after one run. *)
Definition step (s : SessionState) (a : Action) : SessionState := final (run (page a) s).

(** The session state after a sequence of runs. *)
Definition steps (s : SessionState) (l : list Action) : SessionState := fold_left step l s.


(** ** Main Dashboard *)

Definition with_selected_loan_id (lid : string) (s : SessionState) : SessionState :=
  {| customers := customers s; loans := loans s; offers := offers s;
     communications := communications s; responses := responses s;
     current_user := current_user s; current_page := current_page s;
     selected_loan_id := Some lid; current_offer_id := current_offer_id s;
     flags := flags s |}.

(** The widgets of the dashboard: the three filters, the rows selected in
    the table ([event.selection.rows]), and whether "View Loan Details" was
    clicked. *)
Record DashboardInput := {
  in_filter : QueueFilter;
  in_selection_rows : list nat;
  view_loan_details : bool
}.

(** The rows of the loan queue. *)
Definition loan_queue (s : SessionState) (f : QueueFilter) : list LoanRow :=
  loan_data (get_customer_by_id s) (get_offers_by_loan_id s) (loans s) f.

(** [df.iloc[k]]: a row that is not there raises. *)
Definition iloc {A} (row : option A) : Page SessionState A :=
  match row with
  | Some r => mret r
  | None => raise IndexError
  end.

(** [render_dashboard] *)
Definition render_dashboard (inp : DashboardInput) : Page SessionState unit :=
  s ← lift get;
  let df := loan_queue s (in_filter inp) in
  match df with
  | [] => lift (notify (st_info "No loans match the selected filters."))
  | _ :: _ =>
    match in_selection_rows inp with
    | [] => mret tt
    | selected_row :: _ =>
      row ← iloc (df !! selected_row);
      lift (when (view_loan_details inp)
              (modify (with_current_page "loan_detail");;
               modify (with_selected_loan_id (row_loan_id row));;
               rerun))
    end
  end.

(** ** Loan Detail View *)

(** The buttons of the page; [DetailBackToDashboard] is its "Back to
    Dashboard". *)
Inductive DetailButton :=
| DetailBackToDashboard
| CreateSettlementOffer
| AddCustomerNotes
| ViewAnalytics
| SaveNote
| CancelNote.

#[global] Instance DetailButton_eq_dec : EqDecision DetailButton.
Proof. solve_decision. Defined.

(** The keys [show_notes_modal] and [show_analytics_modal] are only ever
    set to [True] or to [False] and read with a default of [False]: such a
    key is in [flags] when its value is [True]. *)
Definition notes_modal_key : string := "show_notes_modal".
Definition analytics_modal_key : string := "show_analytics_modal".

(** [render_loan_detail] *)
Definition render_loan_detail (click : option DetailButton) : Page SessionState unit :=
  s ← lift get;
  match selected_loan_id s with
  | None => lift (notify (st_error "No loan selected");; py_return)
  | Some lid =>
    loan ← lift (attr (get_loan_by_id s lid));
    let customer := get_customer_by_id s (loan_customer_id loan) in
    let offers := get_offers_by_loan_id s (loan_id loan) in
    match click with
    | Some DetailBackToDashboard => lift (modify (with_current_page "dashboard");; rerun)
    | _ =>
      customer ← lift (attr customer);
      _ ← item (risk_colors (risk_profile customer));
      match offers with
      | [] => lift (notify (st_info "No previous offers for this loan."))
      | _ :: _ => mret tt
      end;;
      lift
        (when (bool_decide (click = Some CreateSettlementOffer))
           (modify (with_current_page "create_offer");; rerun);;
         when (bool_decide (click = Some AddCustomerNotes))
           (modify (with_flags (fun f => f ∪ {[notes_modal_key]})));;
         when (bool_decide (click = Some ViewAnalytics))
           (modify (with_flags (fun f => f ∪ {[analytics_modal_key]})));;
         s ← get;
         when (bool_decide (notes_modal_key ∈ flags s))
           (when (bool_decide (click = Some SaveNote))
              (notify (st_success "Note saved successfully!");;
               modify (with_flags (fun f => f ∖ {[notes_modal_key]}));;
               rerun);;
            when (bool_decide (click = Some CancelNote))
              (modify (with_flags (fun f => f ∖ {[notes_modal_key]}));; rerun)))
    end
  end.

(** ** Analytics Dashboard *)

(** The four metrics of [render_analytics] and the counts of its charts. *)
Definition total_offers (s : SessionState) : nat := length (offers s).

Definition accepted_offers (s : SessionState) : nat :=
  count_where (fun o => bool_decide (status o = ACCEPTED)) (offers s).

Definition total_settlement_amount (s : SessionState) : Q :=
  sum_Q (settlement_amount <$> filter (fun o => status o = ACCEPTED) (offers s)).

Definition avg_settlement_pct (s : SessionState) : Q :=
  match offers s with
  | [] => 0%Q
  | _ :: _ => mean (settlement_percentage <$> offers s)
  end.

Definition status_counts (s : SessionState) : gmap string nat :=
  count_by (fun o => offer_status_value (status o)) (offers s).

Definition loan_type_counts (s : SessionState) : gmap string nat :=
  count_by (fun l => loan_type_value (loan_type l)) (loans s).

Definition risk_counts (s : SessionState) : gmap string nat :=
  count_by risk_profile (customers s).

(** [render_analytics]: metrics and charts only. *)
Definition render_analytics : Script SessionState unit := mret tt.

(** ** All pages as one transition function

    The third listing ends before its [main]: a visit is a run of any one
    of its pages. *)

Inductive Visit :=
| DashboardPage (inp : DashboardInput)
| LoanDetailPage (click : option DetailButton)
| AnalyticsPage
| WorkflowPage (a : Action).

Definition visit (v : Visit) : Page SessionState unit :=
  match v with
  | DashboardPage inp => render_dashboard inp
  | LoanDetailPage click => render_loan_detail click
  | AnalyticsPage => lift render_analytics
  | WorkflowPage a => lift (page a)
  end.

(** The session state after one visit, and after a sequence of visits. *)
Definition visit_step (s : SessionState) (v : Visit) : SessionState :=
  after (run_page (visit v) s).

Definition visits (s : SessionState) (l : list Visit) : SessionState :=
  fold_left visit_step l s.

(** The session of the first run: [initialize_session_state] with the
    sample customers, loans and offers. *)
Definition first_session (risk : nat -> RiskDraw) (loan_draw : nat -> LoanDraw)
    (offer_draw : nat -> SampleDraw) : SessionState :=
  let customers := generate_sample_customers risk in
  initialize_session_state customers (generate_sample_loans customers loan_draw) offer_draw.
End Workflow.

(** * The first listing: create and one-click review *)

Module Basic.

Record SessionState := {
  customers : list Customer;
  loans : list Loan;
  offers : list Offer;
  current_user : User;
  current_page : string;
  selected_loan_id : option string
}.

Definition with_offers (f : list Offer -> list Offer) (s : SessionState) : SessionState :=
  {| customers := customers s; loans := loans s; offers := f (offers s);
     current_user := current_user s; current_page := current_page s;
     selected_loan_id := selected_loan_id s |}.

Definition with_current_page (p : string) (s : SessionState) : SessionState :=
  {| customers := customers s; loans := loans s; offers := offers s;
     current_user := current_user s; current_page := p;
     selected_loan_id := selected_loan_id s |}.

Definition get_customer_by_id (s : SessionState) (cid : string) : option Customer :=
  snd <$> list_find (fun c => customer_id c = cid) (customers s).

Definition get_loan_by_id (s : SessionState) (lid : string) : option Loan :=
  snd <$> list_find (fun l => loan_id l = lid) (loans s).

Definition assign (i : nat) (f : Offer -> Offer) : Script SessionState unit :=
  modify (with_offers (alter f i)).

Definition deref (i : nat) : Script SessionState Offer :=
  s ← get; attr (offers s !! i).

(** [initialize_session_state] on a new session. *)
Definition initialize_session_state (customers : list Customer) (loans : list Loan)
    (draw : nat -> SampleDraw) : SessionState :=
  {| customers := customers;
     loans := loans;
     offers := generate_sample_offers loans draw;
     current_user := {| user_name := "John Smith"; role := "Agent"; user_id := "agent_001" |};
     current_page := "dashboard";
     selected_loan_id := None |}.

(** ** Create Settlement Offer *)

Definition new_offer (s : SessionState) (loan : Loan) (inp : CreateInput)
    (now : datetime) : Offer :=
  let pct := in_settlement_percentage inp in
  {| offer_id := "OFFER_" +:+ fmt_03d (length (offers s) + 1);
     offer_loan_id := loan_id loan;
     agent_id := user_id (current_user s);
     settlement_percentage := inject_Z pct;
     settlement_amount := amount_for loan pct;
     due_date := combine_min (in_due_date inp);
     status := if negb (is_within_policy loan pct) then PENDING_APPROVAL else DRAFT;
     justification_notes := in_justification_notes inp;
     created_date := now;
     sent_date := None;
     response_date := None;
     supervisor_comments := "" |}.

(** [render_create_offer] of the first listing: the form, its validation and
    the offer are those of the third listing; after the offer is appended
    the page goes back to the dashboard. *)
Definition render_create_offer (inp : CreateInput) (now_check now_created : datetime)
    : Script SessionState unit :=
  s ← get;
  match selected_loan_id s with
  | None => notify (st_error "No loan selected");; py_return
  | Some lid =>
    loan ← attr (get_loan_by_id s lid);
    let customer := get_customer_by_id s (loan_customer_id loan) in
    match create_click inp with
    | Some BackToLoanDetails => modify (with_current_page "loan_detail");; rerun
    | click =>
      _ ← attr customer;
      notify (st_info (policy_text loan));;
      let within := is_within_policy loan (in_settlement_percentage inp) in
      when (negb within)
        (notify (st_warning "⚠️ Settlement percentage is outside policy guidelines!"));;
      match click with
      | Some CreateOffer =>
        let errors := create_errors loan inp now_check in
        match errors with
        | _ :: _ => for_each errors (fun e => notify (st_error e))
        | [] =>
          s ← get;
          modify (with_offers (fun l => l ++ [new_offer s loan inp now_created]));;
          (if negb within
           then notify (st_success "Offer created and sent for supervisor approval!")
           else notify (st_success "Offer created successfully!"));;
          modify (with_current_page "dashboard");;
          rerun
        end
      | _ => mret tt
      end
    end
  end.

(** ** Supervisor Review Panel *)

Inductive ReviewButton :=
| Approve (oid : string)
| Reject (oid : string)
| SendBack (oid : string).

#[global] Instance ReviewButton_eq_dec : EqDecision ReviewButton.
Proof. solve_decision. Defined.

Definition clicked (click : option ReviewButton) (b : ReviewButton) : bool :=
  bool_decide (click = Some b).

(** The body of the loop: the decision is applied by the button itself, with
    a fixed supervisor comment. *)
Definition review_offer (click : option ReviewButton) (seen : list string) (i : nat)
    : Script SessionState unit :=
  offer ← deref i;
  s ← get;
  loan ← attr (get_loan_by_id s (offer_loan_id offer));
  _ ← attr (get_customer_by_id s (loan_customer_id loan));
  let oid := offer_id offer in
  policy_analysis offer loan;;
  when (truthy (justification_notes offer)) (notify (st_info (justification_notes offer)));;
  when (bool_decide (oid ∈ seen)) (halt (Raised DuplicateWidgetID));;
  when (clicked click (Approve oid))
    (assign i (set_status DRAFT);;
     notify (st_success "Offer approved! Agent can now send it to customer.");;
     rerun);;
  when (clicked click (Reject oid))
    (assign i (set_status REJECTED_BY_SUPERVISOR);;
     assign i (set_supervisor_comments "Rejected by supervisor - outside policy guidelines");;
     notify (st_error "Offer rejected by supervisor.");;
     rerun);;
  when (clicked click (SendBack oid))
    (assign i (set_status DRAFT);;
     assign i (set_supervisor_comments "Sent back for revision - please adjust terms");;
     notify (st_info "Offer sent back to agent for revision.");;
     rerun).

Definition offer_key (i : nat) : Script SessionState string :=
  offer ← deref i; mret (offer_id offer).

Definition render_supervisor_review (click : option ReviewButton)
    : Script SessionState unit :=
  s ← get;
  let pending := pending_offers (offers s) in
  match pending with
  | [] => notify (st_info "📭 No offers pending supervisor approval.");; py_return
  | _ => for_pending offer_key (review_offer click) [] pending
  end.

(** ** The pages as one transition function *)

Inductive Action :=
| CreatePage (inp : CreateInput) (now_check now_created : datetime)
| ReviewPage (click : option ReviewButton).

Definition page (a : Action) : Script SessionState unit :=
  match a with
  | CreatePage inp n1 n2 => render_create_offer inp n1 n2
  | ReviewPage click => render_supervisor_review click
  end.

Definition step (s : SessionState) (a : Action) : SessionState := final (run (page a) s).

Definition steps (s : SessionState) (l : list Action) : SessionState := fold_left step l s.


(** ** Sidebar *)

Definition with_selected_loan_id (lid : string) (s : SessionState) : SessionState :=
  {| customers := customers s; loans := loans s; offers := offers s;
     current_user := current_user s; current_page := current_page s;
     selected_loan_id := Some lid |}.

(** [[o for o in offers if o.loan_id == loan_id]] *)
Definition get_offers_by_loan_id (s : SessionState) (lid : string) : list Offer :=
  filter (fun o => offer_loan_id o = lid) (offers s).

(** The navigation buttons of [render_sidebar]. *)
Inductive NavButton := NavDashboard | NavAnalytics | NavSupervisorPanel.

(** [render_sidebar]: the feature list is text; the buttons navigate. *)
Definition render_sidebar (click : option NavButton) : Script SessionState unit :=
  match click with
  | Some NavDashboard => modify (with_current_page "dashboard");; rerun
  | Some NavAnalytics => modify (with_current_page "analytics");; rerun
  | Some NavSupervisorPanel => modify (with_current_page "supervisor");; rerun
  | None => mret tt
  end.

(** ** Main Dashboard *)

(** The widgets of the dashboard: the three filters, the select box under
    the table, and whether "View Loan Details" was clicked. *)
Record DashboardInput := {
  in_filter : QueueFilter;
  in_selected_loan_id : string;
  view_loan_details : bool
}.

(** The rows of the loan queue. *)
Definition loan_queue (s : SessionState) (f : QueueFilter) : list LoanRow :=
  loan_data (get_customer_by_id s) (get_offers_by_loan_id s) (loans s) f.

(** The options of the select box under the table. *)
Definition loan_options (s : SessionState) (f : QueueFilter) : list string :=
  "None" :: (row_loan_id <$> loan_queue s f).

(** The metrics at the top of the dashboard: the number of loans, of offers
    in Draft or Sent, and the sum of the balances. *)
Definition total_loans (s : SessionState) : nat := length (loans s).

Definition open_offers (s : SessionState) : nat :=
  count_where (fun o => bool_decide (status o = DRAFT) || bool_decide (status o = SENT))
    (offers s).

Definition total_balance (s : SessionState) : Q := sum_Q (current_balance <$> loans s).

(** [render_dashboard] *)
Definition render_dashboard (inp : DashboardInput) : Script SessionState unit :=
  s ← get;
  match loan_queue s (in_filter inp) with
  | [] => notify (st_info "No loans match the selected filters.")
  | _ :: _ =>
    when (negb (in_selected_loan_id inp =? "None")%string)
      (when (view_loan_details inp)
         (modify (with_current_page "loan_detail");;
          modify (with_selected_loan_id (in_selected_loan_id inp));;
          rerun))
  end.

(** ** Loan Detail View *)

Inductive DetailButton :=
| BackToDashboard
| CreateSettlementOffer
| AddCustomerNotes
| ViewAnalytics.

(** [render_loan_detail] *)
Definition render_loan_detail (click : option DetailButton) : Page SessionState unit :=
  s ← lift get;
  match selected_loan_id s with
  | None => lift (notify (st_error "No loan selected");; py_return)
  | Some lid =>
    match get_loan_by_id s lid with
    | None => lift (notify (st_error "Loan not found");; py_return)
    | Some loan =>
      let customer := get_customer_by_id s (loan_customer_id loan) in
      let offers := get_offers_by_loan_id s (loan_id loan) in
      match click with
      | Some BackToDashboard => lift (modify (with_current_page "dashboard");; rerun)
      | _ =>
        customer ← lift (attr customer);
        _ ← item (risk_colors (risk_profile customer));
        match offers with
        | [] => lift (notify (st_info "No previous offers for this loan."))
        | _ :: _ => mret tt
        end;;
        match click with
        | Some CreateSettlementOffer =>
          lift (modify (with_current_page "create_offer");; rerun)
        | Some AddCustomerNotes =>
          lift (notify (st_info "Note functionality would be implemented here"))
        | Some ViewAnalytics => lift (modify (with_current_page "analytics");; rerun)
        | _ => mret tt
        end
      end
    end
  end.

(** ** Analytics Dashboard *)

(** The four metrics of [render_analytics] and the counts of its pie chart. *)
Definition total_offers (s : SessionState) : nat := length (offers s).

Definition accepted_offers (s : SessionState) : nat :=
  count_where (fun o => bool_decide (status o = ACCEPTED)) (offers s).

Definition total_settlement_amount (s : SessionState) : Q :=
  sum_Q (settlement_amount <$> filter (fun o => status o = ACCEPTED) (offers s)).

Definition avg_settlement_pct (s : SessionState) : Q :=
  match offers s with
  | [] => 0%Q
  | _ :: _ => mean (settlement_percentage <$> offers s)
  end.

Definition status_counts (s : SessionState) : gmap string nat :=
  count_by (fun o => offer_status_value (status o)) (offers s).

(** [render_analytics]: metrics and charts only. *)
Definition render_analytics : Script SessionState unit := mret tt.

(** ** Main Application *)

(** What the browser sends for one run of the script: the widgets of the
    sidebar and of each page.  Only the page that is rendered reads its
    part. *)
Record Browser := {
  on_sidebar : option NavButton;
  on_dashboard : DashboardInput;
  on_loan_detail : option DetailButton;
  on_create_offer : CreateInput;
  now_check : datetime;
  now_created : datetime;
  on_supervisor : option ReviewButton
}.

(** [main] on a session whose keys are set, where
    [initialize_session_state] does nothing. *)
Definition main (b : Browser) : Page SessionState unit :=
  lift (render_sidebar (on_sidebar b));;
  s ← lift get;
  let current := current_page s in
  if (current =? "dashboard")%string then lift (render_dashboard (on_dashboard b))
  else if (current =? "loan_detail")%string then render_loan_detail (on_loan_detail b)
  else if (current =? "create_offer")%string then
    lift (render_create_offer (on_create_offer b) (now_check b) (now_created b))
  else if (current =? "analytics")%string then lift render_analytics
  else if (current =? "supervisor")%string then
    lift (render_supervisor_review (on_supervisor b))
  else mret tt.

(** The session state after one run of [main], and after a sequence of
    runs. *)
Definition main_step (s : SessionState) (b : Browser) : SessionState :=
  after (run_page (main b) s).

Definition main_steps (s : SessionState) (l : list Browser) : SessionState :=
  fold_left main_step l s.

(** The session of the first run: [initialize_session_state] with the
    sample customers, loans and offers. *)
Definition first_session (risk : nat -> RiskDraw) (loan_draw : nat -> LoanDraw)
    (offer_draw : nat -> SampleDraw) : SessionState :=
  let customers := generate_sample_customers risk in
  initialize_session_state customers (generate_sample_loans customers loan_draw) offer_draw.

End Basic.

(** * The second listing: the supervisor panel *)

Module Enhanced.

Inductive LoanType := PERSONAL | MORTGAGE | BUSINESS | CREDIT_CARD | AUTO | STUDENT.

Inductive WorkflowStatus := SETTLEMENT | LEGAL | BANKRUPTCY | PAYMENT_PLAN | HARDSHIP.

Inductive OfferStatus :=
| DRAFT
| SENT
| ACCEPTED
| REJECTED
| COUNTER_OFFER
| PENDING_APPROVAL
| REJECTED_BY_SUPERVISOR
| EXPIRED
| CANCELLED.

#[global] Instance OfferStatus_eq_dec : EqDecision OfferStatus.
Proof. solve_decision. Defined.

Inductive Priority := LOW | MEDIUM | HIGH | CRITICAL.

Record Customer := {
  customer_id : string;
  name : string;
  email : string;
  phone : string;
  address : string;
  risk_profile : string;
  credit_score : Z;
  employment_status : string;
  annual_income : Q;
  preferred_contact : string;
  last_contact_date : datetime
}.

Record Loan := {
  loan_id : string;
  loan_customer_id : string;
  loan_type : LoanType;
  principal_amount : Q;
  outstanding_principal : Q;
  interest_amount : Q;
  penalties : Q;
  days_overdue : Z;
  current_balance : Q;
  workflow_status : WorkflowStatus;
  is_secured : bool;
  priority : Priority;
  assigned_agent : string;
  original_due_date : datetime;
  last_payment_date : datetime;
  last_payment_amount : Q
}.

Record Offer := {
  offer_id : string;
  offer_loan_id : string;
  agent_id : string;
  settlement_percentage : Q;
  settlement_amount : Q;
  due_date : datetime;
  status : OfferStatus;
  justification_notes : string;
  created_date : datetime;
  sent_date : option datetime;
  response_date : option datetime;
  supervisor_comments : string;
  expiry_date : option datetime;
  payment_terms : string
}.

Definition set_status (v : OfferStatus) (o : Offer) : Offer :=
  {| offer_id := offer_id o; offer_loan_id := offer_loan_id o; agent_id := agent_id o;
     settlement_percentage := settlement_percentage o;
     settlement_amount := settlement_amount o; due_date := due_date o;
     status := v; justification_notes := justification_notes o;
     created_date := created_date o; sent_date := sent_date o;
     response_date := response_date o; supervisor_comments := supervisor_comments o;
     expiry_date := expiry_date o; payment_terms := payment_terms o |}.

Definition set_sent_date (v : datetime) (o : Offer) : Offer :=
  {| offer_id := offer_id o; offer_loan_id := offer_loan_id o; agent_id := agent_id o;
     settlement_percentage := settlement_percentage o;
     settlement_amount := settlement_amount o; due_date := due_date o;
     status := status o; justification_notes := justification_notes o;
     created_date := created_date o; sent_date := Some v;
     response_date := response_date o; supervisor_comments := supervisor_comments o;
     expiry_date := expiry_date o; payment_terms := payment_terms o |}.

(** The keys of [st.session_state] that the supervisor panel reads or
    writes; [request_changes_offer] and [view_offer_details] may be absent. *)
Record SessionState := {
  customers : list Customer;
  loans : list Loan;
  offers : list Offer;
  current_page : string;
  show_hints : bool;
  request_changes_offer : option string;
  view_offer_details : option string
}.

Definition with_offers (f : list Offer -> list Offer) (s : SessionState) : SessionState :=
  {| customers := customers s; loans := loans s; offers := f (offers s);
     current_page := current_page s; show_hints := show_hints s;
     request_changes_offer := request_changes_offer s;
     view_offer_details := view_offer_details s |}.

Definition with_request_changes_offer (v : string) (s : SessionState) : SessionState :=
  {| customers := customers s; loans := loans s; offers := offers s;
     current_page := current_page s; show_hints := show_hints s;
     request_changes_offer := Some v;
     view_offer_details := view_offer_details s |}.

Definition with_view_offer_details (v : string) (s : SessionState) : SessionState :=
  {| customers := customers s; loans := loans s; offers := offers s;
     current_page := current_page s; show_hints := show_hints s;
     request_changes_offer := request_changes_offer s;
     view_offer_details := Some v |}.

Definition get_customer_by_id (s : SessionState) (cid : string) : option Customer :=
  snd <$> list_find (fun c => customer_id c = cid) (customers s).

Definition get_loan_by_id (s : SessionState) (lid : string) : option Loan :=
  snd <$> list_find (fun l => loan_id l = lid) (loans s).

Definition assign (i : nat) (f : Offer -> Offer) : Script SessionState unit :=
  modify (with_offers (alter f i)).

Definition deref (i : nat) : Script SessionState Offer :=
  s ← get; attr (offers s !! i).

Definition is_pending (o : Offer) : bool := bool_decide (status o = PENDING_APPROVAL).

Definition pending_offers (l : list Offer) : list nat := positions_where is_pending 0 l.

Inductive PanelButton :=
| Approve (oid : string)
| Reject (oid : string)
| RequestChanges (oid : string)
| ViewDetails (oid : string).

#[global] Instance PanelButton_eq_dec : EqDecision PanelButton.
Proof. solve_decision. Defined.

Definition clicked (click : option PanelButton) (b : PanelButton) : bool :=
  bool_decide (click = Some b).

(** The body of [for offer in pending_offers]; [now] is the clock stored as
    [sent_date] on approval. *)
Definition panel_offer (click : option PanelButton) (now : datetime) (seen : list string)
    (i : nat) : Script SessionState unit :=
  offer ← deref i;
  s ← get;
  loan ← attr (get_loan_by_id s (offer_loan_id offer));
  _ ← attr (get_customer_by_id s (loan_customer_id loan));
  let oid := offer_id offer in
  when (bool_decide (oid ∈ seen)) (halt (Raised DuplicateWidgetID));;
  when (clicked click (Approve oid))
    (assign i (set_status SENT);;
     assign i (set_sent_date now);;
     notify (st_success ("Offer " +:+ oid +:+ " approved and sent!"));;
     rerun);;
  when (clicked click (Reject oid))
    (assign i (set_status REJECTED_BY_SUPERVISOR);;
     notify (st_warning ("Offer " +:+ oid +:+ " rejected!"));;
     rerun);;
  when (clicked click (RequestChanges oid)) (modify (with_request_changes_offer oid));;
  when (clicked click (ViewDetails oid)) (modify (with_view_offer_details oid)).

Definition offer_key (i : nat) : Script SessionState string :=
  offer ← deref i; mret (offer_id offer).

(** [render_supervisor_panel] *)
Definition render_supervisor_panel (click : option PanelButton) (now : datetime)
    : Script SessionState unit :=
  s ← get;
  let pending := pending_offers (offers s) in
  match pending with
  | [] => notify (st_info "No offers pending approval at this time.")
  | _ => for_pending offer_key (panel_offer click now) [] pending
  end.

(** ** The dashboard filters of the second listing *)

Definition workflow_status_value (w : WorkflowStatus) : string :=
  match w with
  | SETTLEMENT => "Settlement"
  | LEGAL => "Legal"
  | BANKRUPTCY => "Bankruptcy"
  | PAYMENT_PLAN => "Payment Plan"
  | HARDSHIP => "Hardship Program"
  end.

Definition priority_value (p : Priority) : string :=
  match p with
  | LOW => "Low"
  | MEDIUM => "Medium"
  | HIGH => "High"
  | CRITICAL => "Critical"
  end.

(** The four select boxes of "Advanced Filters". *)
Record LoanFilter := {
  workflow_filter : string;
  priority_filter : string;
  agent_filter : string;
  balance_filter : string
}.

(** The options of "Balance Range" after "All". *)
Definition balance_ranges : list string :=
  ["< $10K"; "$10K - $50K"; "$50K - $100K"; "> $100K"].

(** The test of a balance range on one loan; a text that is none of the
    four options keeps the loan. *)
Definition in_balance_range (range : string) (l : Loan) : bool :=
  if (range =? "< $10K")%string then negb (Qle_bool 10000 (current_balance l))
  else if (range =? "$10K - $50K")%string then
    Qle_bool 10000 (current_balance l) && Qle_bool (current_balance l) 50000
  else if (range =? "$50K - $100K")%string then
    Qle_bool 50000 (current_balance l) && Qle_bool (current_balance l) 100000
  else if (range =? "> $100K")%string then negb (Qle_bool (current_balance l) 100000)
  else true.

(** The block "Apply filters" of [render_enhanced_dashboard]; [me] is the
    [user_id] of the current user. *)
Definition filtered_loans (me : string) (f : LoanFilter) (all : list Loan) : list Loan :=
  let l0 := all in
  let l1 :=
    if negb (workflow_filter f =? "All")%string
    then filter (fun l => workflow_status_value (workflow_status l) = workflow_filter f) l0
    else l0 in
  let l2 :=
    if negb (priority_filter f =? "All")%string
    then filter (fun l => priority_value (priority l) = priority_filter f) l1
    else l1 in
  let l3 :=
    if (agent_filter f =? "My Loans Only")%string
    then filter (fun l => assigned_agent l = me) l2
    else if negb (agent_filter f =? "All")%string
    then filter (fun l => assigned_agent l = agent_filter f) l2
    else l2 in
  if negb (balance_filter f =? "All")%string
  then filter (fun l => in_balance_range (balance_filter f) l = true) l3
  else l3.

(** ** The dialogs of the second listing *)

Inductive CommunicationChannel := SMS | EMAIL | PHONE | MAIL | PORTAL.

Definition channel_value (c : CommunicationChannel) : string :=
  match c with
  | SMS => "SMS"
  | EMAIL => "Email"
  | PHONE => "Phone"
  | MAIL => "Physical Mail"
  | PORTAL => "Customer Portal"
  end.

(** [list(CommunicationChannel)] *)
Definition channels : list CommunicationChannel := [SMS; EMAIL; PHONE; MAIL; PORTAL].

(** [[c.value for c in CommunicationChannel]] *)
Definition channel_values : list string := channel_value <$> channels.

(** [CommunicationChannel(value)]: the member with this value, if any. *)
Definition channel_of_value (v : string) : option CommunicationChannel :=
  snd <$> list_find (fun c => channel_value c = v) channels.

(** The texts [np.random.choice(contact_preferences)] draws from in
    [generate_enhanced_customers]. *)
Definition contact_preferences : list string := ["Email"; "Phone"; "SMS"; "Mail"].

Record Communication := {
  communication_id : string;
  comm_loan_id : string;
  comm_offer_id : string;
  channel : CommunicationChannel;
  message_content : string;
  comm_sent_date : datetime;
  delivery_status : string;
  comm_agent_id : string
}.

Record Note := {
  note_id : string;
  note_loan_id : string;
  note_agent_id : string;
  note_content : string;
  note_type : string;
  note_created_date : datetime;
  is_important : bool
}.

(** The session state with the keys of the loan view and of its dialogs:
    the five [show_*_modal] keys hold a loan id or are absent, [user_id] is
    [current_user['user_id']]. *)
Record Desk := {
  session : SessionState;
  communications : list Communication;
  notes : list Note;
  user_id : string;
  show_offer_modal : option string;
  show_contact_modal : option string;
  show_note_modal : option string;
  show_analytics_modal : option string;
  show_status_modal : option string
}.

Definition with_session (f : SessionState -> SessionState) (d : Desk) : Desk :=
  {| session := f (session d); communications := communications d; notes := notes d;
     user_id := user_id d; show_offer_modal := show_offer_modal d;
     show_contact_modal := show_contact_modal d; show_note_modal := show_note_modal d;
     show_analytics_modal := show_analytics_modal d;
     show_status_modal := show_status_modal d |}.

Definition with_communications (f : list Communication -> list Communication) (d : Desk)
    : Desk :=
  {| session := session d; communications := f (communications d); notes := notes d;
     user_id := user_id d; show_offer_modal := show_offer_modal d;
     show_contact_modal := show_contact_modal d; show_note_modal := show_note_modal d;
     show_analytics_modal := show_analytics_modal d;
     show_status_modal := show_status_modal d |}.

Definition with_notes (f : list Note -> list Note) (d : Desk) : Desk :=
  {| session := session d; communications := communications d; notes := f (notes d);
     user_id := user_id d; show_offer_modal := show_offer_modal d;
     show_contact_modal := show_contact_modal d; show_note_modal := show_note_modal d;
     show_analytics_modal := show_analytics_modal d;
     show_status_modal := show_status_modal d |}.

Definition with_show_offer_modal (v : option string) (d : Desk) : Desk :=
  {| session := session d; communications := communications d; notes := notes d;
     user_id := user_id d; show_offer_modal := v;
     show_contact_modal := show_contact_modal d; show_note_modal := show_note_modal d;
     show_analytics_modal := show_analytics_modal d;
     show_status_modal := show_status_modal d |}.

Definition with_show_contact_modal (v : option string) (d : Desk) : Desk :=
  {| session := session d; communications := communications d; notes := notes d;
     user_id := user_id d; show_offer_modal := show_offer_modal d;
     show_contact_modal := v; show_note_modal := show_note_modal d;
     show_analytics_modal := show_analytics_modal d;
     show_status_modal := show_status_modal d |}.

Definition with_show_note_modal (v : option string) (d : Desk) : Desk :=
  {| session := session d; communications := communications d; notes := notes d;
     user_id := user_id d; show_offer_modal := show_offer_modal d;
     show_contact_modal := show_contact_modal d; show_note_modal := v;
     show_analytics_modal := show_analytics_modal d;
     show_status_modal := show_status_modal d |}.

Definition with_show_analytics_modal (v : option string) (d : Desk) : Desk :=
  {| session := session d; communications := communications d; notes := notes d;
     user_id := user_id d; show_offer_modal := show_offer_modal d;
     show_contact_modal := show_contact_modal d; show_note_modal := show_note_modal d;
     show_analytics_modal := v;
     show_status_modal := show_status_modal d |}.

Definition with_show_status_modal (v : option string) (d : Desk) : Desk :=
  {| session := session d; communications := communications d; notes := notes d;
     user_id := user_id d; show_offer_modal := show_offer_modal d;
     show_contact_modal := show_contact_modal d; show_note_modal := show_note_modal d;
     show_analytics_modal := show_analytics_modal d;
     show_status_modal := v |}.

Definition with_customers (f : list Customer -> list Customer) (s : SessionState)
    : SessionState :=
  {| customers := f (customers s); loans := loans s; offers := offers s;
     current_page := current_page s; show_hints := show_hints s;
     request_changes_offer := request_changes_offer s;
     view_offer_details := view_offer_details s |}.

(** [customer.last_contact_date = v] *)
Definition set_last_contact_date (v : datetime) (c : Customer) : Customer :=
  {| customer_id := customer_id c; name := name c; email := email c; phone := phone c;
     address := address c; risk_profile := risk_profile c; credit_score := credit_score c;
     employment_status := employment_status c; annual_income := annual_income c;
     preferred_contact := preferred_contact c; last_contact_date := v |}.

(** [[o for o in offers if o.loan_id == loan_id]] *)
Definition get_offers_by_loan_id (s : SessionState) (lid : string) : list Offer :=
  filter (fun o => offer_loan_id o = lid) (offers s).

(** [[n for n in notes if n.loan_id == loan_id]] *)
Definition get_notes_by_loan_id (d : Desk) (lid : string) : list Note :=
  filter (fun n => note_loan_id n = lid) (notes d).

(** The buttons of the three dialogs.  None of them has a [key]: a button
    is known by its label, and "Cancel" has the same label in all three. *)
Inductive ModalButton :=
| ModalCreateOffer
| ModalCreateAndSend
| ModalSendMessage
| ModalAddNote
| ModalCancel.

#[global] Instance ModalButton_eq_dec : EqDecision ModalButton.
Proof. solve_decision. Defined.

(** [st.button(label, use_container_width=True)]: a second button with the
    label of one that this run has already drawn raises; otherwise the
    button tells whether it was the one clicked. *)
Definition button (seen : list ModalButton) (click : option ModalButton) (b : ModalButton)
    : Script Desk bool :=
  if bool_decide (b ∈ seen) then halt (Raised DuplicateWidgetID)
  else mret (bool_decide (click = Some b)).

(** *** Create Settlement Offer *)

Record OfferModalInput := {
  in_settlement_percentage : Q;
  in_payment_terms : string;
  in_due_date : date;
  in_expiry_date : date;
  in_justification : string
}.

Definition modal_offer (d : Desk) (lid : string) (loan : Loan) (inp : OfferModalInput)
    (st : OfferStatus) (created : datetime) (sent : option datetime) : Offer :=
  {| offer_id := "OFFER_" +:+ fmt_03d (length (offers (session d)) + 1);
     offer_loan_id := lid;
     agent_id := user_id d;
     settlement_percentage := in_settlement_percentage inp;
     settlement_amount := current_balance loan * (in_settlement_percentage inp / 100);
     due_date := combine_min (in_due_date inp);
     status := st;
     justification_notes := in_justification inp;
     created_date := created;
     sent_date := sent;
     response_date := None;
     supervisor_comments := "";
     expiry_date := Some (combine_min (in_expiry_date inp));
     payment_terms := in_payment_terms inp |}.

(** [render_create_offer_modal]; [n1] and [n2] are the two readings of the
    clock that "Create & Send" stores. *)
Definition render_create_offer_modal (seen : list ModalButton) (inp : OfferModalInput)
    (click : option ModalButton) (n1 n2 : datetime) : Script Desk unit :=
  d ← get;
  lid ← attr (show_offer_modal d);
  loan ← attr (get_loan_by_id (session d) lid);
  create ← button seen click ModalCreateOffer;
  when create
    (d ← get;
     let new_offer := modal_offer d lid loan inp DRAFT n1 None in
     modify (with_session (with_offers (fun l => l ++ [new_offer])));;
     notify (st_success ("✅ Offer " +:+ offer_id new_offer +:+ " created successfully!"));;
     modify (with_show_offer_modal None);;
     rerun);;
  send ← button seen click ModalCreateAndSend;
  when send
    (d ← get;
     let new_offer := modal_offer d lid loan inp SENT n1 (Some n2) in
     modify (with_session (with_offers (fun l => l ++ [new_offer])));;
     notify (st_success ("✅ Offer " +:+ offer_id new_offer +:+ " created and sent!"));;
     modify (with_show_offer_modal None);;
     rerun);;
  cancel ← button seen click ModalCancel;
  when cancel (modify (with_show_offer_modal None);; rerun).

(** *** Contact Customer *)

Record ContactInput := {
  in_channel : string;
  in_message_template : string;
  in_message_content : string
}.

(** [l.index(x)]: the first position of [x], or [ValueError]. *)
Definition index_of {S} (x : string) (l : list string) : Page S nat :=
  match list_find (fun y => y = x) l with
  | Some (i, _) => mret i
  | None => raise ValueError
  end.

(** [CommunicationChannel(value)] *)
Definition to_channel {S} (v : string) : Page S CommunicationChannel :=
  match channel_of_value v with
  | Some c => mret c
  | None => raise ValueError
  end.

(** [if c: body] in a page *)
Definition page_when {S} (c : bool) (body : Page S unit) : Page S unit :=
  if c then body else mret tt.

(** [render_contact_modal]; the customer is the object found in the list
    of the session state, at position [i], and is updated there. *)
Definition render_contact_modal (seen : list ModalButton) (inp : ContactInput)
    (click : option ModalButton) (n1 n2 : datetime) : Page Desk unit :=
  d ← lift get;
  lid ← lift (attr (show_contact_modal d));
  loan ← lift (attr (get_loan_by_id (session d) lid));
  let found :=
    list_find (fun c => customer_id c = loan_customer_id loan) (customers (session d)) in
  customer ← lift (attr (snd <$> found));
  _ ← index_of (preferred_contact customer) channel_values;
  send ← lift (button seen click ModalSendMessage);
  page_when send
    (d ← lift get;
     c ← to_channel (in_channel inp);
     let new_communication :=
       {| communication_id := "COMM_" +:+ fmt_03d (length (communications d) + 1);
          comm_loan_id := lid;
          comm_offer_id := "";
          channel := c;
          message_content := in_message_content inp;
          comm_sent_date := n1;
          delivery_status := "Sent";
          comm_agent_id := user_id d |} in
     lift
       (modify (with_communications (fun l => l ++ [new_communication]));;
        modify (with_session (with_customers
                  (match found with
                   | Some (i, _) => alter (set_last_contact_date n2) i
                   | None => fun l => l
                   end)));;
        notify (st_success "✅ Message sent successfully!");;
        modify (with_show_contact_modal None);;
        rerun));;
  cancel ← lift (button seen click ModalCancel);
  lift (when cancel (modify (with_show_contact_modal None);; rerun)).

(** *** Add Note *)

Record NoteInput := {
  in_note_type : string;
  in_is_important : bool;
  in_note_content : string
}.

(** [render_add_note_modal] *)
Definition render_add_note_modal (seen : list ModalButton) (inp : NoteInput)
    (click : option ModalButton) (now : datetime) : Script Desk unit :=
  d ← get;
  lid ← attr (show_note_modal d);
  add ← button seen click ModalAddNote;
  when add
    (d ← get;
     let new_note :=
       {| note_id := "NOTE_" +:+ fmt_03d (length (notes d) + 1);
          note_loan_id := lid;
          note_agent_id := user_id d;
          note_content := in_note_content inp;
          note_type := in_note_type inp;
          note_created_date := now;
          is_important := in_is_important inp |} in
     modify (with_notes (fun l => l ++ [new_note]));;
     notify (st_success "✅ Note added successfully!");;
     modify (with_show_note_modal None);;
     rerun);;
  cancel ← button seen click ModalCancel;
  when cancel (modify (with_show_note_modal None);; rerun).

(** *** All dialogs *)

(** What the user has entered in the dialogs, the button clicked in this
    run, and the readings of the clock. *)
Record ModalsInput := {
  on_offer_modal : OfferModalInput;
  on_contact_modal : ContactInput;
  on_note_modal : NoteInput;
  modal_click : option ModalButton;
  clock1 : datetime;
  clock2 : datetime
}.

(** The buttons each dialog has drawn when it returns. *)
Definition offer_modal_buttons : list ModalButton :=
  [ModalCreateOffer; ModalCreateAndSend; ModalCancel].
Definition contact_modal_buttons : list ModalButton := [ModalSendMessage; ModalCancel].

(** [render_modals] *)
Definition render_modals (inp : ModalsInput) : Page Desk unit :=
  let click := modal_click inp in
  d ← lift get;
  seen ←
    match show_offer_modal d return Page Desk (list ModalButton) with
    | Some _ =>
      lift (render_create_offer_modal [] (on_offer_modal inp) click
              (clock1 inp) (clock2 inp));;
      mret offer_modal_buttons
    | None => mret []
    end;
  d ← lift get;
  seen ←
    match show_contact_modal d return Page Desk (list ModalButton) with
    | Some _ =>
      render_contact_modal seen (on_contact_modal inp) click (clock1 inp) (clock2 inp);;
      mret (seen ++ contact_modal_buttons)
    | None => mret seen
    end;
  d ← lift get;
  match show_note_modal d with
  | Some _ => lift (render_add_note_modal seen (on_note_modal inp) click (clock1 inp))
  | None => mret tt
  end.

(** ** The loan view of the dashboard *)

Inductive ViewButton :=
| ViewCreateOffer
| ViewContactCustomer
| ViewAddNote
| ViewAnalytics
| ViewUpdateStatus.

#[global] Instance ViewButton_eq_dec : EqDecision ViewButton.
Proof. solve_decision. Defined.

(** [render_loan_detail_view]: the two cards read the customer and the
    loan; the buttons store the loan id under the key of their dialog. *)
Definition render_loan_detail_view (lid : string) (click : option ViewButton)
    : Script Desk unit :=
  d ← get;
  loan ← attr (get_loan_by_id (session d) lid);
  _ ← attr (get_customer_by_id (session d) (loan_customer_id loan));
  when (bool_decide (click = Some ViewCreateOffer))
    (modify (with_show_offer_modal (Some lid)));;
  when (bool_decide (click = Some ViewContactCustomer))
    (modify (with_show_contact_modal (Some lid)));;
  when (bool_decide (click = Some ViewAddNote))
    (modify (with_show_note_modal (Some lid)));;
  when (bool_decide (click = Some ViewAnalytics))
    (modify (with_show_analytics_modal (Some lid)));;
  when (bool_decide (click = Some ViewUpdateStatus))
    (modify (with_show_status_modal (Some lid))).

(** The widgets of the dashboard: the filters, the select box under the
    table, "Refresh Data", and the button clicked in the loan view. *)
Record DashboardInput := {
  in_filter : LoanFilter;
  in_selected_loan_id : string;
  refresh_data : bool;
  view_click : option ViewButton
}.

(** [render_enhanced_dashboard] *)
Definition render_enhanced_dashboard (inp : DashboardInput) : Script Desk unit :=
  d ← get;
  match filtered_loans (user_id d) (in_filter inp) (loans (session d)) with
  | [] => notify (st_warning "No loans match the selected criteria.")
  | _ :: _ =>
    when (refresh_data inp) rerun;;
    when (negb (in_selected_loan_id inp =? "Choose a loan...")%string)
      (render_loan_detail_view (in_selected_loan_id inp) (view_click inp))
  end.
End Enhanced.

(** * Specification vocabulary *)

(** ** Scripts *)

(** The components of what a script returns. *)
Definition state_of {S A} (r : S * list Notice * Flow A) : S := r.1.1.
Definition shown_of {S A} (r : S * list Notice * Flow A) : list Notice := r.1.2.
Definition flow_of {S A} (r : S * list Notice * Flow A) : Flow A := r.2.

(** [preserves R m]: from any state, [m] leads to a state related by [R],
    however it ends. *)
Definition preserves {S A} (R : relation S) (m : Script S A) : Prop :=
  forall s out, R s (state_of (m s out)).

(** The body of a pending-offers loop at position [j] renders and goes on,
    leaving the state alone, whenever its widget keys are unused; [id_at]
    reads the offer id at a position. *)
Definition passes {S} (body : list string -> nat -> Script S unit)
    (id_at : S -> nat -> option string) (s : S) (j : nat) : Prop :=
  forall seen out k, id_at s j = Some k -> k ∉ seen ->
    exists m, body seen j s out = (s, out ++ m, Go tt).

(** ** Offers and their terms *)

(** The fields of an offer that no page assigns: everything except
    [status], [sent_date], [response_date] and [supervisor_comments]. *)
Definition same_terms (o o' : Offer) : Prop :=
  offer_id o' = offer_id o /\ offer_loan_id o' = offer_loan_id o /\
  agent_id o' = agent_id o /\
  settlement_percentage o' = settlement_percentage o /\
  settlement_amount o' = settlement_amount o /\
  due_date o' = due_date o /\
  justification_notes o' = justification_notes o /\
  created_date o' = created_date o.

(** Every offer of [l] is still at its position in [l'], with the same terms. *)
Definition terms_kept (l l' : list Offer) : Prop :=
  forall i o, l !! i = Some o -> exists o', l' !! i = Some o' /\ same_terms o o'.

(** The amount of the offer is its percentage of the balance of a loan of
    the session that carries the offer's loan id. *)
Definition priced (loans : list Loan) (o : Offer) : Prop :=
  exists loan, loan ∈ loans /\ loan_id loan = offer_loan_id o /\
    (settlement_amount o == settlement_percentage o / 100 * current_balance loan)%Q.

(** The terminal states of the specification, as far as the first and third
    listing declare them ([EXPIRED] and [CANCELLED] exist in the second
    listing only). *)
Definition terminal (st : OfferStatus) : bool :=
  match st with
  | ACCEPTED | REJECTED | REJECTED_BY_SUPERVISOR => true
  | _ => false
  end.

(** ** Sessions of the third listing *)

(** How the session of the third listing may change over time: reference
    data stay, offers keep their place and terms, the two record lists only
    grow at the end. *)
Definition evolves (s s' : Workflow.SessionState) : Prop :=
  Workflow.customers s' = Workflow.customers s /\
  Workflow.loans s' = Workflow.loans s /\
  Workflow.current_user s' = Workflow.current_user s /\
  terms_kept (Workflow.offers s) (Workflow.offers s') /\
  Workflow.communications s `prefix_of` Workflow.communications s' /\
  Workflow.responses s `prefix_of` Workflow.responses s'.

(** From [s] to [s'] the list of offers has the same length and every offer
    keeps its terms; the loans stay. *)
Definition revised (s s' : Workflow.SessionState) : Prop :=
  Workflow.loans s' = Workflow.loans s /\
  Forall2 same_terms (Workflow.offers s) (Workflow.offers s').

(** From [s] to [s'] the offers keep their place and terms, and the offers
    that were added are priced. *)
Definition grown (s s' : Workflow.SessionState) : Prop :=
  Workflow.loans s' = Workflow.loans s /\
  exists kept added,
    Workflow.offers s' = kept ++ added /\
    Forall2 same_terms (Workflow.offers s) kept /\
    Forall (priced (Workflow.loans s)) added.

(** Every offer of the session is priced. *)
Definition all_priced (s : Workflow.SessionState) : Prop :=
  forall o, o ∈ Workflow.offers s -> priced (Workflow.loans s) o.

(** The offer at position [i] is the same object with the same fields. *)
Definition keeps_offer (i : nat) (s s' : Workflow.SessionState) : Prop :=
  Workflow.offers s' !! i = Workflow.offers s !! i.

(** The two record lists of the third listing are as before. *)
Definition same_records (s s' : Workflow.SessionState) : Prop :=
  Workflow.communications s' = Workflow.communications s /\
  Workflow.responses s' = Workflow.responses s /\
  length (Workflow.offers s') = length (Workflow.offers s).

(** Two sessions hold the same customers, loans and offers. *)
Definition same_data (s s1 : Workflow.SessionState) : Prop :=
  Workflow.offers s1 = Workflow.offers s /\
  Workflow.loans s1 = Workflow.loans s /\
  Workflow.customers s1 = Workflow.customers s.

(** The loan of an offer and the customer of that loan are found. *)
Definition renders (s : Workflow.SessionState) (o : Offer) : Prop :=
  exists loan c,
    Workflow.get_loan_by_id s (offer_loan_id o) = Some loan /\
    Workflow.get_customer_by_id s (loan_customer_id loan) = Some c.

(** The review page can show every pending offer: offer ids are distinct,
    and each pending offer renders. *)
Definition review_ready (s : Workflow.SessionState) : Prop :=
  NoDup (offer_id <$> Workflow.offers s) /\
  forall o, o ∈ Workflow.offers s -> status o = PENDING_APPROVAL -> renders s o.

(** The offer that a button of the review page belongs to. *)
Definition button_offer (b : Workflow.ReviewButton) : string :=
  match b with
  | Workflow.Approve k | Workflow.Reject k | Workflow.SendBack k
  | Workflow.ConfirmRejection k | Workflow.CancelReject k
  | Workflow.SendBackToAgent k | Workflow.CancelSendBack k => k
  end.

Definition offer_id_at (s : Workflow.SessionState) (j : nat) : option string :=
  offer_id <$> Workflow.offers s !! j.

(** The click of this run, if there is one, is on a widget of offer [k]. *)
Definition click_on (inp : Workflow.ReviewInput) (k : string) : Prop :=
  forall b, Workflow.review_click inp = Some b -> button_offer b = k.

(** The status that a recorded response gives to the offer. *)
Definition response_status (c : Workflow.ResponseChoice) : OfferStatus :=
  match c with
  | Workflow.Accepted => ACCEPTED
  | Workflow.Rejected => REJECTED
  | Workflow.Counter_offer => COUNTER_OFFER
  end.

(** ** Sessions of the first listing *)

Definition basic_renders (s : Basic.SessionState) (o : Offer) : Prop :=
  exists loan c,
    Basic.get_loan_by_id s (offer_loan_id o) = Some loan /\
    Basic.get_customer_by_id s (loan_customer_id loan) = Some c.

Definition basic_ready (s : Basic.SessionState) : Prop :=
  NoDup (offer_id <$> Basic.offers s) /\
  forall o, o ∈ Basic.offers s -> status o = PENDING_APPROVAL -> basic_renders s o.

Definition basic_button_offer (b : Basic.ReviewButton) : string :=
  match b with Basic.Approve k | Basic.Reject k | Basic.SendBack k => k end.

Definition basic_revised (s s' : Basic.SessionState) : Prop :=
  Basic.loans s' = Basic.loans s /\
  Forall2 same_terms (Basic.offers s) (Basic.offers s').

Definition basic_grown (s s' : Basic.SessionState) : Prop :=
  Basic.loans s' = Basic.loans s /\
  exists kept added,
    Basic.offers s' = kept ++ added /\
    Forall2 same_terms (Basic.offers s) kept /\
    Forall (priced (Basic.loans s)) added.

Definition basic_all_priced (s : Basic.SessionState) : Prop :=
  forall o, o ∈ Basic.offers s -> priced (Basic.loans s) o.

(** ** Sessions of the second listing *)

Definition enhanced_renders (s : Enhanced.SessionState) (o : Enhanced.Offer) : Prop :=
  exists loan c,
    Enhanced.get_loan_by_id s (Enhanced.offer_loan_id o) = Some loan /\
    Enhanced.get_customer_by_id s (Enhanced.loan_customer_id loan) = Some c.

Definition enhanced_ready (s : Enhanced.SessionState) : Prop :=
  NoDup (Enhanced.offer_id <$> Enhanced.offers s) /\
  forall o, o ∈ Enhanced.offers s -> Enhanced.status o = Enhanced.PENDING_APPROVAL ->
    enhanced_renders s o.

Definition enhanced_button_offer (b : Enhanced.PanelButton) : string :=
  match b with
  | Enhanced.Approve k | Enhanced.Reject k | Enhanced.RequestChanges k
  | Enhanced.ViewDetails k => k
  end.

(** * Sample sessions *)

Definition alice : Customer :=
  {| customer_id := "CUST_001"; name := "Alice Johnson";
     email := "alice.johnson@email.com"; phone := "+1-555-1000";
     address := "100 Main St, City, State"; risk_profile := "Low" |}.

(** An unsecured loan with a balance of 10000. *)
Definition loan_001 : Loan :=
  {| loan_id := "LOAN_001"; loan_customer_id := "CUST_001"; loan_type := PERSONAL;
     principal_amount := 8000; outstanding_principal := 8000; interest_amount := 1200;
     penalties := 800; days_overdue := 60; current_balance := 10000;
     workflow_status := SETTLEMENT; is_secured := false |}.

(** A secured loan. *)
Definition loan_002 : Loan :=
  {| loan_id := "LOAN_002"; loan_customer_id := "CUST_001"; loan_type := MORTGAGE;
     principal_amount := 40000; outstanding_principal := 30000; interest_amount := 4500;
     penalties := 1500; days_overdue := 90; current_balance := 36000;
     workflow_status := SETTLEMENT; is_secured := true |}.

Definition midday : datetime := 20000 * day_us + 43200000000.

(** A new session without sample offers, the first loan selected. *)
Definition new_session : Workflow.SessionState :=
  {| Workflow.customers := [alice]; Workflow.loans := [loan_001; loan_002];
     Workflow.offers := []; Workflow.communications := []; Workflow.responses := [];
     Workflow.current_user :=
       {| user_name := "John Smith"; role := "Agent"; user_id := "agent_001" |};
     Workflow.current_page := "create_offer";
     Workflow.selected_loan_id := Some "LOAN_001";
     Workflow.current_offer_id := None;
     Workflow.flags := ∅ |}.

Definition create_form (pct : Z) (notes : string) : CreateInput :=
  {| create_click := Some CreateOffer; in_settlement_percentage := pct;
     in_due_date := 20045; in_justification_notes := notes |}.

Definition send_form : Workflow.SendInput :=
  {| Workflow.send_click := Some Workflow.SendOffer; Workflow.in_channel := EMAIL;
     Workflow.in_message_content := "Dear Alice Johnson, ..." |}.

Definition response_form (c : Workflow.ResponseChoice) (pct : Z) : Workflow.ResponseInput :=
  {| Workflow.response_click := Some Workflow.SaveCustomerResponse;
     Workflow.in_response_type := c; Workflow.in_rejection_reason := "";
     Workflow.in_counter_percentage := pct; Workflow.in_counter_due_date := 20020;
     Workflow.in_agent_notes := "Called the customer." |}.

Definition review_form (b : Workflow.ReviewButton) (comments : string)
    : Workflow.ReviewInput :=
  {| Workflow.review_click := Some b; Workflow.in_text := fun _ => comments |}.

Definition create (pct : Z) (notes : string) : Workflow.Action :=
  Workflow.CreatePage (create_form pct notes) midday midday.
Definition send : Workflow.Action := Workflow.SendPage send_form midday midday.
Definition respond (c : Workflow.ResponseChoice) (pct : Z) : Workflow.Action :=
  Workflow.ResponsePage (response_form c pct) midday midday midday.
Definition review (b : Workflow.ReviewButton) (comments : string) : Workflow.Action :=
  Workflow.ReviewPage (review_form b comments).

(** An offer of 50 percent, created, sent and accepted. *)
Definition accepted_session : Workflow.SessionState :=
  Workflow.steps new_session [create 50 ""; send; respond Workflow.Accepted 0].

(** An offer of 50 percent, created and sent. *)
Definition sent_session : Workflow.SessionState :=
  Workflow.steps new_session [create 50 ""; send].

(** An offer of 50 percent in Draft. *)
Definition draft_session : Workflow.SessionState :=
  Workflow.steps new_session [create 50 ""].

(** An offer of 80 percent with a justification, waiting for approval. *)
Definition pending_session : Workflow.SessionState :=
  Workflow.steps new_session [create 80 "Hardship, one payment."].

(** The same, with the rejection dialog open. *)
Definition rejecting_session : Workflow.SessionState :=
  Workflow.steps pending_session [review (Workflow.Reject "OFFER_001") ""].

(** A new session of the first listing, the first loan selected. *)
Definition basic_new_session : Basic.SessionState :=
  {| Basic.customers := [alice]; Basic.loans := [loan_001; loan_002];
     Basic.offers := [];
     Basic.current_user :=
       {| user_name := "John Smith"; role := "Agent"; user_id := "agent_001" |};
     Basic.current_page := "create_offer";
     Basic.selected_loan_id := Some "LOAN_001" |}.

(** The same with an offer of 80 percent waiting for approval. *)
Definition basic_pending : Basic.SessionState :=
  final (run (Basic.render_create_offer (create_form 80 "Hardship, one payment.")
                midday midday) basic_new_session).

(** Reference data and a pending offer of the second listing. *)
Definition enhanced_alice : Enhanced.Customer :=
  {| Enhanced.customer_id := "CUST_001"; Enhanced.name := "Alice Johnson";
     Enhanced.email := "alice.johnson@email.com"; Enhanced.phone := "+1-555-1000";
     Enhanced.address := "100 Main St, City, State"; Enhanced.risk_profile := "Low";
     Enhanced.credit_score := 700; Enhanced.employment_status := "Employed";
     Enhanced.annual_income := 50000; Enhanced.preferred_contact := "Email";
     Enhanced.last_contact_date := midday |}.

Definition enhanced_loan : Enhanced.Loan :=
  {| Enhanced.loan_id := "LOAN_001"; Enhanced.loan_customer_id := "CUST_001";
     Enhanced.loan_type := Enhanced.PERSONAL; Enhanced.principal_amount := 8000;
     Enhanced.outstanding_principal := 8000; Enhanced.interest_amount := 1200;
     Enhanced.penalties := 800; Enhanced.days_overdue := 60;
     Enhanced.current_balance := 10000; Enhanced.workflow_status := Enhanced.SETTLEMENT;
     Enhanced.is_secured := false; Enhanced.priority := Enhanced.MEDIUM;
     Enhanced.assigned_agent := "agent_001"; Enhanced.original_due_date := midday;
     Enhanced.last_payment_date := midday; Enhanced.last_payment_amount := 100 |}.

Definition enhanced_offer : Enhanced.Offer :=
  {| Enhanced.offer_id := "OFFER_001"; Enhanced.offer_loan_id := "LOAN_001";
     Enhanced.agent_id := "agent_001"; Enhanced.settlement_percentage := 80;
     Enhanced.settlement_amount := 8000; Enhanced.due_date := plus_days midday 30;
     Enhanced.status := Enhanced.PENDING_APPROVAL;
     Enhanced.justification_notes := "Hardship, one payment.";
     Enhanced.created_date := midday; Enhanced.sent_date := None;
     Enhanced.response_date := None; Enhanced.supervisor_comments := "";
     Enhanced.expiry_date := Some (plus_days midday 60);
     Enhanced.payment_terms := "Lump sum" |}.

(** A session of the second listing with that offer waiting for approval. *)
Definition enhanced_pending : Enhanced.SessionState :=
  {| Enhanced.customers := [enhanced_alice]; Enhanced.loans := [enhanced_loan];
     Enhanced.offers := [enhanced_offer]; Enhanced.current_page := "supervisor";
     Enhanced.show_hints := true; Enhanced.request_changes_offer := None;
     Enhanced.view_offer_details := None |}.

(** The first offer of the sample sessions, on [loan_001]. *)
Definition offer_001 (pct : Z) (notes : string) (st : OfferStatus)
    (sent responded : option datetime) : Offer :=
  {| offer_id := "OFFER_001"; offer_loan_id := "LOAN_001"; agent_id := "agent_001";
     settlement_percentage := inject_Z pct; settlement_amount := amount_for loan_001 pct;
     due_date := combine_min 20045; status := st; justification_notes := notes;
     created_date := midday; sent_date := sent; response_date := responded;
     supervisor_comments := "" |}.

(** Draws for the sample offers: 55 percent, due in 45 days, created 10 days
    ago, waiting for approval. *)
Definition sample_draw (i : nat) : SampleDraw :=
  {| drawn_percentage := 55; drawn_due_days := 45; drawn_status := PENDING_APPROVAL;
     drawn_age_days := 10; drawn_now_due := midday; drawn_now_created := midday |}.

(** * Vocabulary for whole sessions *)

(** ** Reading number formats back *)

Definition digit_value (c : ascii) : Z := Z.of_nat (nat_of_ascii c) - 48.

(** The number written by a string of decimal digits, continuing from
    [acc]; leading zeros are allowed. *)
Fixpoint read_digits (s : string) (acc : Z) : Z :=
  match s with
  | EmptyString => acc
  | String c s' => read_digits s' (10 * acc + digit_value c)
  end.

Definition is_digit (c : ascii) : bool :=
  let n := nat_of_ascii c in (48 <=? n)%nat && (n <=? 57)%nat.

Fixpoint digits_of (s : string) : string :=
  match s with
  | EmptyString => EmptyString
  | String c s' => if is_digit c then String c (digits_of s') else digits_of s'
  end.

Fixpoint all_digits (s : string) : bool :=
  match s with
  | EmptyString => true
  | String c s' => is_digit c && all_digits s'
  end.

Fixpoint has_minus (s : string) : bool :=
  match s with
  | EmptyString => false
  | String c s' => Ascii.eqb c "-" || has_minus s'
  end.

(** The amount in cents that a text such as [$1,234.56] or [$-1,234.56]
    shows: its digits read as one number, negated if there is a minus
    sign. *)
Definition read_cents (text : string) : Z :=
  let n := read_digits (digits_of text) 0 in
  if has_minus text then - n else n.

(** ** Offer ids *)

(** The offers are numbered in the order of the list: the offer at position
    [i] carries the id [OFFER_] followed by [i + 1]. *)
Definition numbered (l : list Offer) : Prop :=
  forall i o, l !! i = Some o -> offer_id o = "OFFER_" +:+ fmt_03d (i + 1).

(** ** Whole sessions of the first listing *)

(** The pages that [main] of the first listing knows. *)
Definition basic_pages : list string :=
  ["dashboard"; "loan_detail"; "create_offer"; "analytics"; "supervisor"].

(** Every loan has a customer, and the risk profile of that customer has a
    colour. *)
Definition basic_shows_loans (s : Basic.SessionState) : Prop :=
  forall loan, loan ∈ Basic.loans s ->
    exists c, Basic.get_customer_by_id s (loan_customer_id loan) = Some c /\
      is_Some (risk_colors (risk_profile c)).

(** The selected loan is a loan of the session. *)
Definition basic_selected (s : Basic.SessionState) : Prop :=
  exists lid, Basic.selected_loan_id s = Some lid /\ is_Some (Basic.get_loan_by_id s lid).

(** What holds of a session of the first listing at every run: the loans can
    be shown, the offers are numbered and belong to loans of the session,
    the current page is known, and the creation form is only open for a loan
    of the session. *)
Definition basic_consistent (s : Basic.SessionState) : Prop :=
  basic_shows_loans s /\
  numbered (Basic.offers s) /\
  (forall o, o ∈ Basic.offers s -> is_Some (Basic.get_loan_by_id s (offer_loan_id o))) /\
  Basic.current_page s ∈ basic_pages /\
  (Basic.current_page s = "create_offer" -> basic_selected s).

(** The review page of the first listing changes nothing but the fields of
    offers that are not terms. *)
Definition basic_reviewed (s s' : Basic.SessionState) : Prop :=
  Basic.customers s' = Basic.customers s /\ Basic.loans s' = Basic.loans s /\
  Basic.current_user s' = Basic.current_user s /\
  Basic.current_page s' = Basic.current_page s /\
  Basic.selected_loan_id s' = Basic.selected_loan_id s /\
  Forall2 same_terms (Basic.offers s) (Basic.offers s').

(** What one run of [main] can do to the session. *)
Inductive basic_transition (s : Basic.SessionState) : Basic.SessionState -> Prop :=
| basic_stays : basic_transition s s
| basic_navigates p :
    p ∈ basic_pages -> (p = "create_offer" -> basic_selected s) ->
    basic_transition s (Basic.with_current_page p s)
| basic_selects lid :
    basic_transition s
      (Basic.with_selected_loan_id lid (Basic.with_current_page "loan_detail" s))
| basic_creates lid loan inp now :
    Basic.current_page s = "create_offer" ->
    Basic.selected_loan_id s = Some lid -> Basic.get_loan_by_id s lid = Some loan ->
    basic_transition s
      (Basic.with_current_page "dashboard"
         (Basic.with_offers (fun l => l ++ [Basic.new_offer s loan inp now]) s))
| basic_reviews s' :
    Basic.current_page s = "supervisor" -> basic_reviewed s s' -> basic_transition s s'.

(** A run that does not end with an exception. *)
Definition ends_well (e : Stop) : Prop := e = Ends Finished \/ e = Ends Rerun.

(** The page that a navigation button of the first listing opens. *)
Definition basic_nav_page (b : Basic.NavButton) : string :=
  match b with
  | Basic.NavDashboard => "dashboard"
  | Basic.NavAnalytics => "analytics"
  | Basic.NavSupervisorPanel => "supervisor"
  end.

(** A script seen as a page ends as the script does. *)
Definition as_result {S} (o : Outcome S) : Result S :=
  {| after := final o; shown := notices o; stop := Ends (ending o) |}.

(** ** The loan queue *)

Definition queue_filter (wf sf od : string) : QueueFilter :=
  {| workflow_filter := wf; status_filter := sf; overdue_filter := od |}.

(** The risk profiles that the detail page has a colour for. *)
Definition known_risks : list string := ["Low"; "Medium"; "High"].

(** ** What the browser sends, first listing *)

(** A run in which nothing is clicked. *)
Definition basic_idle : Basic.Browser :=
  {| Basic.on_sidebar := None;
     Basic.on_dashboard :=
       {| Basic.in_filter := queue_filter "All" "All" "All";
          Basic.in_selected_loan_id := "None"; Basic.view_loan_details := false |};
     Basic.on_loan_detail := None;
     Basic.on_create_offer :=
       {| create_click := None; in_settlement_percentage := 50; in_due_date := 0;
          in_justification_notes := "" |};
     Basic.now_check := 0; Basic.now_created := 0;
     Basic.on_supervisor := None |}.

(** A click in the sidebar. *)
Definition basic_navigate (nav : Basic.NavButton) : Basic.Browser :=
  {| Basic.on_sidebar := Some nav;
     Basic.on_dashboard := Basic.on_dashboard basic_idle;
     Basic.on_loan_detail := None;
     Basic.on_create_offer := Basic.on_create_offer basic_idle;
     Basic.now_check := 0; Basic.now_created := 0;
     Basic.on_supervisor := None |}.

(** On the dashboard: the filters set to [f], the loan [lid] chosen in the
    select box, and a click on "View Loan Details". *)
Definition basic_view_loan (f : QueueFilter) (lid : string) : Basic.Browser :=
  {| Basic.on_sidebar := None;
     Basic.on_dashboard :=
       {| Basic.in_filter := f; Basic.in_selected_loan_id := lid;
          Basic.view_loan_details := true |};
     Basic.on_loan_detail := None;
     Basic.on_create_offer := Basic.on_create_offer basic_idle;
     Basic.now_check := 0; Basic.now_created := 0;
     Basic.on_supervisor := None |}.

(** A click on a button of the loan detail page. *)
Definition basic_detail_click (b : Basic.DetailButton) : Basic.Browser :=
  {| Basic.on_sidebar := None;
     Basic.on_dashboard := Basic.on_dashboard basic_idle;
     Basic.on_loan_detail := Some b;
     Basic.on_create_offer := Basic.on_create_offer basic_idle;
     Basic.now_check := 0; Basic.now_created := 0;
     Basic.on_supervisor := None |}.

(** The creation form with its widgets set as in [inp], at the clock
    readings [n1] and [n2]. *)
Definition basic_form (inp : CreateInput) (n1 n2 : datetime) : Basic.Browser :=
  {| Basic.on_sidebar := None;
     Basic.on_dashboard := Basic.on_dashboard basic_idle;
     Basic.on_loan_detail := None;
     Basic.on_create_offer := inp;
     Basic.now_check := n1; Basic.now_created := n2;
     Basic.on_supervisor := None |}.

(** A click on a button of the supervisor page. *)
Definition basic_review_click (b : Basic.ReviewButton) : Basic.Browser :=
  {| Basic.on_sidebar := None;
     Basic.on_dashboard := Basic.on_dashboard basic_idle;
     Basic.on_loan_detail := None;
     Basic.on_create_offer := Basic.on_create_offer basic_idle;
     Basic.now_check := 0; Basic.now_created := 0;
     Basic.on_supervisor := Some b |}.

(** ** Sample data within the ranges of the generators *)

(** The draws for a loan lie in the ranges that [generate_sample_loans]
    draws from. *)
Definition loan_draw_in_range (d : LoanDraw) : Prop :=
  (5000 <= drawn_principal d)%Q /\ (drawn_principal d <= 50000)%Q /\
  (6 # 10 <= drawn_outstanding_share d)%Q /\ (drawn_outstanding_share d <= 1)%Q /\
  (5 # 100 <= drawn_penalty_rate d)%Q /\ (drawn_penalty_rate d <= 2 # 10)%Q.

(** ** Whole sessions of the third listing *)

(** Every loan has a customer, and the risk profile of that customer has a
    colour. *)
Definition workflow_shows_loans (s : Workflow.SessionState) : Prop :=
  forall loan, loan ∈ Workflow.loans s ->
    exists c, Workflow.get_customer_by_id s (loan_customer_id loan) = Some c /\
      is_Some (risk_colors (risk_profile c)).

(** What holds of a session of the third listing after every run of a page:
    the loans can be shown, the offers are numbered and belong to loans of
    the session. *)
Definition workflow_consistent (s : Workflow.SessionState) : Prop :=
  workflow_shows_loans s /\
  numbered (Workflow.offers s) /\
  forall o, o ∈ Workflow.offers s -> is_Some (Workflow.get_loan_by_id s (offer_loan_id o)).

(** What a run of a page of the third listing does to customers, loans and
    offers: the reference data stay, the offers keep their place and terms,
    and at most one offer is added at the end, numbered on and for a loan of
    the session. *)
Definition workflow_kept (s s' : Workflow.SessionState) : Prop :=
  Workflow.customers s' = Workflow.customers s /\
  Workflow.loans s' = Workflow.loans s /\
  exists kept added,
    Workflow.offers s' = kept ++ added /\
    Forall2 same_terms (Workflow.offers s) kept /\
    (added = [] \/
     exists o, added = [o] /\
       offer_id o = "OFFER_" +:+ fmt_03d (length (Workflow.offers s) + 1) /\
       is_Some (Workflow.get_loan_by_id s (offer_loan_id o))).

(** ** The dashboard and the dialogs of the second listing *)

(** The filters of the dashboard with only the balance range set. *)
Definition balance_only (range : string) : Enhanced.LoanFilter :=
  {| Enhanced.workflow_filter := "All"; Enhanced.priority_filter := "All";
     Enhanced.agent_filter := "All"; Enhanced.balance_filter := range |}.

(** The loan of an open dialog is a loan of the session. *)
Definition enhanced_loan_known (d : Enhanced.Desk) (key : option string) : Prop :=
  forall lid, key = Some lid -> is_Some (Enhanced.get_loan_by_id (Enhanced.session d) lid).

(** The contact dialog is open for a loan of the session whose customer
    prefers [pref]. *)
Definition enhanced_contact_for (d : Enhanced.Desk) (pref : string) : Prop :=
  exists lid loan c,
    Enhanced.show_contact_modal d = Some lid /\
    Enhanced.get_loan_by_id (Enhanced.session d) lid = Some loan /\
    Enhanced.get_customer_by_id (Enhanced.session d) (Enhanced.loan_customer_id loan)
      = Some c /\
    Enhanced.preferred_contact c = pref.

(** The dialogs that are open can be drawn: their loans are loans of the
    session, and the customer of the contact dialog prefers one of the
    channels. *)
Definition enhanced_dialogs_ready (d : Enhanced.Desk) : Prop :=
  enhanced_loan_known d (Enhanced.show_offer_modal d) /\
  (is_Some (Enhanced.show_contact_modal d) ->
   exists pref, pref ∈ Enhanced.channel_values /\ enhanced_contact_for d pref).

(** The number of dialogs that are open. *)
Definition enhanced_dialogs_open (d : Enhanced.Desk) : nat :=
  (if Enhanced.show_offer_modal d is Some _ then 1 else 0) +
  (if Enhanced.show_contact_modal d is Some _ then 1 else 0) +
  (if Enhanced.show_note_modal d is Some _ then 1 else 0).

(** A run of the dialogs in which no button is clicked. *)
Definition enhanced_no_click (inp : Enhanced.ModalsInput) : Prop :=
  Enhanced.modal_click inp = None.

(** What stays when the dialog that creates an offer runs: the customers,
    the loans and the keys of the other dialogs. *)
Definition enhanced_offer_modal_keeps (d d' : Enhanced.Desk) : Prop :=
  Enhanced.customers (Enhanced.session d') = Enhanced.customers (Enhanced.session d) /\
  Enhanced.loans (Enhanced.session d') = Enhanced.loans (Enhanced.session d) /\
  Enhanced.show_contact_modal d' = Enhanced.show_contact_modal d /\
  Enhanced.show_note_modal d' = Enhanced.show_note_modal d.

(** ** Sample draws and sessions *)

Definition medium_risk (i : nat) : RiskDraw := Medium.

(** A principal of 20000, of which 80 percent are outstanding, penalties of
    10 percent, 120 days overdue. *)
Definition loan_draw_20000 (i : nat) : LoanDraw :=
  {| drawn_principal := 20000; drawn_outstanding_share := 8 # 10;
     drawn_penalty_rate := 1 # 10; drawn_loan_type := PERSONAL;
     drawn_days_overdue := 120; drawn_workflow_status := SETTLEMENT;
     drawn_is_secured := false |}.

(** The dashboard of the first listing with the sample loans and no
    offers. *)
Definition basic_dashboard_session : Basic.SessionState :=
  Basic.with_current_page "dashboard" basic_new_session.

(** The dashboard of the third listing with the sample loans and no
    offers. *)
Definition workflow_dashboard_session : Workflow.SessionState :=
  Workflow.with_current_page "dashboard" new_session.

(** Sessions in which the selected loan is not a loan of the session. *)
Definition basic_stale_session : Basic.SessionState :=
  Basic.with_selected_loan_id "LOAN_999" basic_new_session.
Definition workflow_stale_session : Workflow.SessionState :=
  Workflow.with_selected_loan_id "LOAN_999" new_session.

(** A customer of the second listing for whom the generator has drawn
    "Mail". *)
Definition enhanced_bob : Enhanced.Customer :=
  {| Enhanced.customer_id := "CUST_002"; Enhanced.name := "Bob Wilson";
     Enhanced.email := "bob.wilson@email.com"; Enhanced.phone := "+1-555-1001";
     Enhanced.address := "110 Main St, Los Angeles, CA"; Enhanced.risk_profile := "Medium";
     Enhanced.credit_score := 640; Enhanced.employment_status := "Employed";
     Enhanced.annual_income := 60000; Enhanced.preferred_contact := "Mail";
     Enhanced.last_contact_date := midday |}.

(** A loan of that customer with a balance of 50000. *)
Definition enhanced_loan_002 : Enhanced.Loan :=
  {| Enhanced.loan_id := "LOAN_002"; Enhanced.loan_customer_id := "CUST_002";
     Enhanced.loan_type := Enhanced.AUTO; Enhanced.principal_amount := 45000;
     Enhanced.outstanding_principal := 40000; Enhanced.interest_amount := 6000;
     Enhanced.penalties := 4000; Enhanced.days_overdue := 200;
     Enhanced.current_balance := 50000; Enhanced.workflow_status := Enhanced.LEGAL;
     Enhanced.is_secured := true; Enhanced.priority := Enhanced.HIGH;
     Enhanced.assigned_agent := "agent_002"; Enhanced.original_due_date := midday;
     Enhanced.last_payment_date := midday; Enhanced.last_payment_amount := 500 |}.

(** The second listing with two customers, their loans, one pending offer
    and no dialog open. *)
Definition enhanced_desk : Enhanced.Desk :=
  {| Enhanced.session :=
       {| Enhanced.customers := [enhanced_alice; enhanced_bob];
          Enhanced.loans := [enhanced_loan; enhanced_loan_002];
          Enhanced.offers := [enhanced_offer]; Enhanced.current_page := "dashboard";
          Enhanced.show_hints := true; Enhanced.request_changes_offer := None;
          Enhanced.view_offer_details := None |};
     Enhanced.communications := []; Enhanced.notes := [];
     Enhanced.user_id := "agent_001";
     Enhanced.show_offer_modal := None; Enhanced.show_contact_modal := None;
     Enhanced.show_note_modal := None; Enhanced.show_analytics_modal := None;
     Enhanced.show_status_modal := None |}.

(** What is entered in the dialogs of the sample runs. *)
Definition enhanced_offer_input : Enhanced.OfferModalInput :=
  {| Enhanced.in_settlement_percentage := 20; Enhanced.in_payment_terms := "Lump sum";
     Enhanced.in_due_date := 20030; Enhanced.in_expiry_date := 20060;
     Enhanced.in_justification := "" |}.

Definition enhanced_contact_input : Enhanced.ContactInput :=
  {| Enhanced.in_channel := "Phone"; Enhanced.in_message_template := "Payment Reminder";
     Enhanced.in_message_content := "Please call us back." |}.

Definition enhanced_note_input : Enhanced.NoteInput :=
  {| Enhanced.in_note_type := "Call"; Enhanced.in_is_important := true;
     Enhanced.in_note_content := "Customer asked for a settlement offer." |}.

Definition enhanced_idle : Enhanced.ModalsInput :=
  {| Enhanced.on_offer_modal := enhanced_offer_input;
     Enhanced.on_contact_modal := enhanced_contact_input;
     Enhanced.on_note_modal := enhanced_note_input;
     Enhanced.modal_click := None;
     Enhanced.clock1 := midday; Enhanced.clock2 := midday |}.

(** The dashboard of the second listing with all filters on "All", the
    loan [lid] chosen in the select box and a button of its view clicked. *)
Definition enhanced_view_click (lid : string) (b : Enhanced.ViewButton)
    : Enhanced.DashboardInput :=
  {| Enhanced.in_filter := balance_only "All"; Enhanced.in_selected_loan_id := lid;
     Enhanced.refresh_data := false; Enhanced.view_click := Some b |}.

(** A click on a button of a dialog. *)
Definition enhanced_modal_click (b : Enhanced.ModalButton) : Enhanced.ModalsInput :=
  {| Enhanced.on_offer_modal := enhanced_offer_input;
     Enhanced.on_contact_modal := enhanced_contact_input;
     Enhanced.on_note_modal := enhanced_note_input;
     Enhanced.modal_click := Some b;
     Enhanced.clock1 := midday; Enhanced.clock2 := midday |}.

(** * Reasoning about scripts *)

Lemma final_run {S} (m : Script S unit) (s : S) : final (run m s) = state_of (m s []).
Proof. unfold run, state_of. destruct (m s []) as [[s' out] [a|e]]; reflexivity. Qed.

Lemma notices_run {S} (m : Script S unit) (s : S) : notices (run m s) = shown_of (m s []).
Proof. unfold run, shown_of. destruct (m s []) as [[s' out] [a|e]]; reflexivity. Qed.

Section Preservation.
Context {S : Type} (R : relation S) `{!PreOrder R}.

Lemma preserves_ret {A} (a : A) : preserves R (mret a : Script S A).
Proof. intros s out. reflexivity. Qed.

Lemma preserves_bind {A B} (m : Script S A) (k : A -> Script S B) :
  preserves R m -> (forall a, preserves R (k a)) -> preserves R (m ≫= k).
Proof.
  intros Hm Hk s out. specialize (Hm s out).
  unfold mbind, script_mbind, script_bind, state_of in *.
  destruct (m s out) as [[s' out'] [a|e]]; simpl in *; [|exact Hm].
  etrans; [exact Hm|]. apply Hk.
Qed.

Lemma preserves_get : preserves R (get : Script S S).
Proof. intros s out. reflexivity. Qed.

Lemma preserves_notify (n : Notice) : preserves R (notify n : Script S unit).
Proof. intros s out. reflexivity. Qed.

Lemma preserves_halt {A} (e : Ending) : preserves R (halt e : Script S A).
Proof. intros s out. reflexivity. Qed.

Lemma preserves_attr {A} (o : option A) : preserves R (attr o : Script S A).
Proof. destruct o; [apply preserves_ret | apply preserves_halt]. Qed.

Lemma preserves_modify (f : S -> S) : (forall s, R s (f s)) -> preserves R (modify f).
Proof. intros Hf s out. apply Hf. Qed.

Lemma preserves_when (c : bool) (body : Script S unit) :
  (c = true -> preserves R body) -> preserves R (when c body).
Proof. destruct c; intros H; [by apply H | apply preserves_ret]. Qed.

Lemma preserves_for_each {A} (xs : list A) (body : A -> Script S unit) :
  (forall x, preserves R (body x)) -> preserves R (for_each xs body).
Proof.
  intros Hb. induction xs as [|x xs IH]; simpl; [apply preserves_ret|].
  apply (preserves_bind (body x) (fun _ => for_each xs body)); auto.
Qed.

Lemma preserves_for_pending key body seen (pending : list nat) :
  (forall i, i ∈ pending -> preserves R (key i)) ->
  (forall i sn, i ∈ pending -> preserves R (body sn i)) ->
  preserves R (for_pending key body seen pending).
Proof.
  revert seen. induction pending as [|i rest IH]; intros seen Hk Hb; simpl.
  - apply preserves_ret.
  - apply (preserves_bind (key i)); [apply Hk; left|]. intros k.
    apply (preserves_bind (body seen i)); [apply Hb; left|]. intros _.
    apply IH; intros; [apply Hk | apply Hb]; by right.
Qed.
End Preservation.

(** * The third listing: what every run keeps *)

#[global] Instance same_terms_refl : Reflexive same_terms.
Proof. intros o. unfold same_terms. tauto. Qed.

#[global] Instance same_terms_trans : Transitive same_terms.
Proof. intros a b c. unfold same_terms. intuition congruence. Qed.

#[global] Instance terms_kept_preorder : PreOrder terms_kept.
Proof.
  split.
  - intros l i o H. exists o. split; [done | reflexivity].
  - intros l1 l2 l3 H12 H23 i o H.
    destruct (H12 i o H) as (o2 & H2 & T2).
    destruct (H23 i o2 H2) as (o3 & H3 & T3).
    exists o3. split; [done | by etrans].
Qed.

Lemma terms_kept_app (l : list Offer) (o : Offer) : terms_kept l (l ++ [o]).
Proof.
  intros i x H. exists x. split; [|reflexivity].
  by apply lookup_app_l_Some.
Qed.

Lemma terms_kept_alter (f : Offer -> Offer) (i : nat) (l : list Offer) :
  (forall o, same_terms o (f o)) -> terms_kept l (alter f i l).
Proof.
  intros Hf j o H. destruct (decide (i = j)) as [->|Hne].
  - exists (f o). split; [|apply Hf]. by rewrite list_lookup_alter_eq, H.
  - exists o. split; [|reflexivity]. by rewrite list_lookup_alter_ne.
Qed.

Lemma same_terms_set_status v o : same_terms o (set_status v o).
Proof. unfold same_terms; simpl; tauto. Qed.
Lemma same_terms_set_sent_date v o : same_terms o (set_sent_date v o).
Proof. unfold same_terms; simpl; tauto. Qed.
Lemma same_terms_set_response_date v o : same_terms o (set_response_date v o).
Proof. unfold same_terms; simpl; tauto. Qed.
Lemma same_terms_set_supervisor_comments v o : same_terms o (set_supervisor_comments v o).
Proof. unfold same_terms; simpl; tauto. Qed.

#[global] Instance evolves_preorder : PreOrder evolves.
Proof.
  split.
  - intros s. unfold evolves. repeat split; reflexivity.
  - intros a b c (A1 & A2 & A3 & A4 & A5 & A6) (B1 & B2 & B3 & B4 & B5 & B6).
    unfold evolves. repeat split; try congruence; by etrans.
Qed.

Create HintDb evolve.

Lemma evolves_alter f i s :
  (forall o, same_terms o (f o)) -> evolves s (Workflow.with_offers (alter f i) s).
Proof.
  intros Hf. unfold evolves; simpl. repeat split; try reflexivity.
  by apply terms_kept_alter.
Qed.

Lemma evolves_new_offer o s : evolves s (Workflow.with_offers (fun l => l ++ [o]) s).
Proof.
  unfold evolves; simpl. repeat split; try reflexivity. apply terms_kept_app.
Qed.

Lemma evolves_new_communication c s :
  evolves s (Workflow.with_communications (fun l => l ++ [c]) s).
Proof.
  unfold evolves; simpl. repeat split; try reflexivity. by apply prefix_app_r.
Qed.

Lemma evolves_new_response r s :
  evolves s (Workflow.with_responses (fun l => l ++ [r]) s).
Proof.
  unfold evolves; simpl. repeat split; try reflexivity. by apply prefix_app_r.
Qed.

Lemma evolves_current_page p s : evolves s (Workflow.with_current_page p s).
Proof. unfold evolves; simpl. repeat split; reflexivity. Qed.

Lemma evolves_current_offer_id i s : evolves s (Workflow.with_current_offer_id i s).
Proof. unfold evolves; simpl. repeat split; reflexivity. Qed.

Lemma evolves_flags f s : evolves s (Workflow.with_flags f s).
Proof. unfold evolves; simpl. repeat split; reflexivity. Qed.

#[global] Hint Resolve evolves_alter evolves_new_offer evolves_new_communication
  evolves_new_response evolves_current_page evolves_current_offer_id evolves_flags
  same_terms_set_status same_terms_set_sent_date same_terms_set_response_date
  same_terms_set_supervisor_comments : evolve.

(** One structural step of a preservation proof. *)
Ltac preserve_step :=
  lazymatch goal with
  | |- preserves _ (mbind _ _) => apply (preserves_bind _ _ _); [|intros ?]
  | |- preserves _ (mret _) => apply (preserves_ret _)
  | |- preserves _ (script_ret _) => apply (preserves_ret _)
  | |- preserves _ get => apply (preserves_get _)
  | |- preserves _ (notify _) => apply (preserves_notify _)
  | |- preserves _ (halt _) => apply (preserves_halt _)
  | |- preserves _ py_return => apply (preserves_halt _)
  | |- preserves _ rerun => apply (preserves_halt _)
  | |- preserves _ (attr _) => apply (preserves_attr _)
  | |- preserves _ (when _ _) => apply (preserves_when _); intros ?
  | |- preserves _ (for_each _ _) => apply (preserves_for_each _); intros ?
  | |- preserves _ (modify _) => apply (preserves_modify _); intros ?; auto with evolve
  | |- preserves _ (match ?x with _ => _ end) => destruct x
  | |- preserves _ (let _ := _ in _) => cbv zeta
  end.

Ltac preserve := repeat preserve_step.

Lemma create_offer_evolves inp n1 n2 :
  preserves evolves (Workflow.render_create_offer inp n1 n2).
Proof. unfold Workflow.render_create_offer. preserve. Qed.

Lemma send_offer_evolves inp n1 n2 :
  preserves evolves (Workflow.render_send_offer inp n1 n2).
Proof. unfold Workflow.render_send_offer, Workflow.deref, Workflow.assign. preserve. Qed.

Lemma customer_response_evolves inp n1 n2 n3 :
  preserves evolves (Workflow.render_customer_response inp n1 n2 n3).
Proof. unfold Workflow.render_customer_response, Workflow.deref, Workflow.assign. preserve. Qed.

Lemma policy_analysis_preserves {S} (R : relation S) `{!PreOrder R} offer loan :
  preserves R (policy_analysis offer loan).
Proof.
  unfold policy_analysis.
  repeat first [ apply (preserves_bind _ _ _); [|intros ?]
               | apply (preserves_notify _)
               | apply (preserves_when _); intros ?
               | match goal with |- preserves _ (if ?c then _ else _) => destruct c end ].
Qed.

Lemma review_offer_evolves inp seen i :
  preserves evolves (Workflow.review_offer inp seen i).
Proof.
  unfold Workflow.review_offer, Workflow.deref, Workflow.assign.
  preserve; try apply (policy_analysis_preserves _); preserve.
Qed.

Lemma offer_key_evolves i : preserves evolves (Workflow.offer_key i).
Proof. unfold Workflow.offer_key, Workflow.deref. preserve. Qed.

Lemma supervisor_review_evolves inp :
  preserves evolves (Workflow.render_supervisor_review inp).
Proof.
  unfold Workflow.render_supervisor_review. preserve.
  apply (preserves_for_pending _); intros.
  - apply offer_key_evolves.
  - apply review_offer_evolves.
Qed.

Lemma page_evolves a : preserves evolves (Workflow.page a).
Proof.
  destruct a; simpl.
  - apply create_offer_evolves.
  - apply send_offer_evolves.
  - apply customer_response_evolves.
  - apply supervisor_review_evolves.
Qed.

Lemma step_evolves s a : evolves s (Workflow.step s a).
Proof. unfold Workflow.step. rewrite final_run. apply page_evolves. Qed.

Lemma steps_evolves l : forall s, evolves s (Workflow.steps s l).
Proof.
  unfold Workflow.steps. induction l as [|a l IH]; intros s; simpl; [reflexivity|].
  etrans; [apply step_evolves | apply IH].
Qed.

(** * The loop over pending offers *)

Section Focus.
Context {S : Type} (key : nat -> Script S string)
  (body : list string -> nat -> Script S unit) (id_at : S -> nat -> option string).
Hypothesis key_run :
  forall s out i k, id_at s i = Some k -> key i s out = (s, out, Go k).

#[local] Abbreviation passes := (passes body id_at).

Lemma for_pending_passes s pending ks :
  Forall2 (fun j k => id_at s j = Some k /\ passes s j) pending ks ->
  forall seen out, NoDup ks -> (forall k, k ∈ ks -> k ∉ seen) ->
  exists m, for_pending key body seen pending s out = (s, out ++ m, Go tt).
Proof.
  induction 1 as [|j k pending ks [Hid Hpass] HF IH]; intros seen out Hnd Hfresh; simpl.
  - exists []. by rewrite app_nil_r.
  - unfold script_bind at 1. rewrite (key_run _ _ _ _ Hid).
    unfold script_bind at 1.
    destruct (Hpass seen out k Hid) as [m1 ->]; [apply Hfresh; left|].
    apply NoDup_cons in Hnd as [Hk Hnd].
    destruct (IH (k :: seen) (out ++ m1) Hnd) as [m2 ->].
    + intros x Hx [->|Hin]%elem_of_cons; [done|]. by apply (Hfresh x); [right|].
    + exists (m1 ++ m2). by rewrite app_assoc.
Qed.

Lemma for_pending_focus s pre ks_pre i k post :
  Forall2 (fun j k => id_at s j = Some k /\ passes s j) pre ks_pre ->
  id_at s i = Some k ->
  forall seen out, NoDup (ks_pre ++ [k]) -> (forall x, x ∈ ks_pre ++ [k] -> x ∉ seen) ->
  exists seen' m,
    (k ∉ seen') /\ (forall x, x ∈ seen' -> (x ∈ ks_pre) \/ (x ∈ seen)) /\
    for_pending key body seen (pre ++ i :: post) s out
    = script_bind (fun _ => for_pending key body (k :: seen') post) (body seen' i)
        s (out ++ m).
Proof.
  induction 1 as [|j kj pre ks_pre [Hid Hpass] HF IH]; intros Hi seen out Hnd Hfresh; simpl.
  - exists seen, []. rewrite app_nil_r. split; [apply Hfresh; left|]. split; [by right|].
    unfold script_bind at 1. by rewrite (key_run _ _ _ _ Hi).
  - unfold script_bind at 1. rewrite (key_run _ _ _ _ Hid).
    unfold script_bind at 1.
    destruct (Hpass seen out kj Hid) as [m1 ->]; [apply Hfresh; left|].
    simpl in Hnd. apply NoDup_cons in Hnd as [Hk Hnd].
    destruct (IH Hi (kj :: seen) (out ++ m1) Hnd) as (seen' & m2 & Hk' & Hsub & ->).
    + intros x Hx [->|Hin]%elem_of_cons; [done|]. by apply (Hfresh x); [right|].
    + exists seen', (m1 ++ m2). rewrite app_assoc. split; [done|]. split; [|done].
      intros x Hx. destruct (Hsub x Hx) as [?|[->|?]%elem_of_cons]; auto.
      * left. by right.
      * left. by left.
Qed.
End Focus.

Section LoopExt.
Context {S : Type} (key : nat -> Script S string)
  (body1 body2 : list string -> nat -> Script S unit).

(** Two bodies that agree at every pending position, the second leaving
    the state alone, give the same loop, which leaves the state alone. *)
Lemma for_pending_ext s pending :
  (forall j out, state_of (key j s out) = s) ->
  (forall j seen out, j ∈ pending ->
     body1 seen j s out = body2 seen j s out /\ state_of (body2 seen j s out) = s) ->
  forall seen out,
    for_pending key body1 seen pending s out = for_pending key body2 seen pending s out /\
    state_of (for_pending key body2 seen pending s out) = s.
Proof.
  intros Hkey. induction pending as [|j rest IH]; intros Hb seen out; simpl; [done|].
  unfold script_bind at 1 3 5.
  pose proof (Hkey j out) as Hk. unfold state_of in Hk.
  destruct (key j s out) as [[s' out'] [k|e]]; simpl in Hk; subst s'; [|done].
  unfold script_bind.
  destruct (Hb j seen out') as [-> Hst]; [left|].
  unfold state_of in Hst.
  destruct (body2 seen j s out') as [[s2 out2] [[]|e]]; simpl in Hst; subst s2; [|done].
  apply IH. intros j' seen' out'' Hin. apply Hb. by right.
Qed.
End LoopExt.

Ltac exec :=
  unfold mbind, script_mbind, mret, script_mret, script_bind, script_ret, get, modify,
    notify, py_return, rerun, halt, attr, when, state_of, shown_of, flow_of in *;
  cbn in *.

Lemma policy_analysis_run {S} offer loan (s : S) out :
  exists m, policy_analysis offer loan s out = (s, out ++ m, Go tt).
Proof.
  unfold policy_analysis. exec.
  repeat match goal with |- context [if ?b then _ else _] => destruct b end;
    cbn; rewrite <- ?app_assoc; eauto.
  all: eexists; by rewrite app_nil_r.
Qed.


(** * Focusing the loop on the offer that was clicked *)

Section Positions.
Context {A : Type} (p : A -> bool).

Lemma positions_where_lookup (l pre : list A) :
  Forall2 (fun j o => (pre ++ l) !! j = Some o /\ p o = true)
    (positions_where p (length pre) l) (filter (fun o => p o = true) l).
Proof.
  revert pre. induction l as [|o l IH]; intros pre; simpl; [constructor|].
  specialize (IH (pre ++ [o])). rewrite length_app in IH. simpl in IH.
  rewrite Nat.add_1_r, <- app_assoc in IH. simpl in IH.
  rewrite filter_cons. destruct (p o) eqn:Hp.
  - rewrite decide_True by done. constructor; [|exact IH].
    split; [|done]. by rewrite lookup_app_r, Nat.sub_diag by lia.
  - rewrite decide_False by (by intros ?). exact IH.
Qed.

Lemma positions_where_elem (l : list A) (i k : nat) (o : A) :
  l !! i = Some o -> p o = true -> (k + i)%nat ∈ positions_where p k l.
Proof.
  revert i k. induction l as [|x l IH]; intros i k Hi Hp; [done|].
  simpl. destruct i as [|i]; simpl in Hi.
  - inversion Hi; subst x. rewrite Hp, Nat.add_0_r. left.
  - replace (k + S i)%nat with (S k + i)%nat by lia.
    destruct (p x); [right|]; by apply IH.
Qed.

Lemma positions_where_inv (l : list A) (j k : nat) :
  j ∈ positions_where p k l ->
  exists o, (k <= j)%nat /\ l !! (j - k)%nat = Some o /\ p o = true.
Proof.
  revert k. induction l as [|x l IH]; intros k; simpl; [by intros ?%elem_of_nil|].
  destruct (p x) eqn:Hp.
  - intros [->|Hin]%elem_of_cons.
    + exists x. rewrite Nat.sub_diag. by repeat split.
    + destruct (IH _ Hin) as (o & Hle & Ho & Hpo). exists o. repeat split; [lia| |done].
      by replace (j - k)%nat with (S (j - S k)) by lia.
  - intros Hin. destruct (IH _ Hin) as (o & Hle & Ho & Hpo). exists o.
    repeat split; [lia| |done]. by replace (j - k)%nat with (S (j - S k)) by lia.
Qed.
End Positions.

Section FocusOffers.
Context {S O : Type} (offers : S -> list O) (oid : O -> string) (pend : O -> bool).
Context (key : nat -> Script S string) (body : list string -> nat -> Script S unit).
#[local] Abbreviation id_at := (fun s j => oid <$> offers s !! j).
Hypothesis key_run :
  forall s out i k, id_at s i = Some k -> key i s out = (s, out, Go k).

Lemma stretch_passes s s1 (js : list nat) (os : list O) (k : string) :
  (forall j oj, offers s !! j = Some oj -> pend oj = true -> oid oj <> k ->
     id_at s1 j = Some (oid oj) /\ passes body id_at s1 j) ->
  Forall2 (fun j o => offers s !! j = Some o /\ pend o = true) js os ->
  k ∉ oid <$> os ->
  Forall2 (fun j x => id_at s1 j = Some x /\ passes body id_at s1 j) js (oid <$> os).
Proof.
  intros Hp HF Hk.
  induction HF as [|j o js os [Hj Hst] HF IH]; simpl; constructor.
  - apply Hp; [done..|]. intros Heq. apply Hk. rewrite <- Heq. simpl. left.
  - apply IH. intros Hin. apply Hk. simpl. by right.
Qed.

(** A run of the loop over the pending offers comes down to the body at
    position [i], provided the bodies at the other pending offers pass. *)
Lemma for_pending_at s i o :
  NoDup (oid <$> offers s) -> offers s !! i = Some o -> pend o = true ->
  (forall j oj, offers s !! j = Some oj -> pend oj = true -> oid oj <> oid o ->
     passes body id_at s j) ->
  exists seen out0,
    (oid o ∉ seen) /\
    forall s1 out1 fl,
      body seen i s out0 = (s1, out1, fl) ->
      match fl with
      | Halt e =>
        for_pending key body [] (positions_where pend 0 (offers s)) s [] = (s1, out1, Halt e)
      | Go _ =>
        (forall j oj, offers s !! j = Some oj -> pend oj = true -> oid oj <> oid o ->
           id_at s1 j = Some (oid oj) /\ passes body id_at s1 j) ->
        exists m,
          for_pending key body [] (positions_where pend 0 (offers s)) s []
          = (s1, out1 ++ m, Go tt)
      end.
Proof.
  intros Hnd Hi Hst Hothers.
  pose proof (positions_where_elem pend _ _ 0%nat _ Hi Hst) as Hin. simpl in Hin.
  pose proof (positions_where_lookup pend (offers s) []) as HF. simpl in HF.
  set (fl := filter (fun o => pend o = true) (offers s)) in *.
  assert (NoDup (oid <$> fl)) as Hndf.
  { apply (sublist_NoDup _ _ Hnd), fmap_sublist, sublist_filter. }
  apply list_elem_of_split in Hin as (pre & post & Hsplit).
  rewrite Hsplit in *.
  apply Forall2_app_inv_l in HF as (fpre & frest & Hpre & Hrest & Hfl).
  apply Forall2_cons_inv_l in Hrest as (o' & fpost & [Hi' _] & Hpost & ->).
  assert (o' = o) as -> by congruence.
  rewrite Hfl, fmap_app, fmap_cons in Hndf.
  apply NoDup_app in Hndf as (Hnd1 & Hnd2 & Hnd3).
  apply NoDup_cons in Hnd3 as [Hnd3 Hnd4].
  assert (oid o ∉ oid <$> fpre) as Hopre.
  { intros H. by apply (Hnd2 _ H); left. }
  assert (Forall2 (fun j x => id_at s j = Some x /\ passes body id_at s j) pre (oid <$> fpre))
    as Hpass.
  { apply (stretch_passes s s pre fpre (oid o)); [|done..].
    intros j oj Hj Hpj Hne. split; [by rewrite Hj|]. by eapply Hothers. }
  destruct (for_pending_focus key body id_at key_run s pre (oid <$> fpre) i (oid o) post Hpass)
    with (seen := @nil string) (out := @nil Notice) as (seen & m & Hfresh & Hsub & Heq).
  { by rewrite Hi. }
  { apply NoDup_app. split; [done|]. split; [|apply NoDup_singleton].
    intros x Hx ->%list_elem_of_singleton. done. }
  { intros x _ H. by apply elem_of_nil in H. }
  exists seen, m. split; [done|]. intros s1 out1 fl1 Hbody.
  rewrite Heq. unfold script_bind. change ([] ++ m) with m. rewrite Hbody.
  destruct fl1 as [[]|e]; [|done].
  intros Hothers1.
  pose proof (stretch_passes s s1 post fpost (oid o) Hothers1 Hpost Hnd3) as Hpass1.
  destruct (for_pending_passes key body id_at key_run s1 post (oid <$> fpost) Hpass1
              (oid o :: seen) out1 Hnd4) as [m2 ->].
  - intros x Hx [->|Hs]%elem_of_cons; [done|].
    destruct (Hsub x Hs) as [H|H]; [|by apply elem_of_nil in H].
    apply (Hnd2 x H). by right.
  - by exists m2.
Qed.
End FocusOffers.

(** * The third listing: the review page at one offer *)

Lemma offer_key_run s out i o :
  Workflow.offers s !! i = Some o ->
  Workflow.offer_key i s out = (s, out, Go (offer_id o)).
Proof. intros H. unfold Workflow.offer_key, Workflow.deref. exec. by rewrite H. Qed.

Lemma offer_key_run_at s out i k :
  offer_id_at s i = Some k -> Workflow.offer_key i s out = (s, out, Go k).
Proof.
  unfold offer_id_at. intros H. destruct (Workflow.offers s !! i) as [o|] eqn:Ho; [|done].
  inversion H. by apply offer_key_run.
Qed.

Lemma clicked_false inp b :
  Workflow.review_click inp <> Some b -> Workflow.clicked inp b = false.
Proof. intros H. unfold Workflow.clicked. by apply bool_decide_eq_false. Qed.

Lemma review_offer_passes inp s j oj :
  Workflow.offers s !! j = Some oj -> renders s oj ->
  (forall b, Workflow.review_click inp = Some b -> button_offer b <> offer_id oj) ->
  passes (Workflow.review_offer inp) offer_id_at s j.
Proof.
  intros Hj (loan & c & Hloan & Hc) Hclick seen out k Hk Hseen.
  unfold offer_id_at in Hk. rewrite Hj in Hk. simpl in Hk. inversion Hk; subst k.
  assert (forall b, button_offer b = offer_id oj -> Workflow.clicked inp b = false) as Hno.
  { intros b Hb. apply clicked_false. intros Heq. by apply (Hclick b). }
  unfold Workflow.review_offer, Workflow.deref. exec.
  rewrite Hj; cbn. rewrite Hloan; cbn. rewrite Hc; cbn.
  destruct (policy_analysis_run oj loan s out) as [m1 ->]; cbn.
  rewrite bool_decide_eq_false_2 by done.
  rewrite !Hno by done.
  destruct (truthy (justification_notes oj)); cbn;
    destruct (bool_decide (Workflow.reject_modal_key (offer_id oj) ∈ Workflow.flags s)); cbn;
    destruct (bool_decide (Workflow.sendback_modal_key (offer_id oj) ∈ Workflow.flags s)); cbn;
    rewrite ?Hno by done; cbn; rewrite <- ?app_assoc; eauto.
Qed.

Lemma supervisor_review_loop inp s out :
  pending_offers (Workflow.offers s) <> [] ->
  Workflow.render_supervisor_review inp s out
  = for_pending Workflow.offer_key (Workflow.review_offer inp) []
      (pending_offers (Workflow.offers s)) s out.
Proof.
  intros H. unfold Workflow.render_supervisor_review.
  unfold mbind, script_mbind, script_bind, get.
  by destruct (pending_offers (Workflow.offers s)).
Qed.


Lemma NoDup_fmap_lookup_inj (l : list Offer) (i j : nat) (a b : Offer) :
  NoDup (offer_id <$> l) -> l !! i = Some a -> l !! j = Some b ->
  offer_id a = offer_id b -> i = j.
Proof.
  intros Hnd Hi Hj Heq.
  apply (NoDup_lookup _ i j (offer_id a) Hnd); rewrite list_lookup_fmap.
  - by rewrite Hi.
  - rewrite Hj. simpl. by rewrite Heq.
Qed.

Lemma pending_offers_elem (l : list Offer) (i : nat) (o : Offer) :
  l !! i = Some o -> status o = PENDING_APPROVAL -> i ∈ pending_offers l.
Proof.
  intros Hi Hst. apply (positions_where_elem is_pending l i 0%nat o Hi).
  unfold is_pending. by apply bool_decide_eq_true.
Qed.

Lemma pending_offers_inv (l : list Offer) (j : nat) :
  j ∈ pending_offers l -> exists o, l !! j = Some o /\ status o = PENDING_APPROVAL.
Proof.
  intros (o & _ & Ho & Hp)%positions_where_inv. rewrite Nat.sub_0_r in Ho.
  exists o. split; [done|]. unfold is_pending in Hp. by apply bool_decide_eq_true in Hp.
Qed.

Lemma renders_same_data s s1 o : same_data s s1 -> renders s o -> renders s1 o.
Proof.
  intros (Ho & Hl & Hc) (loan & c & H1 & H2). exists loan, c.
  unfold Workflow.get_loan_by_id, Workflow.get_customer_by_id in *. by rewrite Hl, Hc.
Qed.

(** A run of the review page whose click is on the pending offer at
    position [i] comes down to the body of the loop at that offer. *)
Lemma supervisor_review_focus inp s i o :
  review_ready s -> Workflow.offers s !! i = Some o -> status o = PENDING_APPROVAL ->
  click_on inp (offer_id o) ->
  exists seen out0,
    (offer_id o ∉ seen) /\
    forall s1 out1 fl,
      Workflow.review_offer inp seen i s out0 = (s1, out1, fl) ->
      match fl with
      | Halt e => Workflow.render_supervisor_review inp s [] = (s1, out1, Halt e)
      | Go _ =>
        same_data s s1 ->
        exists m, Workflow.render_supervisor_review inp s [] = (s1, out1 ++ m, Go tt)
      end.
Proof.
  intros [Hnd Hr] Hi Hst Hclick.
  assert (is_pending o = true) as Hp by (unfold is_pending; by apply bool_decide_eq_true).
  assert (forall s1 j oj, same_data s s1 -> Workflow.offers s !! j = Some oj ->
            is_pending oj = true -> offer_id oj <> offer_id o ->
            passes (Workflow.review_offer inp) offer_id_at s1 j) as Hpass.
  { intros s1 j oj Hsame Hj Hpj Hne.
    assert (Workflow.offers s1 !! j = Some oj) as Hj1 by (destruct Hsame as [-> _]; done).
    apply (review_offer_passes inp s1 j oj Hj1).
    - apply (renders_same_data s s1 oj Hsame), Hr; [by eapply list_elem_of_lookup_2|].
      unfold is_pending in Hpj. by apply bool_decide_eq_true in Hpj.
    - intros b Hb Heq. apply Hne. by rewrite <- Heq, (Hclick b Hb). }
  destruct (for_pending_at Workflow.offers offer_id is_pending Workflow.offer_key
              (Workflow.review_offer inp) offer_key_run_at s i o Hnd Hi Hp)
    as (seen & out0 & Hfresh & Hrun).
  { intros j oj Hj Hpj Hne. apply (Hpass s j oj); [by repeat split|done..]. }
  exists seen, out0. split; [done|]. intros s1 out1 fl Hbody.
  specialize (Hrun s1 out1 fl Hbody).
  rewrite supervisor_review_loop
    by (intros Hnil; pose proof (pending_offers_elem _ _ _ Hi Hst) as Hin;
        rewrite Hnil in Hin; by apply elem_of_nil in Hin).
  destruct fl as [[]|e]; [|exact Hrun].
  intros Hsame. apply Hrun. intros j oj Hj Hpj Hne. split.
  - destruct Hsame as [-> _]. by rewrite Hj.
  - by apply (Hpass s1 j oj).
Qed.

Lemma clicked_true inp b :
  Workflow.review_click inp = Some b -> Workflow.clicked inp b = true.
Proof. intros H. unfold Workflow.clicked. by apply bool_decide_eq_true. Qed.

Lemma clicked_other inp b b' :
  Workflow.review_click inp = Some b -> b <> b' -> Workflow.clicked inp b' = false.
Proof. intros H Hne. apply clicked_false. rewrite H. congruence. Qed.

(** The body of the loop when [Approve] was clicked for its offer. *)
Lemma review_offer_approve inp seen i s out o :
  Workflow.offers s !! i = Some o -> renders s o -> offer_id o ∉ seen ->
  Workflow.review_click inp = Some (Workflow.Approve (offer_id o)) ->
  exists m,
    Workflow.review_offer inp seen i s out
    = (Workflow.with_offers (alter (set_status DRAFT) i) s,
       out ++ m ++ [st_success "Offer approved! Agent can now send it to customer."],
       Halt Rerun).
Proof.
  intros Hi (loan & c & Hloan & Hc) Hseen Hclick.
  unfold Workflow.review_offer, Workflow.deref, Workflow.assign. exec.
  rewrite Hi; cbn. rewrite Hloan; cbn. rewrite Hc; cbn.
  destruct (policy_analysis_run o loan s out) as [m1 ->]; cbn.
  rewrite bool_decide_eq_false_2 by done.
  rewrite (clicked_true _ _ Hclick).
  destruct (truthy (justification_notes o)); cbn;
    [exists (m1 ++ [st_info (justification_notes o)]) | exists m1];
    by rewrite <- ?app_assoc.
Qed.

(** The body of the loop when [Confirm Rejection] was clicked in the dialog
    of its offer. *)
Lemma review_offer_confirm_rejection inp seen i s out o :
  Workflow.offers s !! i = Some o -> renders s o -> offer_id o ∉ seen ->
  Workflow.reject_modal_key (offer_id o) ∈ Workflow.flags s ->
  Workflow.review_click inp = Some (Workflow.ConfirmRejection (offer_id o)) ->
  let comments := Workflow.in_text inp ("reject_comments_" +:+ offer_id o) in
  exists m,
    Workflow.review_offer inp seen i s out
    = if truthy (strip comments) then
        (Workflow.with_flags (fun f => f ∖ {[Workflow.reject_modal_key (offer_id o)]})
           (Workflow.with_offers (alter (set_supervisor_comments comments) i)
              (Workflow.with_offers (alter (set_status REJECTED_BY_SUPERVISOR) i) s)),
         out ++ m ++ [st_error "Offer rejected by supervisor."],
         Halt Rerun)
      else
        (s, out ++ m ++ [st_error "Comments are required for rejection."], Go tt).
Proof.
  intros Hi (loan & c & Hloan & Hc) Hseen Hflag Hclick comments.
  unfold Workflow.review_offer, Workflow.deref, Workflow.assign. exec.
  rewrite Hi; cbn. rewrite Hloan; cbn. rewrite Hc; cbn.
  destruct (policy_analysis_run o loan s out) as [m1 ->]; cbn.
  rewrite bool_decide_eq_false_2 by done.
  rewrite (clicked_true _ _ Hclick).
  rewrite !(clicked_other _ _ _ Hclick) by discriminate.
  fold comments.
  destruct (truthy (justification_notes o)); cbn;
    rewrite ?(bool_decide_eq_true_2 _ Hflag); cbn;
    destruct (truthy (strip comments)); cbn;
    try destruct (bool_decide (Workflow.sendback_modal_key (offer_id o) ∈ Workflow.flags s));
    cbn.
  all: first [ exists (m1 ++ [st_info (justification_notes o)]); by rewrite <- ?app_assoc
             | exists m1; by rewrite <- ?app_assoc ].
Qed.

Lemma run_eq {S} (m : Script S unit) (s s1 : S) out1 fl :
  m s [] = (s1, out1, fl) ->
  run m s = {| final := s1; notices := out1;
               ending := match fl with Go _ => Finished | Halt e => e end |}.
Proof. intros H. unfold run. rewrite H. by destruct fl. Qed.

(** [Approve] on a pending offer of the third listing. *)
Lemma workflow_approve_run inp s i o :
  review_ready s -> Workflow.offers s !! i = Some o -> status o = PENDING_APPROVAL ->
  Workflow.review_click inp = Some (Workflow.Approve (offer_id o)) ->
  let r := run (Workflow.render_supervisor_review inp) s in
  final r = Workflow.with_offers (alter (set_status DRAFT) i) s /\
  ending r = Rerun /\
  st_success "Offer approved! Agent can now send it to customer." ∈ notices r.
Proof.
  intros Hready Hi Hst Hclick r.
  destruct (supervisor_review_focus inp s i o Hready Hi Hst) as (seen & out0 & Hfresh & Hrun).
  { intros b Hb. rewrite Hclick in Hb. by inversion Hb. }
  assert (renders s o) as Hren.
  { destruct Hready as [_ Hr]. apply Hr; [by eapply list_elem_of_lookup_2|done]. }
  destruct (review_offer_approve inp seen i s out0 o Hi Hren Hfresh Hclick) as [m Hbody].
  specialize (Hrun _ _ _ Hbody). simpl in Hrun.
  subst r. rewrite (run_eq _ _ _ _ _ Hrun). simpl. repeat split.
  rewrite !elem_of_app. right. right. left.
Qed.

(** [Confirm Rejection] on a pending offer of the third listing whose
    rejection dialog is open. *)
Lemma workflow_confirm_rejection_run inp s i o :
  review_ready s -> Workflow.offers s !! i = Some o -> status o = PENDING_APPROVAL ->
  Workflow.reject_modal_key (offer_id o) ∈ Workflow.flags s ->
  Workflow.review_click inp = Some (Workflow.ConfirmRejection (offer_id o)) ->
  let comments := Workflow.in_text inp ("reject_comments_" +:+ offer_id o) in
  let r := run (Workflow.render_supervisor_review inp) s in
  if truthy (strip comments) then
    final r
    = Workflow.with_flags (fun f => f ∖ {[Workflow.reject_modal_key (offer_id o)]})
        (Workflow.with_offers (alter (set_supervisor_comments comments) i)
           (Workflow.with_offers (alter (set_status REJECTED_BY_SUPERVISOR) i) s)) /\
    ending r = Rerun
  else
    final r = s /\ ending r = Finished /\
    st_error "Comments are required for rejection." ∈ notices r.
Proof.
  intros Hready Hi Hst Hflag Hclick comments r.
  destruct (supervisor_review_focus inp s i o Hready Hi Hst) as (seen & out0 & Hfresh & Hrun).
  { intros b Hb. rewrite Hclick in Hb. by inversion Hb. }
  assert (renders s o) as Hren.
  { destruct Hready as [_ Hr]. apply Hr; [by eapply list_elem_of_lookup_2|done]. }
  destruct (review_offer_confirm_rejection inp seen i s out0 o Hi Hren Hfresh Hflag Hclick)
    as [m Hbody].
  fold comments in Hbody. subst r.
  destruct (truthy (strip comments)).
  - specialize (Hrun _ _ _ Hbody). simpl in Hrun.
    by rewrite (run_eq _ _ _ _ _ Hrun).
  - specialize (Hrun _ _ _ Hbody). simpl in Hrun.
    destruct Hrun as [m2 Hrun]; [by repeat split|].
    rewrite (run_eq _ _ _ _ _ Hrun). simpl. repeat split.
    rewrite !elem_of_app. left. right. right. left.
Qed.

(** A click that is on no widget of the offer at position [j] is, for the
    body of the loop at [j], no click at all. *)
Lemma review_offer_unclicked inp seen j s out :
  (forall oj b, Workflow.offers s !! j = Some oj ->
     Workflow.review_click inp = Some b -> button_offer b <> offer_id oj) ->
  let idle := {| Workflow.review_click := None; Workflow.in_text := Workflow.in_text inp |} in
  Workflow.review_offer inp seen j s out = Workflow.review_offer idle seen j s out /\
  state_of (Workflow.review_offer idle seen j s out) = s.
Proof.
  intros Hclick idle.
  unfold Workflow.review_offer, Workflow.deref, Workflow.assign. exec.
  destruct (Workflow.offers s !! j) as [oj|] eqn:Hj; cbn; [|done].
  destruct (Workflow.get_loan_by_id s (offer_loan_id oj)) as [loan|]; cbn; [|done].
  destruct (Workflow.get_customer_by_id s (loan_customer_id loan)) as [c|]; cbn; [|done].
  assert (forall b, button_offer b = offer_id oj -> Workflow.clicked inp b = false) as Hno.
  { intros b Hb. apply clicked_false. intros Heq. by apply (Hclick oj b). }
  assert (forall b, Workflow.clicked idle b = false) as Hidle.
  { intros b. by apply clicked_false. }
  destruct (policy_analysis_run oj loan s out) as [m1 ->]; cbn.
  rewrite !Hno, !Hidle by done.
  destruct (truthy (justification_notes oj)); cbn;
    destruct (bool_decide (offer_id oj ∈ seen)); cbn; try done;
    destruct (bool_decide (Workflow.reject_modal_key (offer_id oj) ∈ Workflow.flags s)); cbn;
    destruct (bool_decide (Workflow.sendback_modal_key (offer_id oj) ∈ Workflow.flags s)); cbn;
    rewrite ?Hno, ?Hidle by done; done.
Qed.

Lemma offer_key_state j s out : state_of (Workflow.offer_key j s out) = s.
Proof.
  unfold Workflow.offer_key, Workflow.deref. exec.
  by destruct (Workflow.offers s !! j).
Qed.

(** * Claims about the supervisor review of the third listing *)

(** C9.  Approving an offer that is already in Draft is a no-op: the review
    page lists only pending offers, so a run with a click on [Approve] for a
    Draft offer is the run without any click, and it leaves the whole session
    state, the offer included, as it was. *)
Theorem approve_on_draft_is_no_op (s : Workflow.SessionState) (i : nat) (o : Offer)
    (inp : Workflow.ReviewInput) :
  Workflow.offers s !! i = Some o -> status o = DRAFT ->
  NoDup (offer_id <$> Workflow.offers s) ->
  Workflow.review_click inp = Some (Workflow.Approve (offer_id o)) ->
  let idle := {| Workflow.review_click := None; Workflow.in_text := Workflow.in_text inp |} in
  run (Workflow.render_supervisor_review inp) s
  = run (Workflow.render_supervisor_review idle) s /\
  final (run (Workflow.render_supervisor_review inp) s) = s /\
  Workflow.offers (final (run (Workflow.render_supervisor_review inp) s)) !! i = Some o.
Proof.
  intros Hi Hst Hnd Hclick idle.
  assert (Workflow.render_supervisor_review inp s []
          = Workflow.render_supervisor_review idle s [] /\
          state_of (Workflow.render_supervisor_review idle s []) = s) as [Heq Hstate].
  { unfold Workflow.render_supervisor_review.
    unfold mbind, script_mbind, script_bind, get.
    destruct (pending_offers (Workflow.offers s)) as [|j0 rest] eqn:Hp; [done|].
    rewrite <- Hp.
    apply (for_pending_ext Workflow.offer_key (Workflow.review_offer inp)
             (Workflow.review_offer idle) s); [intros; apply offer_key_state|].
    intros j seen out Hj. apply review_offer_unclicked.
    intros oj b Hoj Hb Heq. rewrite Hclick in Hb. inversion Hb; subst b. simpl in Heq.
    apply pending_offers_inv in Hj as (oj' & Hoj' & Hpend).
    assert (oj' = oj) as -> by congruence.
    assert (i = j) as -> by (by eapply (NoDup_fmap_lookup_inj (Workflow.offers s))).
    congruence. }
  assert (run (Workflow.render_supervisor_review inp) s
          = run (Workflow.render_supervisor_review idle) s) as Hrun.
  { unfold run. by rewrite Heq. }
  split; [done|]. rewrite Hrun, final_run, Hstate. by split.
Qed.

(** * The third listing: the form pages *)

Lemma for_each_errors {S} (l : list string) (s : S) out :
  for_each l (fun e s1 out0 => (s1, out0 ++ [st_error e], Go tt)) s out
  = (s, out ++ (st_error <$> l), Go tt).
Proof.
  revert out. induction l as [|e l IH]; intros out; simpl.
  - by rewrite app_nil_r.
  - unfold script_bind. rewrite IH. by rewrite <- app_assoc.
Qed.

Lemma find_offer_Some s oid i :
  Workflow.find_offer s oid = Some i ->
  exists o, Workflow.offers s !! i = Some o /\ offer_id o = oid.
Proof.
  unfold Workflow.find_offer. intros H.
  destruct (list_find (fun o => offer_id o = oid) (Workflow.offers s)) as [[j o]|] eqn:Hf;
    [|done].
  simpl in H. inversion H; subst j.
  apply list_find_Some in Hf as (Ho & Hid & _). by exists o.
Qed.

(** A submitted creation form, for a selected loan that is found together
    with its customer. *)
Lemma create_offer_run s inp n1 n2 lid loan c :
  Workflow.selected_loan_id s = Some lid ->
  Workflow.get_loan_by_id s lid = Some loan ->
  Workflow.get_customer_by_id s (loan_customer_id loan) = Some c ->
  create_click inp = Some CreateOffer ->
  let r := run (Workflow.render_create_offer inp n1 n2) s in
  let new := Workflow.new_offer s loan inp n2 in
  match create_errors loan inp n1 with
  | [] =>
    final r = Workflow.with_current_offer_id (offer_id new)
                (Workflow.with_current_page "send_offer"
                   (Workflow.with_offers (fun l => l ++ [new]) s)) /\
    ending r = Rerun
  | errs =>
    final r = s /\ ending r = Finished /\ forall e, e ∈ errs -> st_error e ∈ notices r
  end.
Proof.
  intros Hsel Hloan Hc Hclick r new. subst r.
  unfold run, Workflow.render_create_offer. exec.
  rewrite Hsel; cbn. rewrite Hloan; cbn. rewrite Hclick; cbn. rewrite Hc; cbn.
  destruct (create_errors loan inp n1) as [|e errs] eqn:He.
  - destruct (negb (is_within_policy loan (in_settlement_percentage inp))); cbn; done.
  - destruct (negb (is_within_policy loan (in_settlement_percentage inp))); cbn;
      rewrite for_each_errors; cbn; repeat split;
      intros x Hx;
      change (st_error e :: (st_error <$> errs)) with (st_error <$> (e :: errs));
      first [ apply elem_of_cons; right; apply list_elem_of_fmap; by exists x
            | do 2 (apply elem_of_cons; right); apply list_elem_of_fmap; by exists x ].
Qed.

(** A submitted send form, for a current offer that is found together with
    its loan and customer. *)
Lemma send_offer_run s inp n1 n2 oid i o loan c :
  Workflow.current_offer_id s = Some oid ->
  Workflow.find_offer s oid = Some i ->
  Workflow.offers s !! i = Some o ->
  Workflow.get_loan_by_id s (offer_loan_id o) = Some loan ->
  Workflow.get_customer_by_id s (loan_customer_id loan) = Some c ->
  Workflow.send_click inp = Some Workflow.SendOffer ->
  let r := run (Workflow.render_send_offer inp n1 n2) s in
  let communication :=
    {| Workflow.communication_id :=
         "COMM_" +:+ fmt_03d (length (Workflow.communications s) + 1);
       Workflow.comm_loan_id := loan_id loan;
       Workflow.comm_offer_id := offer_id o;
       Workflow.channel := Workflow.in_channel inp;
       Workflow.message_content := Workflow.in_message_content inp;
       Workflow.comm_sent_date := n1;
       Workflow.delivery_status := "Delivered" |} in
  if decide (status o = PENDING_APPROVAL) then
    final r = s /\ ending r = Finished /\
    notices r = [st_warning
      "⏳ This offer is pending supervisor approval and cannot be sent yet."]
  else
    final r = Workflow.with_current_page "customer_response"
                (Workflow.with_offers (alter (set_sent_date n2) i)
                   (Workflow.with_offers (alter (set_status SENT) i)
                      (Workflow.with_communications (fun l => l ++ [communication]) s))) /\
    ending r = Rerun /\
    notices r = [st_success ("Offer sent successfully via "
                             +:+ channel_value (Workflow.in_channel inp) +:+ "!")].
Proof.
  intros Hcur Hfind Hi Hloan Hc Hclick r communication. subst r.
  unfold run, Workflow.render_send_offer, Workflow.deref, Workflow.assign. exec.
  rewrite Hcur; cbn. rewrite Hfind; cbn. rewrite Hi; cbn. rewrite Hloan; cbn.
  rewrite Hclick; cbn. rewrite Hc; cbn.
  destruct (decide (status o = PENDING_APPROVAL)); cbn; done.
Qed.

(** A submitted response form, for a current offer that is found together
    with its loan. *)
Lemma customer_response_run s inp n1 n2 n3 oid i o loan :
  Workflow.current_offer_id s = Some oid ->
  Workflow.find_offer s oid = Some i ->
  Workflow.offers s !! i = Some o ->
  Workflow.get_loan_by_id s (offer_loan_id o) = Some loan ->
  Workflow.response_click inp = Some Workflow.SaveCustomerResponse ->
  let r := run (Workflow.render_customer_response inp n1 n2 n3) s in
  let recorded :=
    Workflow.with_responses (fun l => l ++ [Workflow.new_response s o loan inp n1]) s in
  let answered st :=
    Workflow.with_offers (alter (set_response_date n2) i)
      (Workflow.with_offers (alter (set_status st) i) recorded) in
  ending r = Rerun /\
  final r =
    Workflow.with_current_page "dashboard"
      match Workflow.in_response_type inp with
      | Workflow.Accepted => answered ACCEPTED
      | Workflow.Rejected => answered REJECTED
      | Workflow.Counter_offer =>
        Workflow.with_offers
          (fun l => l ++ [Workflow.counter_offer (answered COUNTER_OFFER)
                            (set_response_date n2 (set_status COUNTER_OFFER o)) loan inp n3])
          (answered COUNTER_OFFER)
      end.
Proof.
  intros Hcur Hfind Hi Hloan Hclick r recorded answered. subst r.
  unfold run, Workflow.render_customer_response, Workflow.deref, Workflow.assign. exec.
  rewrite Hcur; cbn. rewrite Hfind; cbn. rewrite Hi; cbn. rewrite Hloan; cbn.
  rewrite Hclick; cbn.
  destruct (Workflow.in_response_type inp); cbn; try done.
  rewrite !list_lookup_alter_eq, Hi. cbn. done.
Qed.

(** * The third listing: settlement terms *)

Lemma Forall2_same_terms_refl (l : list Offer) : Forall2 same_terms l l.
Proof. induction l; constructor; [reflexivity | done]. Qed.

Lemma Forall2_same_terms_alter f i (l : list Offer) :
  (forall o, same_terms o (f o)) -> Forall2 same_terms l (alter f i l).
Proof.
  intros Hf. revert i. induction l as [|o l IH]; intros i; [constructor|].
  destruct i as [|i]; simpl; constructor.
  - apply Hf.
  - apply Forall2_same_terms_refl.
  - reflexivity.
  - apply IH.
Qed.

#[global] Instance revised_preorder : PreOrder revised.
Proof.
  split.
  - intros s. split; [done | apply Forall2_same_terms_refl].
  - intros a b c [A1 A2] [B1 B2]. split; [congruence|].
    by etrans.
Qed.

Lemma revised_alter f i s :
  (forall o, same_terms o (f o)) -> revised s (Workflow.with_offers (alter f i) s).
Proof. intros Hf. split; [done|]. by apply Forall2_same_terms_alter. Qed.

Lemma revised_communications f s : revised s (Workflow.with_communications f s).
Proof. split; [done | apply Forall2_same_terms_refl]. Qed.

Lemma revised_current_page p s : revised s (Workflow.with_current_page p s).
Proof. split; [done | apply Forall2_same_terms_refl]. Qed.

Lemma revised_flags f s : revised s (Workflow.with_flags f s).
Proof. split; [done | apply Forall2_same_terms_refl]. Qed.

#[global] Hint Resolve revised_alter revised_communications revised_current_page
  revised_flags : evolve.

Lemma send_offer_revised inp n1 n2 :
  preserves revised (Workflow.render_send_offer inp n1 n2).
Proof. unfold Workflow.render_send_offer, Workflow.deref, Workflow.assign. preserve. Qed.

Lemma supervisor_review_revised inp :
  preserves revised (Workflow.render_supervisor_review inp).
Proof.
  unfold Workflow.render_supervisor_review. preserve.
  apply (preserves_for_pending _); intros.
  - unfold Workflow.offer_key, Workflow.deref. preserve.
  - unfold Workflow.review_offer, Workflow.deref, Workflow.assign.
    preserve; try apply (policy_analysis_preserves _); preserve.
Qed.

Lemma priced_same_terms ls o o' : same_terms o o' -> priced ls o -> priced ls o'.
Proof.
  intros (_ & Hl & _ & Hp & Ha & _) (loan & Hin & Hid & Heq).
  exists loan. rewrite Hl, Hp, Ha. by repeat split.
Qed.

Lemma revised_grown s s' : revised s s' -> grown s s'.
Proof.
  intros [Hl HF]. split; [done|]. exists (Workflow.offers s'), [].
  rewrite app_nil_r. repeat split; [done|constructor].
Qed.

Lemma grown_refl s : grown s s.
Proof. apply revised_grown. reflexivity. Qed.

Lemma get_loan_by_id_Some s lid loan :
  Workflow.get_loan_by_id s lid = Some loan -> loan ∈ Workflow.loans s /\ loan_id loan = lid.
Proof.
  unfold Workflow.get_loan_by_id. intros H.
  destruct (list_find (fun l => loan_id l = lid) (Workflow.loans s)) as [[j l]|] eqn:Hf;
    [|done].
  simpl in H. inversion H; subst l.
  apply list_find_Some in Hf as (Hl & Hid & _). split; [|done].
  by eapply list_elem_of_lookup_2.
Qed.

Lemma priced_amount_for ls loan lid (o : Offer) pct :
  loan ∈ ls -> loan_id loan = lid -> offer_loan_id o = lid ->
  settlement_percentage o = inject_Z pct -> settlement_amount o = amount_for loan pct ->
  priced ls o.
Proof.
  intros Hin Hid Hl Hp Ha. exists loan. repeat split; [done|congruence|].
  rewrite Ha, Hp. unfold amount_for. apply Qmult_comm.
Qed.

Lemma create_offer_grown inp n1 n2 s out :
  grown s (state_of (Workflow.render_create_offer inp n1 n2 s out)).
Proof.
  unfold Workflow.render_create_offer. exec.
  destruct (Workflow.selected_loan_id s) as [lid|] eqn:Hsel; cbn; [|apply grown_refl].
  destruct (Workflow.get_loan_by_id s lid) as [loan|] eqn:Hloan; cbn; [|apply grown_refl].
  apply get_loan_by_id_Some in Hloan as [Hin Hid].
  assert (forall p id,
    grown s (Workflow.with_current_offer_id id (Workflow.with_current_page p
              (Workflow.with_offers
                 (fun l => l ++ [Workflow.new_offer s loan inp n2]) s)))) as Hnew.
  { intros p id. split; [done|].
    exists (Workflow.offers s), [Workflow.new_offer s loan inp n2]. repeat split.
    - apply Forall2_same_terms_refl.
    - constructor; [|constructor].
      by apply (priced_amount_for _ loan (loan_id loan) _ (in_settlement_percentage inp)). }
  destruct (create_click inp) as [[|]|]; cbn;
    [apply revised_grown, revised_current_page| |].
  - destruct (Workflow.get_customer_by_id s (loan_customer_id loan)); cbn; [|apply grown_refl].
    destruct (create_errors loan inp n1) eqn:He;
      destruct (negb (is_within_policy loan (in_settlement_percentage inp))); cbn;
      rewrite ?for_each_errors; cbn; first [ apply grown_refl | by apply Hnew ].
  - destruct (Workflow.get_customer_by_id s (loan_customer_id loan)); cbn; [|apply grown_refl].
    destruct (negb (is_within_policy loan (in_settlement_percentage inp))); cbn;
      apply grown_refl.
Qed.

Lemma revised_responses f s : revised s (Workflow.with_responses f s).
Proof. split; [done | reflexivity]. Qed.

Lemma customer_response_grown inp n1 n2 n3 s out :
  grown s (state_of (Workflow.render_customer_response inp n1 n2 n3 s out)).
Proof.
  unfold Workflow.render_customer_response, Workflow.deref, Workflow.assign. exec.
  destruct (Workflow.current_offer_id s) as [oid|]; cbn; [|apply grown_refl].
  destruct (Workflow.find_offer s oid) as [i|]; cbn; [|apply grown_refl].
  destruct (Workflow.offers s !! i) as [o|] eqn:Hi; cbn; [|apply grown_refl].
  destruct (Workflow.get_loan_by_id s (offer_loan_id o)) as [loan|] eqn:Hloan; cbn;
    [|apply grown_refl].
  apply get_loan_by_id_Some in Hloan as [Hin Hid].
  destruct (Workflow.response_click inp) as [[|]|]; cbn;
    [apply revised_grown, revised_current_page| |apply grown_refl].
  assert (forall st, Forall2 same_terms (Workflow.offers s)
            (alter (set_response_date n2) i (alter (set_status st) i (Workflow.offers s))))
    as Hkept.
  { intros st. etrans; apply Forall2_same_terms_alter; auto with evolve. }
  destruct (Workflow.in_response_type inp); cbn.
  - split; [done|]. eexists _, []. rewrite app_nil_r. repeat split; [apply Hkept|constructor].
  - split; [done|]. eexists _, []. rewrite app_nil_r. repeat split; [apply Hkept|constructor].
  - rewrite !list_lookup_alter_eq, Hi. cbn. split; [done|]. eexists _, [_].
    repeat split; [apply Hkept|]. constructor; [|constructor].
    by apply (priced_amount_for _ loan (loan_id loan) _ (Workflow.in_counter_percentage inp)).
Qed.

Lemma page_grown a s out : grown s (state_of (Workflow.page a s out)).
Proof.
  destruct a; simpl.
  - apply create_offer_grown.
  - apply revised_grown, send_offer_revised.
  - apply customer_response_grown.
  - apply revised_grown, supervisor_review_revised.
Qed.

Lemma grown_all_priced s s' : grown s s' -> all_priced s -> all_priced s'.
Proof.
  intros (Hl & kept & added & Heq & Hkept & Hadded) Hs o Ho.
  rewrite Hl. rewrite Heq in Ho. apply elem_of_app in Ho as [Ho|Ho].
  - apply list_elem_of_lookup in Ho as [i Hi].
    destruct (Forall2_lookup_r _ _ _ _ _ Hkept Hi) as (o0 & H0 & Hterms).
    apply (priced_same_terms _ o0); [done|]. apply Hs. by eapply list_elem_of_lookup_2.
  - by apply (proj1 (Forall_forall _ _) Hadded).
Qed.

Lemma steps_all_priced l : forall s, all_priced s -> all_priced (Workflow.steps s l).
Proof.
  unfold Workflow.steps. induction l as [|a l IH]; intros s Hs; simpl; [done|].
  apply IH. apply (grown_all_priced s); [|done].
  unfold Workflow.step. rewrite final_run. apply page_grown.
Qed.

Lemma initial_all_priced cs ls draw :
  all_priced (Workflow.initialize_session_state cs ls draw).
Proof.
  intros o Ho. simpl in *. unfold generate_sample_offers in Ho.
  apply elem_of_lookup_imap in Ho as (i & loan & -> & Hi).
  exists loan. repeat split.
  - apply list_elem_of_lookup_2, elem_of_take in Hi as (j & Hj & _).
    by eapply list_elem_of_lookup_2.
  - simpl. apply Qmult_comm.
Qed.

(** * Claims about the form pages of the third listing *)

(** C10.  Recording a customer response assigns the status and the response
    date of the responded offer and nothing else of it, for each of the three
    response types and whatever the status of the offer was (Sent in
    particular); the other offers that were there stay as they are. *)
Theorem response_changes_status_and_date (s : Workflow.SessionState)
    (inp : Workflow.ResponseInput) (n1 n2 n3 : datetime) (i : nat) (o : Offer)
    (loan : Loan) :
  Workflow.current_offer_id s = Some (offer_id o) ->
  Workflow.find_offer s (offer_id o) = Some i ->
  Workflow.offers s !! i = Some o ->
  Workflow.get_loan_by_id s (offer_loan_id o) = Some loan ->
  Workflow.response_click inp = Some Workflow.SaveCustomerResponse ->
  let r := run (Workflow.render_customer_response inp n1 n2 n3) s in
  ending r = Rerun /\
  (exists o',
     Workflow.offers (final r) !! i = Some o' /\
     status o' = response_status (Workflow.in_response_type inp) /\
     response_date o' = Some n2 /\
     settlement_percentage o' = settlement_percentage o /\
     settlement_amount o' = settlement_amount o /\
     due_date o' = due_date o /\
     created_date o' = created_date o /\
     justification_notes o' = justification_notes o /\
     agent_id o' = agent_id o /\
     offer_loan_id o' = offer_loan_id o /\
     offer_id o' = offer_id o /\
     sent_date o' = sent_date o /\
     supervisor_comments o' = supervisor_comments o) /\
  (forall j, j <> i -> (j < length (Workflow.offers s))%nat ->
     Workflow.offers (final r) !! j = Workflow.offers s !! j).
Proof.
  intros Hcur Hfind Hi Hloan Hclick r.
  destruct (customer_response_run s inp n1 n2 n3 _ i o loan Hcur Hfind Hi Hloan Hclick)
    as [Hend Hfinal].
  fold r in Hend, Hfinal. split; [done|]. rewrite Hfinal. split.
  - exists (set_response_date n2 (set_status (response_status (Workflow.in_response_type inp)) o)).
    split; [|by repeat split].
    destruct (Workflow.in_response_type inp); simpl;
      rewrite ?lookup_app_l by (rewrite !length_alter; by eapply lookup_lt_Some);
      by rewrite !list_lookup_alter_eq, Hi.
  - intros j Hne Hlt.
    destruct (Workflow.in_response_type inp); simpl;
      rewrite ?lookup_app_l by (by rewrite !length_alter);
      by rewrite !list_lookup_alter_ne.
Qed.

(** C2 as the code has it.  Recording a counter-offer sets the response date
    of the responded offer, moves it to Counter Offer, and appends exactly one
    new offer on the same loan with the counter terms.  The new offer always
    starts in Draft, inside or outside the policy band; the [Offer] record has
    no parent field, the responded offer is referred to by the percentage
    quoted in the justification notes. *)
Theorem counter_response_creates_draft (s : Workflow.SessionState)
    (inp : Workflow.ResponseInput) (n1 n2 n3 : datetime) (i : nat) (o : Offer)
    (loan : Loan) :
  Workflow.current_offer_id s = Some (offer_id o) ->
  Workflow.find_offer s (offer_id o) = Some i ->
  Workflow.offers s !! i = Some o ->
  Workflow.get_loan_by_id s (offer_loan_id o) = Some loan ->
  Workflow.response_click inp = Some Workflow.SaveCustomerResponse ->
  Workflow.in_response_type inp = Workflow.Counter_offer ->
  let r := run (Workflow.render_customer_response inp n1 n2 n3) s in
  let pct := Workflow.in_counter_percentage inp in
  Workflow.offers (final r) !! i
  = Some (set_response_date n2 (set_status COUNTER_OFFER o)) /\
  exists child,
    Workflow.offers (final r)
    = alter (set_response_date n2) i (alter (set_status COUNTER_OFFER) i (Workflow.offers s))
      ++ [child] /\
    length (Workflow.offers (final r)) = S (length (Workflow.offers s)) /\
    status child = DRAFT /\
    offer_loan_id child = offer_loan_id o /\
    settlement_percentage child = inject_Z pct /\
    settlement_amount child = amount_for loan pct /\
    due_date child = combine_min (Workflow.in_counter_due_date inp) /\
    justification_notes child
    = "Counter-offer from customer. Original offer: "
      +:+ fmt_1f (settlement_percentage o) +:+ "%".
Proof.
  intros Hcur Hfind Hi Hloan Hclick Htype r pct.
  destruct (customer_response_run s inp n1 n2 n3 _ i o loan Hcur Hfind Hi Hloan Hclick)
    as [Hend Hfinal].
  fold r in Hend, Hfinal. rewrite Hfinal, Htype. simpl. split.
  - rewrite lookup_app_l by (rewrite !length_alter; by eapply lookup_lt_Some).
    by rewrite !list_lookup_alter_eq, Hi.
  - eexists. split; [reflexivity|]. simpl. repeat split.
    + rewrite length_app, !length_alter. simpl. lia.
    + by apply get_loan_by_id_Some in Hloan as [_ ->].
Qed.


(** * Offers in a terminal state *)

#[global] Instance keeps_offer_preorder i : PreOrder (keeps_offer i).
Proof.
  split.
  - intros s. reflexivity.
  - intros a b c Hab Hbc. unfold keeps_offer in *. congruence.
Qed.

Lemma keeps_offer_alter f i j s :
  j <> i -> keeps_offer i s (Workflow.with_offers (alter f j) s).
Proof. intros Hne. unfold keeps_offer. simpl. by apply list_lookup_alter_ne. Qed.

Lemma keeps_offer_flags f i s : keeps_offer i s (Workflow.with_flags f s).
Proof. reflexivity. Qed.

#[global] Hint Resolve keeps_offer_alter keeps_offer_flags : evolve.

Lemma review_offer_keeps_other inp seen i j :
  j <> i -> preserves (keeps_offer i) (Workflow.review_offer inp seen j).
Proof.
  intros Hne. unfold Workflow.review_offer, Workflow.deref, Workflow.assign.
  preserve; try apply (policy_analysis_preserves _); preserve.
Qed.

(** The review page leaves every offer that is not pending as it is. *)
Lemma supervisor_review_keeps_non_pending inp s i o :
  Workflow.offers s !! i = Some o -> status o <> PENDING_APPROVAL ->
  Workflow.offers (final (run (Workflow.render_supervisor_review inp) s)) !! i = Some o.
Proof.
  intros Hi Hst. rewrite final_run, <- Hi.
  unfold Workflow.render_supervisor_review, mbind, script_mbind, script_bind, get, state_of.
  destruct (pending_offers (Workflow.offers s)) as [|j0 rest] eqn:Hp; [done|].
  rewrite <- Hp.
  apply (preserves_for_pending (keeps_offer i)).
  - intros j _. unfold Workflow.offer_key, Workflow.deref. preserve.
  - intros j sn Hj. apply review_offer_keeps_other. intros ->.
    apply pending_offers_inv in Hj as (o' & Ho' & Hpend). congruence.
Qed.

Lemma terminal_not_pending st : terminal st = true -> st <> PENDING_APPROVAL.
Proof. by destruct st. Qed.

(** C1 as the code has it.  For an offer in a terminal state: no decision of
    the supervisor review touches it, since the review lists pending offers
    only; the send form is refused for Pending Approval alone, so it goes
    through, sets the status to Sent and the sent date, and appends a
    communication record; the response form looks at no status at all and
    assigns status and response date.  No page reports an invalid
    transition. *)
Theorem terminal_offer_actions (s : Workflow.SessionState) (i : nat) (o : Offer)
    (loan : Loan) (c : Customer) :
  Workflow.offers s !! i = Some o -> terminal (status o) = true ->
  Workflow.current_offer_id s = Some (offer_id o) ->
  Workflow.find_offer s (offer_id o) = Some i ->
  Workflow.get_loan_by_id s (offer_loan_id o) = Some loan ->
  Workflow.get_customer_by_id s (loan_customer_id loan) = Some c ->
  (forall inp,
     Workflow.offers (final (run (Workflow.render_supervisor_review inp) s)) !! i = Some o) /\
  (forall inp n1 n2,
     Workflow.send_click inp = Some Workflow.SendOffer ->
     let r := run (Workflow.render_send_offer inp n1 n2) s in
     ending r = Rerun /\
     Workflow.offers (final r) !! i = Some (set_sent_date n2 (set_status SENT o)) /\
     length (Workflow.communications (final r)) = S (length (Workflow.communications s)) /\
     notices r = [st_success ("Offer sent successfully via "
                              +:+ channel_value (Workflow.in_channel inp) +:+ "!")]) /\
  (forall inp n1 n2 n3,
     Workflow.response_click inp = Some Workflow.SaveCustomerResponse ->
     let r := run (Workflow.render_customer_response inp n1 n2 n3) s in
     ending r = Rerun /\
     Workflow.offers (final r) !! i
     = Some (set_response_date n2
               (set_status (response_status (Workflow.in_response_type inp)) o))).
Proof.
  intros Hi Hterm Hcur Hfind Hloan Hc.
  pose proof (terminal_not_pending _ Hterm) as Hnp.
  split; [|split].
  - intros inp. by apply supervisor_review_keeps_non_pending.
  - intros inp n1 n2 Hclick r.
    pose proof (send_offer_run s inp n1 n2 _ i o loan c Hcur Hfind Hi Hloan Hc Hclick) as Hrun.
    fold r in Hrun. cbv zeta in Hrun. rewrite decide_False in Hrun by done.
    destruct Hrun as (Hf & He & Hn). rewrite Hf. simpl. repeat split; [done| | |done].
    + by rewrite !list_lookup_alter_eq, Hi.
    + rewrite length_app. simpl. lia.
  - intros inp n1 n2 n3 Hclick r.
    destruct (customer_response_run s inp n1 n2 n3 _ i o loan Hcur Hfind Hi Hloan Hclick)
      as [He Hfinal].
    fold r in He, Hfinal. split; [done|]. rewrite Hfinal.
    destruct (Workflow.in_response_type inp); simpl;
      rewrite ?lookup_app_l by (rewrite !length_alter; by eapply lookup_lt_Some);
      by rewrite !list_lookup_alter_eq, Hi.
Qed.

(** * The first listing: the review page at one offer *)

Lemma basic_offer_key_run_at s out i k :
  offer_id <$> Basic.offers s !! i = Some k -> Basic.offer_key i s out = (s, out, Go k).
Proof.
  intros H. unfold Basic.offer_key, Basic.deref. exec.
  destruct (Basic.offers s !! i) as [o|]; [|done]. by inversion H.
Qed.

Lemma basic_clicked_false click b : click <> Some b -> Basic.clicked click b = false.
Proof. intros H. unfold Basic.clicked. by apply bool_decide_eq_false. Qed.

Lemma basic_clicked_true click b : click = Some b -> Basic.clicked click b = true.
Proof. intros H. unfold Basic.clicked. by apply bool_decide_eq_true. Qed.

Lemma basic_review_offer_passes click s j oj :
  Basic.offers s !! j = Some oj -> basic_renders s oj ->
  (forall b, click = Some b -> basic_button_offer b <> offer_id oj) ->
  passes (Basic.review_offer click) (fun s j => offer_id <$> Basic.offers s !! j) s j.
Proof.
  intros Hj (loan & c & Hloan & Hc) Hclick seen out k Hk Hseen.
  rewrite Hj in Hk. simpl in Hk. inversion Hk; subst k.
  assert (forall b, basic_button_offer b = offer_id oj -> Basic.clicked click b = false) as Hno.
  { intros b Hb. apply basic_clicked_false. intros Heq. by apply (Hclick b). }
  unfold Basic.review_offer, Basic.deref. exec.
  rewrite Hj; cbn. rewrite Hloan; cbn. rewrite Hc; cbn.
  destruct (policy_analysis_run oj loan s out) as [m1 ->]; cbn.
  rewrite bool_decide_eq_false_2 by done.
  rewrite !Hno by done.
  destruct (truthy (justification_notes oj)); cbn; rewrite <- ?app_assoc; eauto.
Qed.

Lemma basic_review_loop click s out :
  pending_offers (Basic.offers s) <> [] ->
  Basic.render_supervisor_review click s out
  = for_pending Basic.offer_key (Basic.review_offer click) []
      (pending_offers (Basic.offers s)) s out.
Proof.
  intros H. unfold Basic.render_supervisor_review.
  unfold mbind, script_mbind, script_bind, get.
  by destruct (pending_offers (Basic.offers s)).
Qed.

(** The decision that a button of the first listing applies, with its fixed
    comment and its notice. *)
Lemma basic_review_offer_click click seen i s out o b :
  Basic.offers s !! i = Some o -> basic_renders s o -> offer_id o ∉ seen ->
  click = Some b -> basic_button_offer b = offer_id o ->
  exists m n,
    Basic.review_offer click seen i s out
    = (Basic.with_offers
         match b with
         | Basic.Approve _ => alter (set_status DRAFT) i
         | Basic.Reject _ =>
           fun l => alter (set_supervisor_comments
                             "Rejected by supervisor - outside policy guidelines") i
                      (alter (set_status REJECTED_BY_SUPERVISOR) i l)
         | Basic.SendBack _ =>
           fun l => alter (set_supervisor_comments
                             "Sent back for revision - please adjust terms") i
                      (alter (set_status DRAFT) i l)
         end s,
       out ++ m ++ [n], Halt Rerun).
Proof.
  intros Hi (loan & c & Hloan & Hc) Hseen Hclick Hb.
  unfold Basic.review_offer, Basic.deref, Basic.assign. exec.
  rewrite Hi; cbn. rewrite Hloan; cbn. rewrite Hc; cbn.
  destruct (policy_analysis_run o loan s out) as [m1 ->]; cbn.
  rewrite bool_decide_eq_false_2 by done.
  destruct b as [k|k|k]; simpl in Hb; subst k.
  - rewrite (basic_clicked_true _ _ Hclick).
    destruct (truthy (justification_notes o)); cbn;
      [exists (m1 ++ [st_info (justification_notes o)]) | exists m1];
      eexists; by rewrite <- ?app_assoc.
  - rewrite (basic_clicked_false _ (Basic.Approve _)) by (rewrite Hclick; discriminate).
    rewrite (basic_clicked_true _ _ Hclick).
    destruct (truthy (justification_notes o)); cbn;
      [exists (m1 ++ [st_info (justification_notes o)]) | exists m1];
      eexists; by rewrite <- ?app_assoc.
  - rewrite (basic_clicked_false _ (Basic.Approve _)) by (rewrite Hclick; discriminate).
    rewrite (basic_clicked_false _ (Basic.Reject _)) by (rewrite Hclick; discriminate).
    rewrite (basic_clicked_true _ _ Hclick).
    destruct (truthy (justification_notes o)); cbn;
      [exists (m1 ++ [st_info (justification_notes o)]) | exists m1];
      eexists; by rewrite <- ?app_assoc.
Qed.

(** A click on a button of a pending offer of the first listing. *)
Lemma basic_decision_run s i o b :
  basic_ready s -> Basic.offers s !! i = Some o -> status o = PENDING_APPROVAL ->
  basic_button_offer b = offer_id o ->
  let r := run (Basic.render_supervisor_review (Some b)) s in
  ending r = Rerun /\
  Basic.offers (final r) !! i
  = Some match b with
         | Basic.Approve _ => set_status DRAFT o
         | Basic.Reject _ =>
           set_supervisor_comments "Rejected by supervisor - outside policy guidelines"
             (set_status REJECTED_BY_SUPERVISOR o)
         | Basic.SendBack _ =>
           set_supervisor_comments "Sent back for revision - please adjust terms"
             (set_status DRAFT o)
         end.
Proof.
  intros [Hnd Hr] Hi Hst Hb r.
  assert (is_pending o = true) as Hp by (unfold is_pending; by apply bool_decide_eq_true).
  assert (basic_renders s o) as Hren by (apply Hr; [by eapply list_elem_of_lookup_2|done]).
  destruct (for_pending_at Basic.offers offer_id is_pending Basic.offer_key
              (Basic.review_offer (Some b)) basic_offer_key_run_at s i o Hnd Hi Hp)
    as (seen & out0 & Hfresh & Hrun).
  { intros j oj Hj Hpj Hne. apply (basic_review_offer_passes (Some b) s j oj Hj).
    - apply Hr; [by eapply list_elem_of_lookup_2|].
      unfold is_pending in Hpj. by apply bool_decide_eq_true in Hpj.
    - intros b' Hb' Heq. inversion Hb'; subst b'. apply Hne. congruence. }
  destruct (basic_review_offer_click (Some b) seen i s out0 o b Hi Hren Hfresh eq_refl Hb)
    as (m & n & Hbody).
  specialize (Hrun _ _ _ Hbody). simpl in Hrun.
  assert (pending_offers (Basic.offers s) <> []) as Hne.
  { intros Hnil. pose proof (positions_where_elem is_pending _ _ 0%nat _ Hi Hp) as Hin.
    unfold pending_offers in Hnil. rewrite Hnil in Hin. by apply elem_of_nil in Hin. }
  subst r. unfold run. rewrite (basic_review_loop _ _ _ Hne).
  unfold pending_offers. rewrite Hrun. simpl. split; [done|].
  destruct b; simpl; by rewrite !list_lookup_alter_eq, Hi.
Qed.

(** * The second listing: the supervisor panel at one offer *)

Lemma enhanced_offer_key_run_at s out i k :
  Enhanced.offer_id <$> Enhanced.offers s !! i = Some k ->
  Enhanced.offer_key i s out = (s, out, Go k).
Proof.
  intros H. unfold Enhanced.offer_key, Enhanced.deref. exec.
  destruct (Enhanced.offers s !! i) as [o|]; [|done]. by inversion H.
Qed.

Lemma enhanced_clicked_false click b : click <> Some b -> Enhanced.clicked click b = false.
Proof. intros H. unfold Enhanced.clicked. by apply bool_decide_eq_false. Qed.

Lemma enhanced_clicked_true click b : click = Some b -> Enhanced.clicked click b = true.
Proof. intros H. unfold Enhanced.clicked. by apply bool_decide_eq_true. Qed.

Lemma enhanced_panel_offer_passes click now s j oj :
  Enhanced.offers s !! j = Some oj -> enhanced_renders s oj ->
  (forall b, click = Some b -> enhanced_button_offer b <> Enhanced.offer_id oj) ->
  passes (Enhanced.panel_offer click now)
    (fun s j => Enhanced.offer_id <$> Enhanced.offers s !! j) s j.
Proof.
  intros Hj (loan & c & Hloan & Hc) Hclick seen out k Hk Hseen.
  rewrite Hj in Hk. simpl in Hk. inversion Hk; subst k.
  assert (forall b, enhanced_button_offer b = Enhanced.offer_id oj ->
            Enhanced.clicked click b = false) as Hno.
  { intros b Hb. apply enhanced_clicked_false. intros Heq. by apply (Hclick b). }
  unfold Enhanced.panel_offer, Enhanced.deref. exec.
  rewrite Hj; cbn. rewrite Hloan; cbn. rewrite Hc; cbn.
  rewrite bool_decide_eq_false_2 by done.
  rewrite !Hno by done. cbn. exists []. by rewrite app_nil_r.
Qed.

Lemma enhanced_panel_loop click now s out :
  Enhanced.pending_offers (Enhanced.offers s) <> [] ->
  Enhanced.render_supervisor_panel click now s out
  = for_pending Enhanced.offer_key (Enhanced.panel_offer click now) []
      (Enhanced.pending_offers (Enhanced.offers s)) s out.
Proof.
  intros H. unfold Enhanced.render_supervisor_panel.
  unfold mbind, script_mbind, script_bind, get.
  by destruct (Enhanced.pending_offers (Enhanced.offers s)).
Qed.

Lemma enhanced_panel_offer_approve now seen i s out o :
  Enhanced.offers s !! i = Some o -> enhanced_renders s o -> Enhanced.offer_id o ∉ seen ->
  Enhanced.panel_offer (Some (Enhanced.Approve (Enhanced.offer_id o))) now seen i s out
  = (Enhanced.with_offers (alter (Enhanced.set_sent_date now) i)
       (Enhanced.with_offers (alter (Enhanced.set_status Enhanced.SENT) i) s),
     out ++ [st_success ("Offer " +:+ Enhanced.offer_id o +:+ " approved and sent!")],
     Halt Rerun).
Proof.
  intros Hi (loan & c & Hloan & Hc) Hseen.
  unfold Enhanced.panel_offer, Enhanced.deref, Enhanced.assign. exec.
  rewrite Hi; cbn. rewrite Hloan; cbn. rewrite Hc; cbn.
  rewrite bool_decide_eq_false_2 by done.
  by rewrite (enhanced_clicked_true _ _ eq_refl).
Qed.

(** [Approve] on a pending offer of the second listing. *)
Lemma enhanced_approve_run s i o now :
  enhanced_ready s -> Enhanced.offers s !! i = Some o ->
  Enhanced.status o = Enhanced.PENDING_APPROVAL ->
  let r := run (Enhanced.render_supervisor_panel
                  (Some (Enhanced.Approve (Enhanced.offer_id o))) now) s in
  ending r = Rerun /\
  Enhanced.offers (final r) !! i
  = Some (Enhanced.set_sent_date now (Enhanced.set_status Enhanced.SENT o)).
Proof.
  intros [Hnd Hr] Hi Hst r.
  set (click := Some (Enhanced.Approve (Enhanced.offer_id o))) in *.
  assert (Enhanced.is_pending o = true) as Hp
    by (unfold Enhanced.is_pending; by apply bool_decide_eq_true).
  assert (enhanced_renders s o) as Hren by (apply Hr; [by eapply list_elem_of_lookup_2|done]).
  destruct (for_pending_at Enhanced.offers Enhanced.offer_id Enhanced.is_pending
              Enhanced.offer_key (Enhanced.panel_offer click now)
              enhanced_offer_key_run_at s i o Hnd Hi Hp)
    as (seen & out0 & Hfresh & Hrun).
  { intros j oj Hj Hpj Hne. apply (enhanced_panel_offer_passes click now s j oj Hj).
    - apply Hr; [by eapply list_elem_of_lookup_2|].
      unfold Enhanced.is_pending in Hpj. by apply bool_decide_eq_true in Hpj.
    - intros b' Hb' Heq. inversion Hb'; subst b'. apply Hne. by simpl in Heq. }
  pose proof (enhanced_panel_offer_approve now seen i s out0 o Hi Hren Hfresh) as Hbody.
  fold click in Hbody. specialize (Hrun _ _ _ Hbody). simpl in Hrun.
  assert (Enhanced.pending_offers (Enhanced.offers s) <> []) as Hne.
  { intros Hnil. pose proof (positions_where_elem Enhanced.is_pending _ _ 0%nat _ Hi Hp) as Hin.
    unfold Enhanced.pending_offers in Hnil. rewrite Hnil in Hin. by apply elem_of_nil in Hin. }
  subst r. unfold run. rewrite (enhanced_panel_loop _ _ _ _ Hne).
  unfold Enhanced.pending_offers. rewrite Hrun. simpl. split; [done|].
  by rewrite !list_lookup_alter_eq, Hi.
Qed.

(** * Supervisor decisions and the records of the session *)

(** The body of the loop when [Reject] was clicked for its offer: the
    dialog is opened, nothing else. *)
Lemma review_offer_reject inp seen i s out o :
  Workflow.offers s !! i = Some o -> renders s o -> offer_id o ∉ seen ->
  Workflow.review_click inp = Some (Workflow.Reject (offer_id o)) ->
  exists m,
    Workflow.review_offer inp seen i s out
    = (Workflow.with_flags (fun f => f ∪ {[Workflow.reject_modal_key (offer_id o)]}) s,
       out ++ m, Go tt).
Proof.
  intros Hi (loan & c & Hloan & Hc) Hseen Hclick.
  unfold Workflow.review_offer, Workflow.deref, Workflow.assign. exec.
  rewrite Hi; cbn. rewrite Hloan; cbn. rewrite Hc; cbn.
  destruct (policy_analysis_run o loan s out) as [m1 ->]; cbn.
  rewrite bool_decide_eq_false_2 by done.
  rewrite (clicked_true _ _ Hclick).
  rewrite !(clicked_other _ _ _ Hclick) by discriminate.
  assert (bool_decide (Workflow.reject_modal_key (offer_id o)
                       ∈ Workflow.flags s ∪ {[Workflow.reject_modal_key (offer_id o)]}) = true)
    as Hflag by (apply bool_decide_eq_true; set_solver).
  destruct (truthy (justification_notes o)); cbn; rewrite Hflag; cbn;
    destruct (bool_decide (Workflow.sendback_modal_key (offer_id o)
                           ∈ Workflow.flags s ∪ {[Workflow.reject_modal_key (offer_id o)]}));
    cbn; rewrite <- ?app_assoc; eauto.
  all: eexists; by rewrite app_nil_r.
Qed.

(** [Reject] on a pending offer of the third listing opens the rejection
    dialog and leaves the offers alone. *)
Lemma workflow_reject_click_run inp s i o :
  review_ready s -> Workflow.offers s !! i = Some o -> status o = PENDING_APPROVAL ->
  Workflow.review_click inp = Some (Workflow.Reject (offer_id o)) ->
  let r := run (Workflow.render_supervisor_review inp) s in
  final r = Workflow.with_flags (fun f => f ∪ {[Workflow.reject_modal_key (offer_id o)]}) s /\
  ending r = Finished.
Proof.
  intros Hready Hi Hst Hclick r.
  destruct (supervisor_review_focus inp s i o Hready Hi Hst) as (seen & out0 & Hfresh & Hrun).
  { intros b Hb. rewrite Hclick in Hb. by inversion Hb. }
  assert (renders s o) as Hren.
  { destruct Hready as [_ Hr]. apply Hr; [by eapply list_elem_of_lookup_2|done]. }
  destruct (review_offer_reject inp seen i s out0 o Hi Hren Hfresh Hclick) as [m Hbody].
  specialize (Hrun _ _ _ Hbody). simpl in Hrun.
  destruct Hrun as [m2 Hrun]; [by repeat split|].
  subst r. by rewrite (run_eq _ _ _ _ _ Hrun).
Qed.

#[global] Instance same_records_preorder : PreOrder same_records.
Proof.
  split.
  - intros s. by repeat split.
  - intros a b c (A1 & A2 & A3) (B1 & B2 & B3). unfold same_records. repeat split; congruence.
Qed.

Lemma same_records_alter f i s : same_records s (Workflow.with_offers (alter f i) s).
Proof. unfold same_records. simpl. by rewrite length_alter. Qed.

Lemma same_records_flags f s : same_records s (Workflow.with_flags f s).
Proof. by repeat split. Qed.

#[global] Hint Resolve same_records_alter same_records_flags : evolve.

(** No run of the review page writes a record or adds an offer. *)
Lemma supervisor_review_same_records inp :
  preserves same_records (Workflow.render_supervisor_review inp).
Proof.
  unfold Workflow.render_supervisor_review. preserve.
  apply (preserves_for_pending _); intros.
  - unfold Workflow.offer_key, Workflow.deref. preserve.
  - unfold Workflow.review_offer, Workflow.deref, Workflow.assign.
    preserve; try apply (policy_analysis_preserves _); preserve.
Qed.

(** * Claims about policy, supervisor decisions and records *)

Lemma truthy_empty s : truthy s = false <-> s = "".
Proof. destruct s; simpl; split; congruence. Qed.

Lemma review_ready_flags f s : review_ready s -> review_ready (Workflow.with_flags f s).
Proof. intros [Hnd Hr]. split; [done|]. intros o Ho Hst. exact (Hr o Ho Hst). Qed.

(** The two bands are equally wide. *)
Lemma policy_band_same_width (a b : Loan) :
  (policy_band a).2 - (policy_band a).1 = (policy_band b).2 - (policy_band b).1.
Proof. unfold policy_band, min_percentage, max_percentage. by destruct (is_secured a), (is_secured b). Qed.

(** C8.  The policy band is a function of the secured flag of the loan
    alone, and the band of a secured loan, 40 to 70, lies higher at both ends
    than the band of an unsecured loan, 35 to 65. *)
Theorem policy_band_secured_higher (a b : Loan) :
  (is_secured a = is_secured b -> policy_band a = policy_band b) /\
  (is_secured a = true -> is_secured b = false ->
   policy_band a = (40, 70) /\ policy_band b = (35, 65) /\
   (policy_band b).1 < (policy_band a).1 /\ (policy_band b).2 < (policy_band a).2).
Proof.
  unfold policy_band, min_percentage, max_percentage. split.
  - by intros ->.
  - intros -> ->. simpl. repeat split; lia.
Qed.

(** C7 as the code has it.  Approving a pending offer moves it to Draft in
    the first and in the third listing, where the agent still has to send it;
    in the second listing approval moves it to Sent at once and sets the sent
    date. *)
Theorem approve_moves_to_draft_or_sent :
  (forall (s : Workflow.SessionState) (i : nat) (o : Offer) (inp : Workflow.ReviewInput),
     review_ready s -> Workflow.offers s !! i = Some o -> status o = PENDING_APPROVAL ->
     Workflow.review_click inp = Some (Workflow.Approve (offer_id o)) ->
     let r := run (Workflow.render_supervisor_review inp) s in
     ending r = Rerun /\
     Workflow.offers (final r) !! i = Some (set_status DRAFT o) /\
     sent_date (set_status DRAFT o) = sent_date o) /\
  (forall (s : Basic.SessionState) (i : nat) (o : Offer),
     basic_ready s -> Basic.offers s !! i = Some o -> status o = PENDING_APPROVAL ->
     let r := run (Basic.render_supervisor_review (Some (Basic.Approve (offer_id o)))) s in
     ending r = Rerun /\ Basic.offers (final r) !! i = Some (set_status DRAFT o)) /\
  (forall (s : Enhanced.SessionState) (i : nat) (o : Enhanced.Offer) (now : datetime),
     enhanced_ready s -> Enhanced.offers s !! i = Some o ->
     Enhanced.status o = Enhanced.PENDING_APPROVAL ->
     let r := run (Enhanced.render_supervisor_panel
                     (Some (Enhanced.Approve (Enhanced.offer_id o))) now) s in
     ending r = Rerun /\
     Enhanced.offers (final r) !! i
     = Some (Enhanced.set_sent_date now (Enhanced.set_status Enhanced.SENT o))).
Proof.
  split; [|split].
  - intros s i o inp Hready Hi Hst Hclick r.
    destruct (workflow_approve_run inp s i o Hready Hi Hst Hclick) as (Hf & He & _).
    fold r in Hf, He. split; [done|]. rewrite Hf. simpl.
    by rewrite list_lookup_alter_eq, Hi.
  - intros s i o Hready Hi Hst.
    by apply (basic_decision_run s i o (Basic.Approve (offer_id o))).
  - intros s i o now Hready Hi Hst. by apply enhanced_approve_run.
Qed.



(** * The first listing: settlement terms *)

#[global] Instance basic_revised_preorder : PreOrder basic_revised.
Proof.
  split.
  - intros s. split; [done | reflexivity].
  - intros a b c [A1 A2] [B1 B2]. split; [congruence | by etrans].
Qed.

Lemma basic_revised_alter f i s :
  (forall o, same_terms o (f o)) -> basic_revised s (Basic.with_offers (alter f i) s).
Proof. intros Hf. split; [done|]. by apply Forall2_same_terms_alter. Qed.

Lemma basic_revised_current_page p s : basic_revised s (Basic.with_current_page p s).
Proof. split; [done | reflexivity]. Qed.

#[global] Hint Resolve basic_revised_alter basic_revised_current_page : evolve.

Lemma basic_review_revised click :
  preserves basic_revised (Basic.render_supervisor_review click).
Proof.
  unfold Basic.render_supervisor_review. preserve.
  apply (preserves_for_pending _); intros.
  - unfold Basic.offer_key, Basic.deref. preserve.
  - unfold Basic.review_offer, Basic.deref, Basic.assign.
    preserve; try apply (policy_analysis_preserves _); preserve.
Qed.

Lemma basic_revised_grown s s' : basic_revised s s' -> basic_grown s s'.
Proof.
  intros [Hl HF]. split; [done|]. exists (Basic.offers s'), [].
  rewrite app_nil_r. repeat split; [done|constructor].
Qed.

Lemma basic_grown_refl s : basic_grown s s.
Proof. apply basic_revised_grown. reflexivity. Qed.

Lemma basic_get_loan_by_id_Some s lid loan :
  Basic.get_loan_by_id s lid = Some loan -> loan ∈ Basic.loans s /\ loan_id loan = lid.
Proof.
  unfold Basic.get_loan_by_id. intros H.
  destruct (list_find (fun l => loan_id l = lid) (Basic.loans s)) as [[j l]|] eqn:Hf; [|done].
  simpl in H. inversion H; subst l.
  apply list_find_Some in Hf as (Hl & Hid & _). split; [|done].
  by eapply list_elem_of_lookup_2.
Qed.

Lemma basic_create_offer_grown inp n1 n2 s out :
  basic_grown s (state_of (Basic.render_create_offer inp n1 n2 s out)).
Proof.
  unfold Basic.render_create_offer. exec.
  destruct (Basic.selected_loan_id s) as [lid|] eqn:Hsel; cbn; [|apply basic_grown_refl].
  destruct (Basic.get_loan_by_id s lid) as [loan|] eqn:Hloan; cbn; [|apply basic_grown_refl].
  apply basic_get_loan_by_id_Some in Hloan as [Hin Hid].
  assert (forall p,
    basic_grown s (Basic.with_current_page p
                     (Basic.with_offers (fun l => l ++ [Basic.new_offer s loan inp n2]) s)))
    as Hnew.
  { intros p. split; [done|].
    exists (Basic.offers s), [Basic.new_offer s loan inp n2]. repeat split.
    - reflexivity.
    - constructor; [|constructor].
      by apply (priced_amount_for _ loan (loan_id loan) _ (in_settlement_percentage inp)). }
  destruct (create_click inp) as [[|]|]; cbn;
    [apply basic_revised_grown, basic_revised_current_page| |].
  - destruct (Basic.get_customer_by_id s (loan_customer_id loan)); cbn;
      [|apply basic_grown_refl].
    destruct (create_errors loan inp n1) eqn:He;
      destruct (negb (is_within_policy loan (in_settlement_percentage inp))); cbn;
      rewrite ?for_each_errors; cbn; first [ apply basic_grown_refl | by apply Hnew ].
  - destruct (Basic.get_customer_by_id s (loan_customer_id loan)); cbn;
      [|apply basic_grown_refl].
    destruct (negb (is_within_policy loan (in_settlement_percentage inp))); cbn;
      apply basic_grown_refl.
Qed.

Lemma basic_step_grown s a : basic_grown s (Basic.step s a).
Proof.
  unfold Basic.step. rewrite final_run. destruct a; simpl.
  - apply basic_create_offer_grown.
  - apply basic_revised_grown, basic_review_revised.
Qed.

Lemma basic_grown_all_priced s s' :
  basic_grown s s' -> basic_all_priced s -> basic_all_priced s'.
Proof.
  intros (Hl & kept & added & Heq & Hkept & Hadded) Hs o Ho.
  rewrite Hl. rewrite Heq in Ho. apply elem_of_app in Ho as [Ho|Ho].
  - apply list_elem_of_lookup in Ho as [i Hi].
    destruct (Forall2_lookup_r _ _ _ _ _ Hkept Hi) as (o0 & H0 & Hterms).
    apply (priced_same_terms _ o0); [done|]. apply Hs. by eapply list_elem_of_lookup_2.
  - by apply (proj1 (Forall_forall _ _) Hadded).
Qed.

Lemma basic_grown_terms_kept s s' :
  basic_grown s s' -> terms_kept (Basic.offers s) (Basic.offers s').
Proof.
  intros (_ & kept & added & Heq & Hkept & _) i o Hi.
  destruct (Forall2_lookup_l _ _ _ _ _ Hkept Hi) as (o' & Ho' & Hterms).
  exists o'. split; [|done]. rewrite Heq. by apply lookup_app_l_Some.
Qed.

Lemma basic_steps_invariants l :
  forall s,
    Basic.loans (Basic.steps s l) = Basic.loans s /\
    (basic_all_priced s -> basic_all_priced (Basic.steps s l)) /\
    terms_kept (Basic.offers s) (Basic.offers (Basic.steps s l)).
Proof.
  unfold Basic.steps. induction l as [|a l IH]; intros s; simpl.
  - repeat split; [done|reflexivity].
  - destruct (IH (Basic.step s a)) as (Hl & Hp & Hk).
    pose proof (basic_step_grown s a) as Hg. repeat split.
    + rewrite Hl. by destruct Hg.
    + intros Hs. apply Hp. by apply (basic_grown_all_priced s).
    + etrans; [by apply basic_grown_terms_kept | exact Hk].
Qed.

Lemma sample_offers_priced (ls : list Loan) (draw : nat -> SampleDraw) (o : Offer) :
  o ∈ generate_sample_offers ls draw -> priced ls o.
Proof.
  unfold generate_sample_offers. intros Ho.
  apply elem_of_lookup_imap in Ho as (i & loan & -> & Hi).
  exists loan. repeat split.
  - apply list_elem_of_lookup_2, elem_of_take in Hi as (j & Hj & _).
    by eapply list_elem_of_lookup_2.
  - simpl. apply Qmult_comm.
Qed.


(** * The claims at the sample sessions *)

(** C1 fails on the code: the send form goes through on an accepted offer,
    which becomes Sent again, with a second communication record and the
    notice of a successful send. *)
Lemma accepted_offer_is_sent_again :
  Workflow.offers accepted_session !! 0%nat
  = Some (offer_001 50 "" ACCEPTED (Some midday) (Some midday)) /\
  terminal ACCEPTED = true /\
  let r := run (Workflow.render_send_offer send_form midday midday) accepted_session in
  ending r = Rerun /\
  Workflow.offers (final r) !! 0%nat
  = Some (offer_001 50 "" SENT (Some midday) (Some midday)) /\
  Workflow.offers (final r) <> Workflow.offers accepted_session /\
  length (Workflow.communications accepted_session) = 1%nat /\
  length (Workflow.communications (final r)) = 2%nat /\
  notices r = [st_success "Offer sent successfully via Email!"].
Proof. vm_compute. repeat split. discriminate. Qed.

(** The accepted offer of the sample session meets the premises about a
    terminal offer. *)
Lemma terminal_offer_actions_witness :
  let s := accepted_session in
  let o := offer_001 50 "" ACCEPTED (Some midday) (Some midday) in
  Workflow.offers s !! 0%nat = Some o /\ terminal (status o) = true /\
  Workflow.current_offer_id s = Some (offer_id o) /\
  Workflow.find_offer s (offer_id o) = Some 0%nat /\
  Workflow.get_loan_by_id s (offer_loan_id o) = Some loan_001 /\
  Workflow.get_customer_by_id s (loan_customer_id loan_001) = Some alice /\
  Workflow.offers (final (run (Workflow.render_send_offer send_form midday midday) s)) !! 0%nat
  = Some (set_sent_date midday (set_status SENT o)).
Proof.
  intros s o.
  assert (Workflow.offers s !! 0%nat = Some o) as H1 by reflexivity.
  assert (terminal (status o) = true) as H2 by reflexivity.
  assert (Workflow.current_offer_id s = Some (offer_id o)) as H3 by reflexivity.
  assert (Workflow.find_offer s (offer_id o) = Some 0%nat) as H4 by reflexivity.
  assert (Workflow.get_loan_by_id s (offer_loan_id o) = Some loan_001) as H5 by reflexivity.
  assert (Workflow.get_customer_by_id s (loan_customer_id loan_001) = Some alice) as H6
    by reflexivity.
  repeat (split; [assumption|]).
  destruct (terminal_offer_actions s 0%nat o loan_001 alice H1 H2 H3 H4 H5 H6)
    as (_ & Hsend & _).
  exact (proj1 (proj2 (Hsend send_form midday midday eq_refl))).
Defined.

(** C2 fails on the code: on the unsecured loan, band 35 to 65, a counter-
    offer of 70 percent to a sent offer yields a new offer in Draft, not in
    Pending Approval. *)
Lemma counter_offer_outside_band_is_draft :
  is_secured loan_001 = false /\ policy_band loan_001 = (35, 65) /\
  is_within_policy loan_001 70 = false /\
  Workflow.offers sent_session !! 0%nat = Some (offer_001 50 "" SENT (Some midday) None) /\
  let r := run (Workflow.render_customer_response (response_form Workflow.Counter_offer 70)
                  midday midday midday) sent_session in
  status <$> Workflow.offers (final r) !! 0%nat = Some COUNTER_OFFER /\
  length (Workflow.offers (final r)) = 2%nat /\
  settlement_percentage <$> Workflow.offers (final r) !! 1%nat = Some (inject_Z 70) /\
  status <$> Workflow.offers (final r) !! 1%nat = Some DRAFT /\
  status <$> Workflow.offers (final r) !! 1%nat <> Some PENDING_APPROVAL.
Proof. vm_compute. repeat split. discriminate. Qed.

(** The sent offer of the sample session, answered by a counter-offer of 70
    percent. *)
Lemma counter_response_creates_draft_witness :
  let s := sent_session in
  let o := offer_001 50 "" SENT (Some midday) None in
  let inp := response_form Workflow.Counter_offer 70 in
  Workflow.current_offer_id s = Some (offer_id o) /\
  Workflow.find_offer s (offer_id o) = Some 0%nat /\
  Workflow.offers s !! 0%nat = Some o /\
  Workflow.get_loan_by_id s (offer_loan_id o) = Some loan_001 /\
  Workflow.response_click inp = Some Workflow.SaveCustomerResponse /\
  Workflow.in_response_type inp = Workflow.Counter_offer /\
  Workflow.offers (final (run (Workflow.render_customer_response inp midday midday midday) s))
    !! 0%nat
  = Some (set_response_date midday (set_status COUNTER_OFFER o)).
Proof.
  intros s o inp.
  assert (Workflow.current_offer_id s = Some (offer_id o)) as H1 by reflexivity.
  assert (Workflow.find_offer s (offer_id o) = Some 0%nat) as H2 by reflexivity.
  assert (Workflow.offers s !! 0%nat = Some o) as H3 by reflexivity.
  assert (Workflow.get_loan_by_id s (offer_loan_id o) = Some loan_001) as H4 by reflexivity.
  assert (Workflow.response_click inp = Some Workflow.SaveCustomerResponse) as H5
    by reflexivity.
  assert (Workflow.in_response_type inp = Workflow.Counter_offer) as H6 by reflexivity.
  repeat (split; [assumption|]).
  exact (proj1 (counter_response_creates_draft s inp midday midday midday 0%nat o loan_001
                  H1 H2 H3 H4 H5 H6)).
Defined.

(** The sent offer of the sample session, accepted. *)
Lemma response_changes_status_and_date_witness :
  let s := sent_session in
  let o := offer_001 50 "" SENT (Some midday) None in
  let inp := response_form Workflow.Accepted 0 in
  Workflow.current_offer_id s = Some (offer_id o) /\
  Workflow.find_offer s (offer_id o) = Some 0%nat /\
  Workflow.offers s !! 0%nat = Some o /\
  Workflow.get_loan_by_id s (offer_loan_id o) = Some loan_001 /\
  Workflow.response_click inp = Some Workflow.SaveCustomerResponse /\
  ending (run (Workflow.render_customer_response inp midday midday midday) s) = Rerun.
Proof.
  intros s o inp.
  assert (Workflow.current_offer_id s = Some (offer_id o)) as H1 by reflexivity.
  assert (Workflow.find_offer s (offer_id o) = Some 0%nat) as H2 by reflexivity.
  assert (Workflow.offers s !! 0%nat = Some o) as H3 by reflexivity.
  assert (Workflow.get_loan_by_id s (offer_loan_id o) = Some loan_001) as H4 by reflexivity.
  assert (Workflow.response_click inp = Some Workflow.SaveCustomerResponse) as H5
    by reflexivity.
  repeat (split; [assumption|]).
  exact (proj1 (response_changes_status_and_date s inp midday midday midday 0%nat o loan_001
                  H1 H2 H3 H4 H5)).
Defined.





(** The sample sessions with a pending offer can show it. *)
Lemma pending_session_ready : review_ready pending_session.
Proof.
  split; [apply NoDup_singleton|].
  intros o Ho%list_elem_of_singleton _. subst o. by exists loan_001, alice.
Qed.



Lemma enhanced_pending_ready : enhanced_ready enhanced_pending.
Proof.
  split; [apply NoDup_singleton|].
  intros o Ho%list_elem_of_singleton _. subst o. by exists enhanced_loan, enhanced_alice.
Qed.

Lemma basic_pending_ready : basic_ready basic_pending.
Proof.
  split; [apply NoDup_singleton|].
  intros o Ho%list_elem_of_singleton _. subst o. by exists loan_001, alice.
Qed.

(** C7 fails on the code: in the second listing approval moves the pending
    offer to Sent at once and sets its sent date. *)
Lemma approval_sends_in_second_listing :
  let r := run (Enhanced.render_supervisor_panel (Some (Enhanced.Approve "OFFER_001")) midday)
             enhanced_pending in
  Enhanced.status <$> Enhanced.offers enhanced_pending !! 0%nat
  = Some Enhanced.PENDING_APPROVAL /\
  Enhanced.status <$> Enhanced.offers (final r) !! 0%nat = Some Enhanced.SENT /\
  Enhanced.status <$> Enhanced.offers (final r) !! 0%nat <> Some Enhanced.DRAFT /\
  Enhanced.sent_date <$> Enhanced.offers (final r) !! 0%nat = Some (Some midday) /\
  ending r = Rerun /\
  notices r = [st_success "Offer OFFER_001 approved and sent!"].
Proof. vm_compute. repeat split. discriminate. Qed.

(** The pending offers of the three sample sessions, approved. *)
Lemma approve_moves_to_draft_or_sent_witness :
  (let o := offer_001 80 "Hardship, one payment." PENDING_APPROVAL None None in
   Workflow.offers (final (run (Workflow.render_supervisor_review
                                  (review_form (Workflow.Approve "OFFER_001") ""))
                             pending_session)) !! 0%nat
   = Some (set_status DRAFT o)) /\
  (let o := offer_001 80 "Hardship, one payment." PENDING_APPROVAL None None in
   Basic.offers (final (run (Basic.render_supervisor_review
                               (Some (Basic.Approve "OFFER_001"))) basic_pending)) !! 0%nat
   = Some (set_status DRAFT o)) /\
  Enhanced.offers (final (run (Enhanced.render_supervisor_panel
                                 (Some (Enhanced.Approve "OFFER_001")) midday)
                            enhanced_pending)) !! 0%nat
  = Some (Enhanced.set_sent_date midday (Enhanced.set_status Enhanced.SENT enhanced_offer)).
Proof.
  destruct approve_moves_to_draft_or_sent as (H3 & H1 & H2).
  split; [|split].
  - intros o.
    exact (proj1 (proj2 (H3 pending_session 0%nat o
                           (review_form (Workflow.Approve "OFFER_001") "")
                           pending_session_ready eq_refl eq_refl eq_refl))).
  - intros o.
    exact (proj2 (H1 basic_pending 0%nat o basic_pending_ready eq_refl eq_refl)).
  - exact (proj2 (H2 enhanced_pending 0%nat enhanced_offer midday enhanced_pending_ready
                    eq_refl eq_refl)).
Defined.

(** The two sample loans. *)
Lemma policy_band_secured_higher_witness :
  is_secured loan_002 = true /\ is_secured loan_001 = false /\
  policy_band loan_002 = (40, 70) /\ policy_band loan_001 = (35, 65) /\
  (policy_band loan_001).1 < (policy_band loan_002).1 /\
  (policy_band loan_001).2 < (policy_band loan_002).2.
Proof.
  split; [reflexivity|]. split; [reflexivity|].
  exact (proj2 (policy_band_secured_higher loan_002 loan_001) eq_refl eq_refl).
Defined.

(** The draft offer of the sample session. *)
Lemma approve_on_draft_is_no_op_witness :
  let s := draft_session in
  let o := offer_001 50 "" DRAFT None None in
  let inp := review_form (Workflow.Approve "OFFER_001") "" in
  Workflow.offers s !! 0%nat = Some o /\ status o = DRAFT /\
  NoDup (offer_id <$> Workflow.offers s) /\
  Workflow.review_click inp = Some (Workflow.Approve (offer_id o)) /\
  final (run (Workflow.render_supervisor_review inp) s) = s.
Proof.
  intros s o inp.
  assert (Workflow.offers s !! 0%nat = Some o) as H1 by reflexivity.
  assert (NoDup (offer_id <$> Workflow.offers s)) as H3 by apply NoDup_singleton.
  split; [exact H1|]. split; [reflexivity|]. split; [exact H3|]. split; [reflexivity|].
  exact (proj1 (proj2 (approve_on_draft_is_no_op s 0%nat o inp H1 eq_refl H3 eq_refl))).
Defined.


(** * Number formats *)

Lemma read_digits_uint (d : Decimal.uint) (acc : nat) :
  read_digits (NilEmpty.string_of_uint d) (Z.of_nat acc) = Z.of_nat (Nat.of_uint_acc d acc).
Proof.
  revert acc. induction d; intros acc; simpl; [done|..];
    rewrite <- IHd; f_equal; rewrite Nat.tail_mul_spec; unfold digit_value;
    match goal with
    | |- context [nat_of_ascii ?c] =>
      let v := eval vm_compute in (Z.of_nat (nat_of_ascii c)) in
      change (Z.of_nat (nat_of_ascii c)) with v
    end; lia.
Qed.

Lemma to_uint_nonnil (n : nat) : Nat.to_uint n <> Decimal.Nil.
Proof.
  rewrite <- (DecimalNat.Unsigned.of_to n) at 1.
  rewrite DecimalNat.Unsigned.to_of. apply DecimalFacts.unorm_nonnil.
Qed.

Lemma str_nat_digits (n : nat) : str_nat n = NilEmpty.string_of_uint (Nat.to_uint n).
Proof.
  unfold str_nat, NilZero.string_of_uint.
  pose proof (to_uint_nonnil n). by destruct (Nat.to_uint n).
Qed.

(** [str(n)] read back. *)
Lemma read_str_nat (n : nat) : read_digits (str_nat n) 0 = Z.of_nat n.
Proof.
  rewrite str_nat_digits. change 0 with (Z.of_nat 0).
  rewrite read_digits_uint. f_equal. apply DecimalNat.Unsigned.of_to.
Qed.

Lemma read_digits_app (s1 s2 : string) (acc : Z) :
  read_digits (s1 +:+ s2) acc = read_digits s2 (read_digits s1 acc).
Proof. revert acc. induction s1 as [|c s1 IH]; intros acc; simpl; [done|apply IH]. Qed.

Lemma read_zeros (k : nat) : read_digits (zeros k) 0 = 0.
Proof. induction k as [|k IH]; simpl; [done|exact IH]. Qed.

(** The padded formats read back, whatever the width. *)
Lemma read_padded (k : nat) (n : nat) : read_digits (zeros k +:+ str_nat n) 0 = Z.of_nat n.
Proof. by rewrite read_digits_app, read_zeros, read_str_nat. Qed.

Lemma fmt_03d_inj : Inj eq eq fmt_03d.
Proof.
  intros n m H. apply Nat2Z.inj.
  rewrite <- (read_padded (3 - String.length (str_nat n)) n),
          <- (read_padded (3 - String.length (str_nat m)) m).
  unfold fmt_03d in H. by rewrite H.
Qed.

Lemma offer_number_inj (n m : nat) :
  "OFFER_" +:+ fmt_03d n = "OFFER_" +:+ fmt_03d m -> n = m.
Proof. intros H. apply fmt_03d_inj. simpl in H. by inversion H. Qed.

Lemma numbered_NoDup (l : list Offer) : numbered l -> NoDup (offer_id <$> l).
Proof.
  intros Hn. apply NoDup_alt. intros i j k Hi Hj.
  rewrite list_lookup_fmap in Hi, Hj.
  destruct (l !! i) as [a|] eqn:Ha; [|done]. destruct (l !! j) as [b|] eqn:Hb; [|done].
  simpl in Hi, Hj. inversion Hi; inversion Hj; subst.
  rewrite (Hn _ _ Ha), (Hn _ _ Hb) in H1.
  apply offer_number_inj in H1. lia.
Qed.

Lemma numbered_app (l : list Offer) (o : Offer) :
  numbered l -> offer_id o = "OFFER_" +:+ fmt_03d (length l + 1) -> numbered (l ++ [o]).
Proof.
  intros Hn Ho i x Hi. apply lookup_app_Some in Hi as [Hi|[Hle Hi]]; [by apply Hn|].
  apply list_lookup_singleton_Some in Hi as [Heq ->].
  rewrite Ho. do 2 f_equal. lia.
Qed.

Lemma numbered_same_terms (l l' : list Offer) :
  Forall2 same_terms l l' -> numbered l -> numbered l'.
Proof.
  intros HF Hn i o' Hi.
  destruct (Forall2_lookup_r _ _ _ _ _ HF Hi) as (o & Ho & Ht).
  destruct Ht as (-> & _). by apply Hn.
Qed.

Lemma sample_offers_numbered (ls : list Loan) (draw : nat -> SampleDraw) :
  numbered (generate_sample_offers ls draw).
Proof.
  intros i o Hi. unfold generate_sample_offers in Hi.
  rewrite list_lookup_imap in Hi.
  destruct (take 3 ls !! i) as [loan|]; [|done]. by inversion Hi.
Qed.

(** * The first listing as a whole *)

(** Membership in a list that is written out. *)
Ltac in_list :=
  repeat first [ apply elem_of_cons; left; reflexivity | apply elem_of_cons; right ].

Ltac pexec :=
  unfold run_page, mbind, page_mbind, mret, page_mret, page_bind, page_ret, lift, item,
    raise in *;
  exec.

Lemma run_page_lift {S} (m : Script S unit) (s : S) :
  run_page (lift m) s = as_result (run m s).
Proof.
  unfold run_page, lift, as_result, run.
  by destruct (m s []) as [[s' out] [[]|e]].
Qed.

(** ** [main] renders the sidebar, then the current page *)

Lemma basic_main_sidebar b s nav :
  Basic.on_sidebar b = Some nav ->
  run_page (Basic.main b) s
  = {| after := Basic.with_current_page (basic_nav_page nav) s; shown := [];
       stop := Ends Rerun |}.
Proof.
  intros H. unfold Basic.main, Basic.render_sidebar. pexec. rewrite H.
  by destruct nav.
Qed.

Section BasicDispatch.
Context (b : Basic.Browser) (s : Basic.SessionState).
Hypothesis no_nav : Basic.on_sidebar b = None.

Lemma basic_main_dashboard :
  Basic.current_page s = "dashboard" ->
  run_page (Basic.main b) s
  = as_result (run (Basic.render_dashboard (Basic.on_dashboard b)) s).
Proof.
  intros H. rewrite <- run_page_lift.
  unfold Basic.main, Basic.render_sidebar. pexec. by rewrite no_nav, H.
Qed.

Lemma basic_main_loan_detail :
  Basic.current_page s = "loan_detail" ->
  run_page (Basic.main b) s = run_page (Basic.render_loan_detail (Basic.on_loan_detail b)) s.
Proof.
  intros H. unfold Basic.main, Basic.render_sidebar. pexec. by rewrite no_nav, H.
Qed.

Lemma basic_main_create_offer :
  Basic.current_page s = "create_offer" ->
  run_page (Basic.main b) s
  = as_result (run (Basic.render_create_offer (Basic.on_create_offer b)
                      (Basic.now_check b) (Basic.now_created b)) s).
Proof.
  intros H. rewrite <- run_page_lift.
  unfold Basic.main, Basic.render_sidebar. pexec. by rewrite no_nav, H.
Qed.

Lemma basic_main_analytics :
  Basic.current_page s = "analytics" ->
  run_page (Basic.main b) s = {| after := s; shown := []; stop := Ends Finished |}.
Proof.
  intros H. unfold Basic.main, Basic.render_sidebar, Basic.render_analytics. pexec.
  by rewrite no_nav, H.
Qed.

Lemma basic_main_supervisor :
  Basic.current_page s = "supervisor" ->
  run_page (Basic.main b) s
  = as_result (run (Basic.render_supervisor_review (Basic.on_supervisor b)) s).
Proof.
  intros H. rewrite <- run_page_lift.
  unfold Basic.main, Basic.render_sidebar. pexec. by rewrite no_nav, H.
Qed.

Lemma basic_main_unknown :
  Basic.current_page s ∉ basic_pages ->
  run_page (Basic.main b) s = {| after := s; shown := []; stop := Ends Finished |}.
Proof.
  intros H. unfold Basic.main, Basic.render_sidebar, basic_pages in *. pexec.
  rewrite no_nav. cbn.
  repeat match goal with
  | |- context [(?a =? ?c)%string] =>
    destruct (String.eqb_spec a c) as [Heq|?]; [exfalso; apply H; rewrite Heq; in_list|]
  end.
  done.
Qed.
End BasicDispatch.

Lemma basic_page_cases (p : string) :
  p = "dashboard" \/ p = "loan_detail" \/ p = "create_offer" \/ p = "analytics" \/
  p = "supervisor" \/ p ∉ basic_pages.
Proof.
  unfold basic_pages.
  destruct (decide (p = "dashboard")); [tauto|].
  destruct (decide (p = "loan_detail")); [tauto|].
  destruct (decide (p = "create_offer")); [tauto|].
  destruct (decide (p = "analytics")); [tauto|].
  destruct (decide (p = "supervisor")); [tauto|].
  do 5 right. intros Hin.
  repeat (apply elem_of_cons in Hin as [?|Hin]; [done|]). by apply elem_of_nil in Hin.
Qed.

(** ** What each page does to the session *)

#[global] Instance basic_reviewed_preorder : PreOrder basic_reviewed.
Proof.
  split.
  - intros s. repeat split. apply Forall2_same_terms_refl.
  - intros a b c (A1 & A2 & A3 & A4 & A5 & A6) (B1 & B2 & B3 & B4 & B5 & B6).
    repeat split; try congruence. by etrans.
Qed.

Lemma basic_reviewed_alter f i s :
  (forall o, same_terms o (f o)) -> basic_reviewed s (Basic.with_offers (alter f i) s).
Proof. intros Hf. repeat split. by apply Forall2_same_terms_alter. Qed.

#[global] Hint Resolve basic_reviewed_alter : evolve.

Lemma basic_review_reviewed click :
  preserves basic_reviewed (Basic.render_supervisor_review click).
Proof.
  unfold Basic.render_supervisor_review. preserve.
  apply (preserves_for_pending _); intros.
  - unfold Basic.offer_key, Basic.deref. preserve.
  - unfold Basic.review_offer, Basic.deref, Basic.assign.
    preserve; try apply (policy_analysis_preserves _); preserve.
Qed.

Lemma basic_dashboard_transition inp s :
  basic_transition s (final (run (Basic.render_dashboard inp) s)).
Proof.
  unfold run, Basic.render_dashboard. exec.
  destruct (Basic.loan_queue s _); cbn; [apply basic_stays|].
  destruct (Basic.in_selected_loan_id _ =? "None")%string; cbn; [apply basic_stays|].
  destruct (Basic.view_loan_details _); cbn; [|apply basic_stays].
  apply basic_selects.
Qed.

Lemma basic_loan_detail_transition click s :
  basic_transition s (after (run_page (Basic.render_loan_detail click) s)).
Proof.
  unfold Basic.render_loan_detail. pexec.
  destruct (Basic.selected_loan_id s) as [lid|] eqn:Hsel; cbn; [|apply basic_stays].
  destruct (Basic.get_loan_by_id s lid) as [loan|] eqn:Hloan; cbn; [|apply basic_stays].
  assert (basic_selected s) as Hs by (exists lid; by rewrite Hloan).
  assert (basic_transition s (Basic.with_current_page "dashboard" s)) as Hback.
  { apply basic_navigates; [unfold basic_pages; in_list|done]. }
  destruct click as [[| | |]|]; cbn; [exact Hback|..].
  all: destruct (Basic.get_customer_by_id s (loan_customer_id loan)) as [c|]; cbn;
    [|apply basic_stays].
  all: destruct (risk_colors (risk_profile c)); cbn; [|apply basic_stays].
  all: destruct (Basic.get_offers_by_loan_id s (loan_id loan)); cbn.
  all: first [ apply basic_stays | apply basic_navigates; [unfold basic_pages; in_list|done] ].
Qed.

Lemma basic_create_offer_transition inp n1 n2 s :
  Basic.current_page s = "create_offer" ->
  basic_transition s (final (run (Basic.render_create_offer inp n1 n2) s)).
Proof.
  intros Hpage. unfold run, Basic.render_create_offer. exec.
  destruct (Basic.selected_loan_id s) as [lid|] eqn:Hsel; cbn; [|apply basic_stays].
  destruct (Basic.get_loan_by_id s lid) as [loan|] eqn:Hloan; cbn; [|apply basic_stays].
  destruct (create_click inp) as [[|]|]; cbn.
  - apply basic_navigates; [unfold basic_pages; in_list|done].
  - destruct (Basic.get_customer_by_id s (loan_customer_id loan)); cbn; [|apply basic_stays].
    destruct (create_errors loan inp n1) eqn:He;
      destruct (negb (is_within_policy loan (in_settlement_percentage inp))); cbn;
      rewrite ?for_each_errors; cbn;
      first [ apply basic_stays | by eapply basic_creates ].
  - destruct (Basic.get_customer_by_id s (loan_customer_id loan)); cbn; [|apply basic_stays].
    destruct (negb (is_within_policy loan (in_settlement_percentage inp))); cbn;
      apply basic_stays.
Qed.

(** What a run of [main] does to the session. *)
Lemma basic_main_transition (s : Basic.SessionState) (b : Basic.Browser) :
  basic_transition s (Basic.main_step s b).
Proof.
  unfold Basic.main_step.
  destruct (Basic.on_sidebar b) as [nav|] eqn:Hnav.
  { rewrite (basic_main_sidebar _ _ _ Hnav). simpl.
    apply basic_navigates; [destruct nav; unfold basic_pages; in_list | by destruct nav]. }
  destruct (basic_page_cases (Basic.current_page s)) as [H|[H|[H|[H|[H|H]]]]].
  - rewrite basic_main_dashboard by done. apply basic_dashboard_transition.
  - rewrite basic_main_loan_detail by done. apply basic_loan_detail_transition.
  - rewrite basic_main_create_offer by done. by apply basic_create_offer_transition.
  - rewrite basic_main_analytics by done. apply basic_stays.
  - rewrite basic_main_supervisor by done. simpl. apply basic_reviews; [done|].
    rewrite final_run. apply basic_review_reviewed.
  - rewrite basic_main_unknown by done. apply basic_stays.
Qed.

(** ** What every run of [main] keeps *)

Lemma basic_transition_reference s s' :
  basic_transition s s' ->
  Basic.customers s' = Basic.customers s /\ Basic.loans s' = Basic.loans s /\
  Basic.current_user s' = Basic.current_user s.
Proof. intros [| | | |s2 _ (? & ? & ? & _)]; by repeat split. Qed.

Lemma basic_lookups_same s s' :
  Basic.customers s' = Basic.customers s -> Basic.loans s' = Basic.loans s ->
  (forall k, Basic.get_customer_by_id s' k = Basic.get_customer_by_id s k) /\
  (forall k, Basic.get_loan_by_id s' k = Basic.get_loan_by_id s k).
Proof.
  intros Hc Hl. unfold Basic.get_customer_by_id, Basic.get_loan_by_id.
  by rewrite Hc, Hl.
Qed.

Lemma basic_transition_consistent s s' :
  basic_transition s s' -> basic_consistent s -> basic_consistent s'.
Proof.
  intros Ht (Hshow & Hnum & Hloans & Hpage & Hsel).
  destruct (basic_transition_reference s s' Ht) as (Hc & Hl & _).
  destruct (basic_lookups_same s s' Hc Hl) as [Hgc Hgl].
  assert (basic_shows_loans s') as Hshow'.
  { intros loan Hin. rewrite Hl in Hin. destruct (Hshow loan Hin) as (c & Hfound & Hcol).
    exists c. by rewrite Hgc. }
  split; [exact Hshow'|]. clear Hshow'.
  destruct Ht as [|p Hp Hcreate|lid|lid loan inp now Hcur Hlid Hloan|s2 Hcur Hrev]; simpl.
  - done.
  - by repeat split.
  - repeat split; try done. unfold basic_pages. in_list.
  - repeat split.
    + by apply numbered_app.
    + intros o [Ho|Ho%list_elem_of_singleton]%elem_of_app; [by apply Hloans|].
      subst o. simpl. apply basic_get_loan_by_id_Some in Hloan as Hid.
      destruct Hid as [Hin Hid].
      unfold Basic.get_loan_by_id. apply fmap_is_Some.
      by apply (list_find_elem_of _ _ loan).
    + unfold basic_pages. in_list.
    + done.
  - destruct Hrev as (_ & _ & _ & Hp & Hs & HF). repeat split.
    + by apply (numbered_same_terms (Basic.offers s)).
    + intros o' Ho'. apply list_elem_of_lookup in Ho' as [i Hi].
      destruct (Forall2_lookup_r _ _ _ _ _ HF Hi) as (o & Ho & (_ & Hlid & _)).
      rewrite Hgl, Hlid. apply Hloans. by eapply list_elem_of_lookup_2.
    + by rewrite Hp.
    + rewrite Hp. intros Hcr. destruct (Hsel Hcr) as (lid & ? & ?).
      exists lid. by rewrite Hs, Hgl.
Qed.

Lemma basic_main_steps_consistent l :
  forall s, basic_consistent s -> basic_consistent (Basic.main_steps s l).
Proof.
  unfold Basic.main_steps. induction l as [|b l IH]; intros s Hs; simpl; [done|].
  apply IH. apply (basic_transition_consistent s); [apply basic_main_transition | done].
Qed.

(** ** The first session *)

Lemma sample_customers_risk risk c :
  c ∈ generate_sample_customers risk -> is_Some (risk_colors (risk_profile c)).
Proof.
  intros (i & name & -> & _)%elem_of_lookup_imap. simpl. by destruct (risk i).
Qed.

Lemma sample_loans_customer customers draw loan :
  loan ∈ generate_sample_loans customers draw ->
  exists c, c ∈ customers /\ customer_id c = loan_customer_id loan.
Proof.
  intros (i & c & -> & Hc)%elem_of_lookup_imap. exists c. split; [|done].
  by eapply list_elem_of_lookup_2.
Qed.

Lemma list_find_elem {A} (P : A -> Prop) `{!forall x, Decision (P x)} (l : list A) x :
  x ∈ l -> P x -> exists y, snd <$> list_find P l = Some y /\ (y ∈ l) /\ P y.
Proof.
  intros Hin HP. destruct (list_find_elem_of P l x Hin HP) as [[i y] Hf].
  exists y. rewrite Hf. split; [done|].
  apply list_find_Some in Hf as (Hy & HPy & _). split; [|done].
  by eapply list_elem_of_lookup_2.
Qed.

Lemma basic_initial_consistent (cs : list Customer) (ls : list Loan) draw :
  (forall loan, loan ∈ ls -> exists c, c ∈ cs /\ customer_id c = loan_customer_id loan) ->
  (forall c, c ∈ cs -> is_Some (risk_colors (risk_profile c))) ->
  basic_consistent (Basic.initialize_session_state cs ls draw).
Proof.
  intros Hls Hcs. unfold Basic.initialize_session_state.
  repeat split; simpl.
  - intros loan Hin. destruct (Hls loan Hin) as (c & Hc & Hid).
    destruct (list_find_elem (fun c => customer_id c = loan_customer_id loan) _ c Hc Hid)
      as (c' & Hfound & Hc' & _).
    exists c'. split; [exact Hfound|]. by apply Hcs.
  - apply sample_offers_numbered.
  - intros o (i & loan & -> & Hi)%elem_of_lookup_imap. simpl.
    unfold Basic.get_loan_by_id. simpl. apply fmap_is_Some.
    apply (list_find_elem_of _ _ loan); [|done].
    apply lookup_take_Some in Hi as [Hi _]. by eapply list_elem_of_lookup_2.
  - unfold basic_pages. in_list.
  - done.
Qed.

Lemma first_session_consistent risk loan_draw offer_draw :
  basic_consistent (Basic.first_session risk loan_draw offer_draw).
Proof.
  unfold Basic.first_session. apply basic_initial_consistent.
  - apply sample_loans_customer.
  - apply sample_customers_risk.
Qed.

(** ** No run of [main] raises *)

Lemma basic_consistent_renders s o :
  basic_consistent s -> o ∈ Basic.offers s -> basic_renders s o.
Proof.
  intros (Hshow & _ & Hloans & _) Ho.
  destruct (Hloans o Ho) as [loan Hloan].
  destruct (basic_get_loan_by_id_Some _ _ _ Hloan) as [Hin _].
  destruct (Hshow loan Hin) as (c & Hc & _). by exists loan, c.
Qed.

Lemma basic_consistent_ready s : basic_consistent s -> basic_ready s.
Proof.
  intros Hs. split.
  - apply numbered_NoDup. by destruct Hs as (_ & ? & _).
  - intros o Ho _. by apply basic_consistent_renders.
Qed.

(** The review page of the first listing ends normally or with a rerun,
    whatever was clicked. *)
Lemma basic_review_ends click s :
  basic_ready s ->
  ending (run (Basic.render_supervisor_review click) s) = Finished \/
  ending (run (Basic.render_supervisor_review click) s) = Rerun.
Proof.
  intros Hready.
  destruct (pending_offers (Basic.offers s)) as [|j0 js] eqn:Hpend.
  { left. unfold run, Basic.render_supervisor_review. exec. by rewrite Hpend. }
  assert (pending_offers (Basic.offers s) <> []) as Hne by (by rewrite Hpend).
  pose proof (positions_where_lookup is_pending (Basic.offers s) []) as HF. simpl in HF.
  fold (pending_offers (Basic.offers s)) in HF.
  set (fl := filter (fun o => is_pending o = true) (Basic.offers s)) in *.
  assert (forall o, o ∈ fl -> o ∈ Basic.offers s /\ status o = PENDING_APPROVAL) as Hfl.
  { intros o [Hp Ho]%list_elem_of_filter. split; [done|].
    unfold is_pending in Hp. by apply bool_decide_eq_true in Hp. }
  assert ((exists b o, click = Some b /\ o ∈ fl /\ offer_id o = basic_button_offer b) \/
          (forall b o, click = Some b -> o ∈ fl -> basic_button_offer b <> offer_id o))
    as [(b & o & -> & Ho & Hid)|Hnone].
  { destruct click as [b|]; [|right; intros; done].
    destruct (decide (basic_button_offer b ∈ offer_id <$> fl)) as [Hin|Hout].
    - left. apply list_elem_of_fmap in Hin as (o & Hid & Ho). by exists b, o.
    - right. intros b' o Hb Ho Heq. inversion Hb; subst b'. apply Hout.
      apply list_elem_of_fmap. by exists o. }
  - right. destruct (Hfl o Ho) as [Hin Hst].
    apply list_elem_of_lookup in Hin as [i Hi].
    by destruct (basic_decision_run s i o b Hready Hi Hst (eq_sym Hid)) as [-> _].
  - left. destruct Hready as [Hnd Hren].
    assert (Forall2 (fun j k => offer_id <$> Basic.offers s !! j = Some k /\
                        passes (Basic.review_offer click)
                          (fun s j => offer_id <$> Basic.offers s !! j) s j)
              (pending_offers (Basic.offers s)) (offer_id <$> fl)) as Hpass.
    { apply Forall2_fmap_r. eapply Forall2_impl; [exact HF|].
      intros j o [Hj Hp]. simpl. split; [by rewrite Hj|].
      assert (o ∈ fl) as Ho by (apply list_elem_of_filter; split; [done|];
                                by eapply list_elem_of_lookup_2).
      destruct (Hfl o Ho) as [Hin Hst].
      apply (basic_review_offer_passes click s j o Hj); [by apply Hren|].
      intros b Hb. by apply Hnone. }
    destruct (for_pending_passes Basic.offer_key (Basic.review_offer click)
                (fun s j => offer_id <$> Basic.offers s !! j) basic_offer_key_run_at
                s _ _ Hpass [] []) as [m Hrun].
    { apply (sublist_NoDup _ _ Hnd), fmap_sublist, sublist_filter. }
    { intros k _ Hk. by apply elem_of_nil in Hk. }
    unfold run. rewrite (basic_review_loop _ _ _ Hne), Hrun. done.
Qed.

Lemma ends_well_as_result {S} (o : Outcome S) :
  ending o = Finished \/ ending o = Rerun -> ends_well (stop (as_result o)).
Proof. unfold ends_well. simpl. intros [->| ->]; auto. Qed.

Lemma basic_dashboard_ends inp s :
  ending (run (Basic.render_dashboard inp) s) = Finished \/
  ending (run (Basic.render_dashboard inp) s) = Rerun.
Proof.
  unfold run, Basic.render_dashboard. exec.
  destruct (Basic.loan_queue s _); cbn; [by left|].
  destruct (Basic.in_selected_loan_id _ =? "None")%string; cbn; [by left|].
  destruct (Basic.view_loan_details _); cbn; auto.
Qed.

Lemma basic_loan_detail_ends click s :
  basic_shows_loans s -> ends_well (stop (run_page (Basic.render_loan_detail click) s)).
Proof.
  intros Hshow. unfold ends_well, Basic.render_loan_detail. pexec.
  destruct (Basic.selected_loan_id s) as [lid|] eqn:Hsel; cbn; [|by left].
  destruct (Basic.get_loan_by_id s lid) as [loan|] eqn:Hloan; cbn; [|by left].
  destruct (basic_get_loan_by_id_Some _ _ _ Hloan) as [Hin _].
  destruct (Hshow loan Hin) as (c & -> & [colour Hcol]).
  destruct click as [[| | |]|]; cbn; rewrite ?Hcol; cbn;
    destruct (Basic.get_offers_by_loan_id s (loan_id loan)); cbn; auto.
Qed.

Lemma basic_create_offer_ends inp n1 n2 s :
  basic_shows_loans s -> basic_selected s ->
  ending (run (Basic.render_create_offer inp n1 n2) s) = Finished \/
  ending (run (Basic.render_create_offer inp n1 n2) s) = Rerun.
Proof.
  intros Hshow (lid & Hsel & [loan Hloan]).
  destruct (basic_get_loan_by_id_Some _ _ _ Hloan) as [Hin _].
  destruct (Hshow loan Hin) as (c & Hc & _).
  unfold run, Basic.render_create_offer. exec.
  rewrite Hsel; cbn. rewrite Hloan; cbn.
  destruct (create_click inp) as [[|]|]; cbn; rewrite ?Hc; cbn; [by right| |].
  - destruct (create_errors loan inp n1) eqn:He;
      destruct (negb (is_within_policy loan (in_settlement_percentage inp))); cbn;
      rewrite ?for_each_errors; cbn; auto.
  - destruct (negb (is_within_policy loan (in_settlement_percentage inp))); cbn; auto.
Qed.

Lemma basic_main_ends_well (s : Basic.SessionState) (b : Basic.Browser) :
  basic_consistent s -> ends_well (stop (run_page (Basic.main b) s)).
Proof.
  intros Hs.
  destruct (Basic.on_sidebar b) as [nav|] eqn:Hnav.
  { rewrite (basic_main_sidebar _ _ _ Hnav). by right. }
  destruct (basic_page_cases (Basic.current_page s)) as [H|[H|[H|[H|[H|H]]]]].
  - rewrite basic_main_dashboard by done. apply ends_well_as_result, basic_dashboard_ends.
  - rewrite basic_main_loan_detail by done. apply basic_loan_detail_ends. by destruct Hs.
  - rewrite basic_main_create_offer by done. apply ends_well_as_result.
    destruct Hs as (Hshow & _ & _ & _ & Hsel). apply basic_create_offer_ends; auto.
  - rewrite basic_main_analytics by done. by left.
  - rewrite basic_main_supervisor by done. apply ends_well_as_result.
    by apply basic_review_ends, basic_consistent_ready.
  - rewrite basic_main_unknown by done. by left.
Qed.

(** * The loan queue of the dashboard *)


Lemma filtered_out_overdue (wf sf : string) (loan : Loan) (latest : string) :
  let all := filtered_out (queue_filter wf sf "All") loan latest in
  let d := days_overdue loan in
  filtered_out (queue_filter wf sf "< 90 days") loan latest = all || (90 <=? d) /\
  filtered_out (queue_filter wf sf "90-180 days") loan latest
  = all || negb ((90 <=? d) && (d <=? 180)) /\
  filtered_out (queue_filter wf sf "> 180 days") loan latest = all || (d <=? 180).
Proof.
  unfold filtered_out, queue_filter; cbn.
  destruct (negb (wf =? "All")%string
            && negb (workflow_status_value (workflow_status loan) =? wf)%string); [done|].
  destruct (negb (sf =? "All")%string && negb (latest =? sf)%string); [done|].
  destruct (90 <=? days_overdue loan), (days_overdue loan <=? 180); done.
Qed.

(** X4.  The three overdue ranges of the dashboard split the loan queue:
    whatever the two other filters are, the rows listed under "All" are
    the rows listed under "< 90 days", "90-180 days" and "> 180 days"
    together, each row once. *)
Lemma loan_data_overdue_buckets gc go (loans : list Loan) (wf sf : string) :
  loan_data gc go loans (queue_filter wf sf "All")
  ≡ₚ loan_data gc go loans (queue_filter wf sf "< 90 days")
     ++ loan_data gc go loans (queue_filter wf sf "90-180 days")
     ++ loan_data gc go loans (queue_filter wf sf "> 180 days").
Proof.
  unfold loan_data. induction loans as [|loan loans IH]; [done|].
  cbn [omap list_omap].
  destruct (filtered_out_overdue wf sf loan (latest_offer_status (go (loan_id loan))))
    as (-> & -> & ->).
  destruct (filtered_out (queue_filter wf sf "All") loan _); cbn [orb]; [exact IH|].
  destruct (Z.leb_spec 90 (days_overdue loan)), (Z.leb_spec (days_overdue loan) 180);
    cbn [andb negb]; try lia.
  - rewrite IH, <- app_comm_cons. by rewrite <- Permutation_middle.
  - rewrite IH, !app_assoc. by rewrite <- Permutation_middle.
  - by rewrite IH.
Qed.

(** * The loan detail page of the first listing *)

Lemma risk_colors_known (risk : string) : is_Some (risk_colors risk) <-> risk ∈ known_risks.
Proof.
  unfold risk_colors, known_risks.
  destruct (String.eqb_spec risk "Low") as [->|H1]; [split; [intros; in_list|by eexists]|].
  destruct (String.eqb_spec risk "Medium") as [->|H2]; [split; [intros; in_list|by eexists]|].
  destruct (String.eqb_spec risk "High") as [->|H3]; [split; [intros; in_list|by eexists]|].
  split; [by intros [? ?]|]. intros Hin.
  repeat (apply elem_of_cons in Hin as [?|Hin]; [done|]). by apply elem_of_nil in Hin.
Qed.

(** X5.  The loan detail page of the first listing raises in one
    situation only: a loan is selected and found, the click is not "Back to
    Dashboard", and the customer of the loan is not found or has a risk
    profile other than Low, Medium and High.  In every other case the run
    finishes or reruns the script. *)
Lemma basic_loan_detail_raises s click :
  let r := run_page (Basic.render_loan_detail click) s in
  ~ ends_well (stop r) <->
  exists lid loan,
    Basic.selected_loan_id s = Some lid /\ Basic.get_loan_by_id s lid = Some loan /\
    click <> Some Basic.BackToDashboard /\
    forall c, Basic.get_customer_by_id s (loan_customer_id loan) = Some c ->
      risk_profile c ∉ known_risks.
Proof.
  unfold ends_well, Basic.render_loan_detail. pexec.
  destruct (Basic.selected_loan_id s) as [lid|] eqn:Hsel; cbn.
  2: { split; [intros H; exfalso; apply H; by left | by intros (? & ? & ? & _)]. }
  destruct (Basic.get_loan_by_id s lid) as [loan|] eqn:Hloan; cbn.
  2: { split; [intros H; exfalso; apply H; by left|].
       intros (? & ? & Heq & ? & _). inversion Heq; subst. congruence. }
  assert (forall P : Prop, P ->
    (exists lid0 loan0, Some lid = Some lid0 /\ Basic.get_loan_by_id s lid0 = Some loan0 /\
       P /\ forall c, Basic.get_customer_by_id s (loan_customer_id loan0) = Some c ->
              risk_profile c ∉ known_risks) <->
    (forall c, Basic.get_customer_by_id s (loan_customer_id loan) = Some c ->
       risk_profile c ∉ known_risks)) as Hiff.
  { intros P HP. split.
    - intros (lid0 & loan0 & Heq & Hl & _ & H). inversion Heq; subst lid0.
      rewrite Hloan in Hl. by inversion Hl; subst.
    - intros H. by exists lid, loan. }
  destruct click as [[| | |]|]; cbn.
  { split; [intros H; exfalso; apply H; by right|]. by intros (? & ? & _ & _ & ? & _). }
  all: rewrite Hiff by done.
  all: destruct (Basic.get_customer_by_id s (loan_customer_id loan)) as [c|] eqn:Hc; cbn;
    [|split; [done | intros _ [?|?]; done]].
  all: destruct (risk_colors (risk_profile c)) as [colour|] eqn:Hcol; cbn.
  all: try (split; [intros _ c' Hc'; inversion Hc'; subst c';
                     rewrite <- risk_colors_known, Hcol; by intros [? ?]
                   | intros _ [?|?]; done]).
  all: destruct (Basic.get_offers_by_loan_id s (loan_id loan)); cbn.
  all: split; [intros H; exfalso; apply H; auto|].
  all: intros H; exfalso; apply (H c eq_refl), risk_colors_known; by rewrite Hcol.
Qed.

(** * From the loan queue to a new offer, first listing *)

Lemma basic_dashboard_view s inp :
  Basic.loan_queue s (Basic.in_filter inp) <> [] ->
  Basic.in_selected_loan_id inp <> "None" -> Basic.view_loan_details inp = true ->
  run (Basic.render_dashboard inp) s
  = {| final := Basic.with_selected_loan_id (Basic.in_selected_loan_id inp)
                  (Basic.with_current_page "loan_detail" s);
       notices := []; ending := Rerun |}.
Proof.
  intros Hq Hsel Hview. unfold run, Basic.render_dashboard. exec.
  destruct (Basic.loan_queue s _); [done|]. cbn.
  destruct (String.eqb_spec (Basic.in_selected_loan_id inp) "None"); [done|]. cbn.
  by rewrite Hview.
Qed.

Lemma basic_loan_detail_create s lid loan c :
  Basic.selected_loan_id s = Some lid -> Basic.get_loan_by_id s lid = Some loan ->
  Basic.get_customer_by_id s (loan_customer_id loan) = Some c ->
  risk_profile c ∈ known_risks ->
  let r := run_page (Basic.render_loan_detail (Some Basic.CreateSettlementOffer)) s in
  after r = Basic.with_current_page "create_offer" s /\ stop r = Ends Rerun.
Proof.
  intros Hsel Hloan Hc [colour Hcol]%risk_colors_known.
  unfold Basic.render_loan_detail. pexec.
  rewrite Hsel; cbn. rewrite Hloan; cbn. rewrite Hc; cbn. rewrite Hcol; cbn.
  by destruct (Basic.get_offers_by_loan_id s (loan_id loan)).
Qed.

(** A submitted creation form of the first listing, for a selected loan that
    is found together with its customer. *)
Lemma basic_create_offer_run s inp n1 n2 lid loan c :
  Basic.selected_loan_id s = Some lid ->
  Basic.get_loan_by_id s lid = Some loan ->
  Basic.get_customer_by_id s (loan_customer_id loan) = Some c ->
  create_click inp = Some CreateOffer ->
  let r := run (Basic.render_create_offer inp n1 n2) s in
  match create_errors loan inp n1 with
  | [] =>
    final r = Basic.with_current_page "dashboard"
                (Basic.with_offers (fun l => l ++ [Basic.new_offer s loan inp n2]) s) /\
    ending r = Rerun
  | errs =>
    final r = s /\ ending r = Finished /\ forall e, e ∈ errs -> st_error e ∈ notices r
  end.
Proof.
  intros Hsel Hloan Hc Hclick r. subst r.
  unfold run, Basic.render_create_offer. exec.
  rewrite Hsel; cbn. rewrite Hloan; cbn. rewrite Hclick; cbn. rewrite Hc; cbn.
  destruct (create_errors loan inp n1) as [|e errs] eqn:He.
  - destruct (negb (is_within_policy loan (in_settlement_percentage inp))); cbn; done.
  - destruct (negb (is_within_policy loan (in_settlement_percentage inp))); cbn;
      rewrite for_each_errors; cbn; repeat split;
      intros x Hx;
      change (st_error e :: (st_error <$> errs)) with (st_error <$> (e :: errs));
      first [ apply elem_of_cons; right; apply list_elem_of_fmap; by exists x
            | do 2 (apply elem_of_cons; right); apply list_elem_of_fmap; by exists x ].
Qed.

(** X6.  From the loan queue to an offer, first listing: choosing a row
    of the queue and clicking "View Loan Details", then "Create Settlement
    Offer", then submitting a form that passes validation, appends the offer
    for the loan of that row, in three runs of [main], and ends on the
    dashboard with the loan still selected. *)
Lemma basic_queue_to_offer (s : Basic.SessionState) (f : QueueFilter) (row : LoanRow)
    (loan : Loan) (inp : CreateInput) (n1 n2 : datetime) :
  basic_shows_loans s ->
  Basic.current_page s = "dashboard" ->
  row ∈ Basic.loan_queue s f -> row_loan_id row <> "None" ->
  Basic.get_loan_by_id s (row_loan_id row) = Some loan ->
  create_click inp = Some CreateOffer -> create_errors loan inp n1 = [] ->
  let s3 := Basic.main_steps s
              [basic_view_loan f (row_loan_id row);
               basic_detail_click Basic.CreateSettlementOffer;
               basic_form inp n1 n2] in
  Basic.offers s3 = Basic.offers s ++ [Basic.new_offer s loan inp n2] /\
  Basic.current_page s3 = "dashboard" /\
  Basic.selected_loan_id s3 = Some (row_loan_id row).
Proof.
  intros Hshow Hpage Hrow Hnone Hloan Hclick Herr.
  destruct (basic_get_loan_by_id_Some _ _ _ Hloan) as [Hin _].
  destruct (Hshow loan Hin) as (c & Hc & Hcol%risk_colors_known).
  unfold Basic.main_steps, Basic.main_step. cbn [fold_left].
  rewrite (basic_main_dashboard (basic_view_loan f (row_loan_id row)) s eq_refl Hpage). cbn [after as_result].
  rewrite basic_dashboard_view; cbn; [|by destruct (Basic.loan_queue s f); [apply elem_of_nil in Hrow|]|done..].
  set (s1 := Basic.with_selected_loan_id _ _).
  rewrite (basic_main_loan_detail (basic_detail_click Basic.CreateSettlementOffer) s1 eq_refl eq_refl).
  cbn [Basic.on_loan_detail basic_detail_click].
  destruct (basic_loan_detail_create s1 (row_loan_id row) loan c eq_refl Hloan Hc Hcol)
    as [-> _].
  set (s2 := Basic.with_current_page "create_offer" s1).
  rewrite (basic_main_create_offer (basic_form inp n1 n2) s2 eq_refl eq_refl). cbn [after as_result].
  pose proof (basic_create_offer_run s2 inp n1 n2 (row_loan_id row) loan c eq_refl Hloan Hc
                Hclick) as Hrun.
  cbn zeta in Hrun. rewrite Herr in Hrun. destruct Hrun as [Hfinal _].
  cbn [Basic.on_create_offer Basic.now_check Basic.now_created basic_form].
  rewrite Hfinal. done.
Qed.

(** * Counting by key *)

Section CountBy.
Context {A : Type} (key : A -> string).

Lemma count_by_snoc (l : list A) (x : A) :
  count_by key (l ++ [x])
  = <[key x := (default 0%nat (count_by key l !! key x) + 1)%nat]> (count_by key l).
Proof. unfold count_by. by rewrite foldl_app. Qed.

(** The count of a key is the number of elements with that key. *)
Lemma count_by_lookup (l : list A) (k : string) :
  default 0%nat (count_by key l !! k) = length (filter (fun x => key x = k) l).
Proof.
  induction l as [|x l IH] using rev_ind; [done|].
  rewrite count_by_snoc, filter_app, length_app, filter_cons, filter_nil.
  destruct (decide (key x = k)) as [Heq|Hne].
  - rewrite Heq, lookup_insert_eq. simpl. by rewrite IH.
  - rewrite lookup_insert_ne by done. simpl. rewrite IH. lia.
Qed.

(** A key is in the dictionary exactly when some element has it. *)
Lemma count_by_None (l : list A) (k : string) :
  count_by key l !! k = None <-> forall x, x ∈ l -> key x <> k.
Proof.
  induction l as [|x l IH] using rev_ind.
  - split; [intros _ x Hx; by apply elem_of_nil in Hx | intros _; apply lookup_empty].
  - rewrite count_by_snoc. destruct (decide (key x = k)) as [Heq|Hne].
    + rewrite Heq, lookup_insert_eq. split; [done|]. intros H. exfalso.
      apply (H x); [|done]. apply elem_of_app. right. by apply list_elem_of_singleton.
    + rewrite lookup_insert_ne by done. rewrite IH. split.
      * intros H y [Hy|Hy%list_elem_of_singleton]%elem_of_app; [by apply H|by subst].
      * intros H y Hy. apply H, elem_of_app. by left.
Qed.

(** The counts add up to the length of the list. *)
Lemma count_by_total (l : list A) :
  sum_list (snd <$> map_to_list (count_by key l)) = length l.
Proof.
  induction l as [|x l IH] using rev_ind; [done|].
  rewrite count_by_snoc, length_app. simpl.
  set (m := count_by key l) in *.
  destruct (m !! key x) as [v|] eqn:Hv; simpl.
  - rewrite <- (insert_delete_id m (key x) v Hv) in IH.
    rewrite <- insert_delete_eq.
    rewrite map_to_list_insert in IH by apply lookup_delete_eq.
    rewrite map_to_list_insert by apply lookup_delete_eq.
    rewrite fmap_cons in IH. rewrite fmap_cons. cbn [sum_list snd] in *.
    unfold id in *. lia.
  - rewrite map_to_list_insert by done.
    rewrite fmap_cons. cbn [sum_list snd]. rewrite IH. unfold id. lia.
Qed.
End CountBy.

(** * The analytics page *)

Lemma offer_status_value_inj : Inj eq eq offer_status_value.
Proof. intros a b H. destruct a, b; simpl in H; congruence. Qed.

(** X8.  The pie chart of the analytics page agrees with its metrics:
    the counts add up to the number of offers, the count under "Accepted" is
    the metric "Accepted Offers", and the count under the value of a status
    is the number of offers with that status. *)
Lemma basic_status_chart (s : Basic.SessionState) :
  sum_list (snd <$> map_to_list (Basic.status_counts s)) = Basic.total_offers s /\
  default 0%nat (Basic.status_counts s !! "Accepted") = Basic.accepted_offers s /\
  forall st,
    default 0%nat (Basic.status_counts s !! offer_status_value st)
    = count_where (fun o => bool_decide (status o = st)) (Basic.offers s).
Proof.
  assert (forall st,
    default 0%nat (Basic.status_counts s !! offer_status_value st)
    = count_where (fun o => bool_decide (status o = st)) (Basic.offers s)) as H.
  { intros st. unfold Basic.status_counts, count_where. rewrite count_by_lookup.
    f_equal. apply list_filter_iff. intros o. rewrite bool_decide_eq_true.
    split; [apply offer_status_value_inj | by intros ->]. }
  split; [apply count_by_total|]. split; [|exact H]. apply (H ACCEPTED).
Qed.

(** * Sample customers and loans *)

Lemma sample_customer_ids risk i c :
  generate_sample_customers risk !! i = Some c -> customer_id c = "CUST_" +:+ fmt_03d (i + 1).
Proof.
  unfold generate_sample_customers. rewrite list_lookup_imap.
  destruct (sample_names !! i); [|done]. intros H. by inversion H.
Qed.

(** X2.  The loan that [generate_sample_loans] makes at position [i]
    belongs to the customer that [generate_sample_customers] makes at
    position [i], and looking up the customer id of the loan finds that
    customer, whatever is drawn. *)
Lemma sample_loan_customer risk draw i loan :
  let customers := generate_sample_customers risk in
  generate_sample_loans customers draw !! i = Some loan ->
  exists c, customers !! i = Some c /\
    snd <$> list_find (fun c => customer_id c = loan_customer_id loan) customers = Some c.
Proof.
  intros customers. unfold generate_sample_loans. rewrite list_lookup_imap.
  destruct (customers !! i) as [c|] eqn:Hc; [|done]. intros H. inversion H; subst loan.
  exists c. split; [done|]. cbn [loan_customer_id sample_loan].
  assert (list_find (fun c0 => customer_id c0 = customer_id c) customers = Some (i, c)) as Hf.
  { apply list_find_Some. repeat split; [done..|].
    intros j c' Hj Hlt Heq.
    rewrite (sample_customer_ids _ _ _ Hj), (sample_customer_ids _ _ _ Hc) in Heq.
    simpl in Heq. inversion Heq as [Hfmt]. apply fmt_03d_inj in Hfmt. lia. }
  by rewrite Hf.
Qed.



(** * Amounts as text *)

Lemma read_digits_pos (d : Decimal.uint) (acc : positive) :
  read_digits (NilEmpty.string_of_uint d) (Z.pos acc) = Z.pos (Pos.of_uint_acc d acc).
Proof.
  revert acc. induction d; intros acc; simpl; [done|..];
    rewrite <- IHd; f_equal; unfold digit_value;
    match goal with
    | |- context [nat_of_ascii ?c] =>
      let v := eval vm_compute in (Z.of_nat (nat_of_ascii c)) in
      change (Z.of_nat (nat_of_ascii c)) with v
    end; lia.
Qed.

Lemma read_digits_N (d : Decimal.uint) :
  read_digits (NilEmpty.string_of_uint d) 0 = Z.of_N (Pos.of_uint d).
Proof.
  induction d; simpl; [done|exact IHd|..];
    match goal with
    | |- read_digits _ ?a = _ =>
      let v := eval vm_compute in a in change a with v
    end; by rewrite read_digits_pos.
Qed.

(** [str(z)] read back, for a number that is not negative. *)
Lemma read_str_int (z : Z) : 0 <= z -> read_digits (str_int z) 0 = z.
Proof.
  intros Hz. unfold str_int. destruct z as [|p|p]; [done| |lia].
  simpl. pose proof (DecimalPos.Unsigned.to_uint_nonnil p) as Hnil.
  unfold NilZero.string_of_uint.
  destruct (Pos.to_uint p) eqn:Hp; [done|..]; rewrite <- Hp;
    by rewrite read_digits_N, DecimalPos.Unsigned.of_to.
Qed.

Lemma read_digits_acc (s : string) (acc : Z) :
  read_digits s acc = acc * 10 ^ Z.of_nat (String.length s) + read_digits s 0.
Proof.
  revert acc. induction s as [|c s IH]; intros acc; simpl String.length; simpl read_digits.
  - simpl. lia.
  - rewrite IH, (IH (10 * 0 + digit_value c)).
    rewrite Nat2Z.inj_succ, Z.pow_succ_r by lia. lia.
Qed.

Lemma all_digits_uint (d : Decimal.uint) : all_digits (NilEmpty.string_of_uint d) = true.
Proof. induction d; simpl; [done|..]; exact IHd. Qed.

Lemma all_digits_str_nat (n : nat) : all_digits (str_nat n) = true.
Proof. rewrite str_nat_digits. apply all_digits_uint. Qed.

Lemma all_digits_str_int (z : Z) : 0 <= z -> all_digits (str_int z) = true.
Proof.
  intros Hz. unfold str_int. destruct z as [|p|p]; [done| |lia].
  simpl. unfold NilZero.string_of_uint.
  destruct (Pos.to_uint p) eqn:Hp; [done|..]; rewrite <- Hp; apply all_digits_uint.
Qed.

Lemma all_digits_app (a b : string) :
  all_digits (a +:+ b) = all_digits a && all_digits b.
Proof. induction a as [|c a IH]; simpl; [done|]. by rewrite IH, andb_assoc. Qed.

Lemma all_digits_zeros (k : nat) : all_digits (zeros k) = true.
Proof. induction k; [done|exact IHk]. Qed.

Lemma digits_of_app (a b : string) : digits_of (a +:+ b) = digits_of a +:+ digits_of b.
Proof.
  induction a as [|c a IH]; simpl; [done|]. destruct (is_digit c); simpl; by rewrite IH.
Qed.

Lemma has_minus_app (a b : string) : has_minus (a +:+ b) = has_minus a || has_minus b.
Proof. induction a as [|c a IH]; simpl; [done|]. by rewrite IH, orb_assoc. Qed.

Lemma all_digits_plain (s : string) :
  all_digits s = true -> digits_of s = s /\ has_minus s = false.
Proof.
  induction s as [|c s IH]; simpl; [done|].
  intros [Hc Hs]%andb_true_iff. destruct (IH Hs) as [-> ->]. rewrite Hc.
  split; [done|]. rewrite orb_false_r.
  destruct (Ascii.eqb_spec c "-") as [->|]; [done|done].
Qed.

(** * The thousands separator *)

Lemma filter_rev {A} (P : A -> Prop) `{!forall x, Decision (P x)} (l : list A) :
  filter P (rev l) = rev (filter P l).
Proof.
  induction l as [|x l IH]; [done|]. simpl. rewrite filter_app, IH, !filter_cons, filter_nil.
  destruct (decide (P x)); simpl; [done|by rewrite app_nil_r].
Qed.

Lemma commas_cases (l : list ascii) :
  (length l <= 3)%nat /\ commas l = l \/
  exists a b c rest, l = a :: b :: c :: rest /\ rest <> [] /\
    commas l = a :: b :: c :: ","%char :: commas rest.
Proof.
  destruct l as [|a [|b [|c [|d rest]]]]; try (left; split; [simpl; lia|done]).
  right. by exists a, b, c, (d :: rest).
Qed.

(** The separator adds commas and nothing else. *)
Lemma commas_filter (P : ascii -> Prop) `{!forall x, Decision (P x)} (l : list ascii) :
  ~ P ","%char -> filter P (commas l) = filter P l.
Proof.
  intros Hc. remember (length l) as n eqn:Hn. revert l Hn.
  induction n as [n IH] using lt_wf_ind. intros l Hn.
  destruct (commas_cases l) as [[_ ->]|(a & b & c & rest & -> & _ & ->)]; [done|].
  rewrite !(filter_cons _ a), !(filter_cons _ b), !(filter_cons _ c), (filter_cons _ ","%char).
  destruct (decide (P ","%char)) as [?|_]; [done|].
  assert (length rest < n)%nat as Hlt by (subst n; simpl; lia).
  by rewrite (IH (length rest) Hlt rest eq_refl).
Qed.

Lemma digits_of_list (l : list ascii) :
  digits_of (string_of_list_ascii l)
  = string_of_list_ascii (filter (fun c => is_digit c = true) l).
Proof.
  induction l as [|c l IH]; [done|]. simpl. rewrite filter_cons.
  destruct (is_digit c) eqn:Hc; simpl; [by rewrite IH | exact IH].
Qed.

Lemma has_minus_list (l : list ascii) :
  has_minus (string_of_list_ascii l) = false
  <-> filter (fun c => c = "-"%char) l = [].
Proof.
  induction l as [|c l IH]; [done|]. simpl. rewrite filter_cons.
  destruct (Ascii.eqb_spec c "-") as [->|Hne]; simpl.
  - split; done.
  - destruct (decide (c = "-"%char)); [done|exact IH].
Qed.

Lemma all_digits_list (s : string) :
  all_digits s = true ->
  filter (fun c => is_digit c = true) (list_ascii_of_string s) = list_ascii_of_string s /\
  filter (fun c => c = "-"%char) (list_ascii_of_string s) = [].
Proof.
  induction s as [|c s IH]; [done|]. simpl.
  intros [Hc Hs]%andb_true_iff. destruct (IH Hs) as [H1 H2].
  rewrite !filter_cons, H1, H2. rewrite Hc. simpl.
  destruct (decide (c = "-"%char)) as [->|]; done.
Qed.

(** Only commas come between the digits: the digits of the grouped text are
    the digits that were grouped, and there is no minus sign. *)
Lemma group_thousands_digits (s : string) :
  all_digits s = true ->
  digits_of (group_thousands s) = s /\ has_minus (group_thousands s) = false.
Proof.
  intros Hs. destruct (all_digits_list s Hs) as [Hd Hm].
  unfold group_thousands. split.
  - rewrite digits_of_list, filter_rev, commas_filter by done.
    rewrite filter_rev, Hd, rev_involutive. apply string_of_list_ascii_of_string.
  - apply has_minus_list.
    rewrite filter_rev, commas_filter by done.
    by rewrite filter_rev, Hm.
Qed.

(** * Amounts as text: [format_currency] *)

Lemma round_half_even_bounds (scale : Z) (x : Q) :
  0 <= scale ->
  let n := Z.abs (Qnum x) in
  let d := Z.pos (Qden x) in
  let t := round_half_even scale x in
  0 <= t /\ Z.abs (2 * (scale * n) - 2 * t * d) <= d.
Proof.
  intros Hs n d t. subst t. unfold round_half_even. fold n d.
  assert (0 < d) as Hd by (subst d; lia).
  assert (0 <= n) as Hn by (subst n; lia).
  pose proof (Z.div_mod (scale * n) d ltac:(lia)) as Hdm.
  pose proof (Z.mod_pos_bound (scale * n) d Hd) as Hr.
  assert (0 <= scale * n / d) as Hq by (apply Z.div_pos; nia).
  set (q := scale * n / d) in *. set (r := (scale * n) mod d) in *.
  destruct (Z.ltb_spec d (2 * r)); cbn [orb].
  - split; [lia|]. apply Z.abs_le. nia.
  - destruct (Z.eqb_spec d (2 * r)); cbn [andb].
    + destruct (Z.odd q); (split; [lia|]); apply Z.abs_le; nia.
    + split; [lia|]. apply Z.abs_le. nia.
Qed.

Lemma fmt_02d_length (n : nat) : (n < 100)%nat -> String.length (fmt_02d n) = 2%nat.
Proof.
  intros Hn. do 100 (destruct n as [|n]; [reflexivity|]). lia.
Qed.

Lemma read_fmt_02d (n : nat) (acc : Z) :
  (n < 100)%nat -> read_digits (fmt_02d n) acc = acc * 100 + Z.of_nat n.
Proof.
  intros Hn. rewrite read_digits_acc, (fmt_02d_length n Hn).
  unfold fmt_02d. rewrite read_padded. done.
Qed.

Lemma all_digits_fmt_02d (n : nat) : all_digits (fmt_02d n) = true.
Proof.
  unfold fmt_02d. by rewrite all_digits_app, all_digits_zeros, all_digits_str_nat.
Qed.

Lemma append_empty_l (s : string) : "" +:+ s = s.
Proof. reflexivity. Qed.

(** The text of an amount read back: the amount in cents, rounded half to
    even. *)
Lemma read_format_currency (x : Q) :
  read_cents (format_currency x)
  = if Qnum x <? 0 then - round_half_even 100 x else round_half_even 100 x.
Proof.
  destruct (round_half_even_bounds 100 x ltac:(lia)) as [Ht _].
  set (t := round_half_even 100 x) in *.
  assert (0 <= t / 100) as Hw by (apply Z.div_pos; lia).
  pose proof (Z.mod_pos_bound t 100 ltac:(lia)) as Hf.
  destruct (group_thousands_digits (str_int (t / 100)) (all_digits_str_int _ Hw))
    as [Hgd Hgm].
  destruct (all_digits_plain _ (all_digits_fmt_02d (Z.to_nat (t mod 100)))) as [Hfd Hfm].
  unfold read_cents, format_currency, fmt_comma_2f. fold t.
  rewrite !digits_of_app, !has_minus_app, Hgd, Hgm, Hfd, Hfm.
  assert (read_digits (str_int (t / 100) +:+ fmt_02d (Z.to_nat (t mod 100))) 0 = t) as Hread.
  { rewrite read_digits_app, read_str_int by done.
    rewrite read_fmt_02d by lia. rewrite Z2Nat.id by lia.
    pose proof (Z.div_mod t 100 ltac:(lia)). lia. }
  change (digits_of "$") with "". change (digits_of ".") with "".
  change (has_minus "$") with false. change (has_minus ".") with false.
  destruct (Qnum x <? 0).
  - change (digits_of "-") with "". change (has_minus "-") with true.
    cbn [orb]. rewrite !append_empty_l. by rewrite Hread.
  - change (digits_of "") with "". change (has_minus "") with false.
    cbn [orb]. rewrite !append_empty_l. by rewrite Hread.
Qed.

(** X1.  [format_currency] shows every amount to the cent: the digits of
    the text, read back as a number of cents with the sign of the text,
    differ from the amount by at most half a cent. *)
Lemma format_currency_to_the_cent (x : Q) :
  (Qabs (x * 100 - inject_Z (read_cents (format_currency x))) <= 1 # 2)%Q.
Proof.
  rewrite read_format_currency.
  destruct (round_half_even_bounds 100 x ltac:(lia)) as [Ht Hb].
  set (t := round_half_even 100 x) in *. clearbody t.
  destruct x as [num den]. cbn [Qnum Qden] in *.
  assert (Qabs ((num # den) * 100 - inject_Z (if num <? 0 then - t else t))
          == Z.abs (num * 100 - (if num <? 0 then - t else t) * Z.pos den) # den)%Q as ->.
  { unfold Qabs, Qminus, Qplus, Qmult, Qopp, inject_Z, Qeq. cbn [Qnum Qden].
    rewrite !Pos.mul_1_r, !Z.mul_1_r. f_equal. f_equal. lia. }
  unfold Qle. cbn [Qnum Qden].
  destruct (Z.ltb_spec num 0); lia.
Qed.

(** * The offers of a loan *)

(** The offers of a loan after an offer was appended to the session. *)
Lemma offers_by_loan_snoc (l : list Offer) (o : Offer) (lid : string) :
  filter (fun x => offer_loan_id x = lid) (l ++ [o])
  = filter (fun x => offer_loan_id x = lid) l ++ (if decide (offer_loan_id o = lid) then [o] else []).
Proof. rewrite filter_app, filter_cons, filter_nil. by destruct (decide _). Qed.

Lemma latest_offer_status_snoc (l : list Offer) (o : Offer) :
  latest_offer_status (l ++ [o]) = offer_status_value (status o).
Proof. unfold latest_offer_status. by rewrite last_snoc. Qed.

(** X7.  An offer created in the first listing is the last offer of its
    loan: the status column of the loan queue shows Draft for a percentage
    within policy and Pending Approval otherwise, and the offers of the
    other loans are as before. *)
Lemma basic_created_offer_in_queue s inp n1 n2 lid loan c :
  Basic.selected_loan_id s = Some lid ->
  Basic.get_loan_by_id s lid = Some loan ->
  Basic.get_customer_by_id s (loan_customer_id loan) = Some c ->
  create_click inp = Some CreateOffer -> create_errors loan inp n1 = [] ->
  let s' := final (run (Basic.render_create_offer inp n1 n2) s) in
  Basic.get_offers_by_loan_id s' (loan_id loan)
  = Basic.get_offers_by_loan_id s (loan_id loan) ++ [Basic.new_offer s loan inp n2] /\
  latest_offer_status (Basic.get_offers_by_loan_id s' (loan_id loan))
  = (if is_within_policy loan (in_settlement_percentage inp)
     then "Draft" else "Pending Approval") /\
  forall other, other <> loan_id loan ->
    Basic.get_offers_by_loan_id s' other = Basic.get_offers_by_loan_id s other.
Proof.
  intros Hsel Hloan Hc Hclick Herr s'.
  pose proof (basic_create_offer_run s inp n1 n2 lid loan c Hsel Hloan Hc Hclick) as Hrun.
  cbn zeta in Hrun. rewrite Herr in Hrun. destruct Hrun as [Hfinal _].
  subst s'. rewrite Hfinal. unfold Basic.get_offers_by_loan_id. cbn [Basic.offers
    Basic.with_current_page Basic.with_offers].
  assert (offer_loan_id (Basic.new_offer s loan inp n2) = loan_id loan) as Hid by done.
  split; [|split].
  - rewrite offers_by_loan_snoc. by rewrite decide_True.
  - rewrite offers_by_loan_snoc, decide_True by done. rewrite latest_offer_status_snoc.
    cbn [status Basic.new_offer].
    by destruct (is_within_policy loan (in_settlement_percentage inp)).
  - intros other Hne. rewrite offers_by_loan_snoc, decide_False; [by rewrite app_nil_r|].
    by rewrite Hid.
Qed.

(** * The third listing as a whole *)

Lemma workflow_kept_same s s' :
  Workflow.customers s' = Workflow.customers s -> Workflow.loans s' = Workflow.loans s ->
  Forall2 same_terms (Workflow.offers s) (Workflow.offers s') -> workflow_kept s s'.
Proof.
  intros Hc Hl HF. repeat split; [done..|]. exists (Workflow.offers s'), [].
  rewrite app_nil_r. repeat split; [done|by left].
Qed.

Lemma workflow_kept_refl s : workflow_kept s s.
Proof. apply workflow_kept_same; [done..|apply Forall2_same_terms_refl]. Qed.

(** A run that leaves customers, loans and offers as they are. *)
Ltac kept_same := apply workflow_kept_same; [done..|apply Forall2_same_terms_refl].

Lemma workflow_kept_evolved s s' : evolves s s' -> revised s s' -> workflow_kept s s'.
Proof. intros (Hc & Hl & _) [_ HF]. by apply workflow_kept_same. Qed.

Lemma workflow_lookups_same s s' :
  Workflow.customers s' = Workflow.customers s -> Workflow.loans s' = Workflow.loans s ->
  (forall k, Workflow.get_customer_by_id s' k = Workflow.get_customer_by_id s k) /\
  (forall k, Workflow.get_loan_by_id s' k = Workflow.get_loan_by_id s k).
Proof.
  intros Hc Hl. unfold Workflow.get_customer_by_id, Workflow.get_loan_by_id.
  by rewrite Hc, Hl.
Qed.

Lemma workflow_kept_consistent s s' :
  workflow_kept s s' -> workflow_consistent s -> workflow_consistent s'.
Proof.
  intros (Hc & Hl & kept & added & Heq & HF & Hadded) (Hshow & Hnum & Hloans).
  destruct (workflow_lookups_same s s' Hc Hl) as [Hgc Hgl].
  pose proof (Forall2_length _ _ _ HF) as Hlen.
  assert (numbered kept) as Hk by (by apply (numbered_same_terms (Workflow.offers s))).
  assert (forall o, o ∈ kept -> is_Some (Workflow.get_loan_by_id s (offer_loan_id o))) as Hkl.
  { intros o' Ho'. apply list_elem_of_lookup in Ho' as [i Hi].
    destruct (Forall2_lookup_r _ _ _ _ _ HF Hi) as (o & Ho & (_ & Hlid & _)).
    rewrite Hlid. apply Hloans. by eapply list_elem_of_lookup_2. }
  repeat split.
  - intros loan Hin. rewrite Hl in Hin. destruct (Hshow loan Hin) as (c & Hfound & Hcol).
    exists c. by rewrite Hgc.
  - rewrite Heq. destruct Hadded as [->|(o & -> & Hid & _)]; [by rewrite app_nil_r|].
    apply numbered_app; [done|]. by rewrite <- Hlen.
  - rewrite Heq. intros o [Ho|Ho]%elem_of_app; rewrite Hgl; [by apply Hkl|].
    destruct Hadded as [->|(o' & -> & _ & Hfound)]; [by apply elem_of_nil in Ho|].
    apply list_elem_of_singleton in Ho. by subst.
Qed.

Lemma workflow_create_offer_kept inp n1 n2 s out :
  workflow_kept s (state_of (Workflow.render_create_offer inp n1 n2 s out)).
Proof.
  unfold Workflow.render_create_offer. exec.
  destruct (Workflow.selected_loan_id s) as [lid|] eqn:Hsel; cbn; [|apply workflow_kept_refl].
  destruct (Workflow.get_loan_by_id s lid) as [loan|] eqn:Hloan; cbn;
    [|apply workflow_kept_refl].
  assert (is_Some (Workflow.get_loan_by_id s (loan_id loan))) as Hfound.
  { destruct (get_loan_by_id_Some _ _ _ Hloan) as [_ ->]. by rewrite Hloan. }
  assert (forall p id,
    workflow_kept s (Workflow.with_current_offer_id id (Workflow.with_current_page p
              (Workflow.with_offers
                 (fun l => l ++ [Workflow.new_offer s loan inp n2]) s)))) as Hnew.
  { intros p id. repeat split.
    exists (Workflow.offers s), [Workflow.new_offer s loan inp n2]. repeat split.
    - apply Forall2_same_terms_refl.
    - right. eexists. by repeat split. }
  destruct (create_click inp) as [[|]|]; cbn; [kept_same| |].
  - destruct (Workflow.get_customer_by_id s (loan_customer_id loan)); cbn;
      [|apply workflow_kept_refl].
    destruct (create_errors loan inp n1) eqn:He;
      destruct (negb (is_within_policy loan (in_settlement_percentage inp))); cbn;
      rewrite ?for_each_errors; cbn; first [ apply workflow_kept_refl | by apply Hnew ].
  - destruct (Workflow.get_customer_by_id s (loan_customer_id loan)); cbn;
      [|apply workflow_kept_refl].
    destruct (negb (is_within_policy loan (in_settlement_percentage inp))); cbn;
      apply workflow_kept_refl.
Qed.

Lemma workflow_customer_response_kept inp n1 n2 n3 s out :
  workflow_kept s (state_of (Workflow.render_customer_response inp n1 n2 n3 s out)).
Proof.
  unfold Workflow.render_customer_response, Workflow.deref, Workflow.assign. exec.
  destruct (Workflow.current_offer_id s) as [oid|]; cbn; [|apply workflow_kept_refl].
  destruct (Workflow.find_offer s oid) as [i|]; cbn; [|apply workflow_kept_refl].
  destruct (Workflow.offers s !! i) as [o|] eqn:Hi; cbn; [|apply workflow_kept_refl].
  destruct (Workflow.get_loan_by_id s (offer_loan_id o)) as [loan|] eqn:Hloan; cbn;
    [|apply workflow_kept_refl].
  assert (is_Some (Workflow.get_loan_by_id s (loan_id loan))) as Hfound.
  { destruct (get_loan_by_id_Some _ _ _ Hloan) as [_ ->]. by rewrite Hloan. }
  destruct (Workflow.response_click inp) as [[|]|]; cbn; [kept_same| |kept_same].
  assert (forall st, Forall2 same_terms (Workflow.offers s)
            (alter (set_response_date n2) i (alter (set_status st) i (Workflow.offers s))))
    as Hkept.
  { intros st. etrans; apply Forall2_same_terms_alter; auto with evolve. }
  destruct (Workflow.in_response_type inp); cbn.
  - apply workflow_kept_same; [done..|apply Hkept].
  - apply workflow_kept_same; [done..|apply Hkept].
  - rewrite !list_lookup_alter_eq, Hi. cbn. repeat split. eexists _, [_].
    repeat split; [apply Hkept|]. right. eexists. split; [done|]. split; [|done].
    cbn. by rewrite !length_alter.
Qed.

Lemma workflow_page_kept a s : workflow_kept s (Workflow.step s a).
Proof.
  unfold Workflow.step. rewrite final_run. destruct a; simpl.
  - apply workflow_create_offer_kept.
  - apply workflow_kept_evolved; [apply send_offer_evolves | apply send_offer_revised].
  - apply workflow_customer_response_kept.
  - apply workflow_kept_evolved;
      [apply supervisor_review_evolves | apply supervisor_review_revised].
Qed.

Lemma workflow_dashboard_kept inp s :
  workflow_kept s (after (run_page (Workflow.render_dashboard inp) s)).
Proof.
  unfold Workflow.render_dashboard, Workflow.iloc. pexec.
  destruct (Workflow.loan_queue s _) as [|r0 df]; cbn; [kept_same|].
  destruct (Workflow.in_selection_rows inp) as [|k ks]; cbn; [kept_same|].
  destruct ((r0 :: df) !! k) as [row|]; cbn; [|kept_same].
  destruct (Workflow.view_loan_details inp); cbn; kept_same.
Qed.

Lemma workflow_loan_detail_kept click s :
  workflow_kept s (after (run_page (Workflow.render_loan_detail click) s)).
Proof.
  unfold Workflow.render_loan_detail. pexec.
  destruct (Workflow.selected_loan_id s) as [lid|]; cbn; [|kept_same].
  destruct (Workflow.get_loan_by_id s lid) as [loan|]; cbn; [|kept_same].
  destruct click as [[| | | | |]|]; cbn; [kept_same|..].
  all: destruct (Workflow.get_customer_by_id s (loan_customer_id loan)) as [c|]; cbn;
    [|kept_same].
  all: destruct (risk_colors (risk_profile c)); cbn; [|kept_same].
  all: destruct (Workflow.get_offers_by_loan_id s (loan_id loan)); cbn.
  all: repeat match goal with
       | |- context [bool_decide ?P] => destruct (bool_decide P); cbn
       end.
  all: kept_same.
Qed.

Lemma workflow_visit_kept v s : workflow_kept s (Workflow.visit_step s v).
Proof.
  unfold Workflow.visit_step. destruct v as [inp|click| |a]; cbn [Workflow.visit].
  - apply workflow_dashboard_kept.
  - apply workflow_loan_detail_kept.
  - rewrite run_page_lift. apply workflow_kept_refl.
  - rewrite run_page_lift. apply workflow_page_kept.
Qed.

Lemma workflow_visits_consistent l :
  forall s, workflow_consistent s -> workflow_consistent (Workflow.visits s l).
Proof.
  unfold Workflow.visits. induction l as [|v l IH]; intros s Hs; simpl; [done|].
  apply IH. apply (workflow_kept_consistent s); [apply workflow_visit_kept | done].
Qed.

Lemma workflow_initial_consistent (cs : list Customer) (ls : list Loan) draw :
  (forall loan, loan ∈ ls -> exists c, c ∈ cs /\ customer_id c = loan_customer_id loan) ->
  (forall c, c ∈ cs -> is_Some (risk_colors (risk_profile c))) ->
  workflow_consistent (Workflow.initialize_session_state cs ls draw).
Proof.
  intros Hls Hcs. unfold Workflow.initialize_session_state.
  repeat split; simpl.
  - intros loan Hin. destruct (Hls loan Hin) as (c & Hc & Hid).
    destruct (list_find_elem (fun c => customer_id c = loan_customer_id loan) _ c Hc Hid)
      as (c' & Hfound & Hc' & _).
    exists c'. split; [exact Hfound|]. by apply Hcs.
  - apply sample_offers_numbered.
  - intros o (i & loan & -> & Hi)%elem_of_lookup_imap. simpl.
    unfold Workflow.get_loan_by_id. simpl. apply fmap_is_Some.
    apply (list_find_elem_of _ _ loan); [|done].
    apply lookup_take_Some in Hi as [Hi _]. by eapply list_elem_of_lookup_2.
Qed.

Lemma workflow_first_session_consistent risk loan_draw offer_draw :
  workflow_consistent (Workflow.first_session risk loan_draw offer_draw).
Proof.
  unfold Workflow.first_session. apply workflow_initial_consistent.
  - apply sample_loans_customer.
  - apply sample_customers_risk.
Qed.

Lemma workflow_consistent_renders s o :
  workflow_consistent s -> o ∈ Workflow.offers s -> renders s o.
Proof.
  intros (Hshow & _ & Hloans) Ho.
  destruct (Hloans o Ho) as [loan Hloan].
  destruct (get_loan_by_id_Some _ _ _ Hloan) as [Hin _].
  destruct (Hshow loan Hin) as (c & Hc & _). by exists loan, c.
Qed.

Lemma workflow_consistent_ready s : workflow_consistent s -> review_ready s.
Proof.
  intros Hs. split.
  - apply numbered_NoDup. by destruct Hs as (_ & ? & _).
  - intros o Ho _. by apply workflow_consistent_renders.
Qed.

(** * From the creation form to the customer, third listing *)

(** In a list of numbered offers, an offer is found by its id. *)
Lemma find_offer_numbered s i o :
  numbered (Workflow.offers s) -> Workflow.offers s !! i = Some o ->
  Workflow.find_offer s (offer_id o) = Some i.
Proof.
  intros Hn Hi. unfold Workflow.find_offer.
  assert (list_find (fun x => offer_id x = offer_id o) (Workflow.offers s) = Some (i, o)) as ->;
    [|done].
  apply list_find_Some. repeat split; [done..|].
  intros j y Hj Hlt Heq. rewrite (Hn _ _ Hj), (Hn _ _ Hi) in Heq.
  apply offer_number_inj in Heq. lia.
Qed.

Lemma get_loan_by_id_again s lid loan :
  Workflow.get_loan_by_id s lid = Some loan ->
  Workflow.get_loan_by_id s (loan_id loan) = Some loan.
Proof. intros H. destruct (get_loan_by_id_Some _ _ _ H) as [_ Hid]. by rewrite Hid. Qed.

(** X13.  Creating an offer and then sending it, third listing: within
    policy the offer is appended and sent, with one communication record for
    it, and the response page is opened; outside policy the offer waits for
    approval, the send page refuses it, and no communication is recorded. *)
Lemma workflow_create_then_send (s : Workflow.SessionState) (inp : CreateInput)
    (n1 n2 : datetime) (send : Workflow.SendInput) (m1 m2 : datetime)
    (lid : string) (loan : Loan) (c : Customer) :
  numbered (Workflow.offers s) ->
  Workflow.selected_loan_id s = Some lid ->
  Workflow.get_loan_by_id s lid = Some loan ->
  Workflow.get_customer_by_id s (loan_customer_id loan) = Some c ->
  create_click inp = Some CreateOffer -> create_errors loan inp n1 = [] ->
  Workflow.send_click send = Some Workflow.SendOffer ->
  let new := Workflow.new_offer s loan inp n2 in
  let s2 := Workflow.steps s [Workflow.CreatePage inp n1 n2; Workflow.SendPage send m1 m2] in
  if is_within_policy loan (in_settlement_percentage inp) then
    Workflow.offers s2 = Workflow.offers s ++ [set_sent_date m2 (set_status SENT new)] /\
    Workflow.communications s2
    = Workflow.communications s ++
      [{| Workflow.communication_id :=
            "COMM_" +:+ fmt_03d (length (Workflow.communications s) + 1);
          Workflow.comm_loan_id := loan_id loan;
          Workflow.comm_offer_id := offer_id new;
          Workflow.channel := Workflow.in_channel send;
          Workflow.message_content := Workflow.in_message_content send;
          Workflow.comm_sent_date := m1;
          Workflow.delivery_status := "Delivered" |}] /\
    Workflow.current_page s2 = "customer_response"
  else
    Workflow.offers s2 = Workflow.offers s ++ [new] /\ status new = PENDING_APPROVAL /\
    Workflow.communications s2 = Workflow.communications s /\
    Workflow.current_page s2 = "send_offer".
Proof.
  intros Hnum Hsel Hloan Hc Hclick Herr Hsend new s2.
  pose proof (create_offer_run s inp n1 n2 lid loan c Hsel Hloan Hc Hclick) as Hrun.
  cbn zeta in Hrun. rewrite Herr in Hrun. destruct Hrun as [Hfinal _].
  fold new in Hfinal.
  set (s1 := Workflow.with_current_offer_id (offer_id new)
               (Workflow.with_current_page "send_offer"
                  (Workflow.with_offers (fun l => l ++ [new]) s))) in *.
  assert (s2 = final (run (Workflow.render_send_offer send m1 m2) s1)) as Hs2.
  { subst s2. unfold Workflow.steps, Workflow.step. cbn [fold_left Workflow.page].
    by rewrite Hfinal. }
  clearbody s2. subst s2.
  assert (Workflow.offers s1 = Workflow.offers s ++ [new]) as Hoffers by done.
  assert (numbered (Workflow.offers s1)) as Hnum1.
  { rewrite Hoffers. by apply numbered_app. }
  assert (Workflow.offers s1 !! length (Workflow.offers s) = Some new) as Hi.
  { rewrite Hoffers. by rewrite lookup_app_r, Nat.sub_diag by lia. }
  pose proof (find_offer_numbered s1 _ new Hnum1 Hi) as Hfind.
  pose proof (send_offer_run s1 send m1 m2 (offer_id new) _ new loan c eq_refl Hfind Hi
                (get_loan_by_id_again s lid loan Hloan) Hc Hsend) as Hsent.
  cbn zeta in Hsent.
  assert (status new
          = if is_within_policy loan (in_settlement_percentage inp)
            then DRAFT else PENDING_APPROVAL) as Hst.
  { subst new. cbn. by destruct (is_within_policy _ _). }
  destruct (is_within_policy loan (in_settlement_percentage inp)).
  - rewrite decide_False in Hsent by (rewrite Hst; discriminate).
    destruct Hsent as (-> & _). cbn [Workflow.offers Workflow.communications
      Workflow.current_page Workflow.with_current_page Workflow.with_offers
      Workflow.with_communications]. rewrite Hoffers.
    rewrite !alter_app_r_alt by lia. rewrite Nat.sub_diag. done.
  - rewrite decide_True in Hsent by done.
    destruct Hsent as (-> & _). done.
Qed.

(** * The loan detail page of the third listing *)

(** Decide which button was clicked, the click being known. *)
Ltac which_button :=
  repeat match goal with
  | |- context [bool_decide (Some ?a = Some ?b)] =>
    first [ rewrite (bool_decide_eq_true_2 (Some a = Some b)) by reflexivity
          | rewrite (bool_decide_eq_false_2 (Some a = Some b)) by discriminate ]
  end.

Lemma workflow_lookups_flags f s :
  (forall k, Workflow.get_loan_by_id (Workflow.with_flags f s) k = Workflow.get_loan_by_id s k) /\
  (forall k, Workflow.get_customer_by_id (Workflow.with_flags f s) k
             = Workflow.get_customer_by_id s k) /\
  (forall k, Workflow.get_offers_by_loan_id (Workflow.with_flags f s) k
             = Workflow.get_offers_by_loan_id s k).
Proof. done. Qed.

Lemma with_flags_open_close (k : string) (s : Workflow.SessionState) :
  k ∉ Workflow.flags s ->
  Workflow.with_flags (fun f => f ∖ {[k]}) (Workflow.with_flags (fun f => f ∪ {[k]}) s) = s.
Proof.
  intros Hk. destruct s as [cs ls os cm rs u p sel cur fl]. unfold Workflow.with_flags.
  cbn in *. f_equal. apply set_eq. intros x.
  rewrite elem_of_difference, elem_of_union, elem_of_singleton. split.
  - by intros [[H|H] H'].
  - intros H. split; [by left|]. by intros ->.
Qed.

Lemma elem_of_opened (k : string) (fl : gset string) : k ∈ fl ∪ {[k]}.
Proof. apply elem_of_union. right. by apply elem_of_singleton. Qed.

(** X14.  The notes dialog of the third listing keeps no note: "Add
    Customer Notes" opens the dialog, "Save Note" reports "Note saved
    successfully!", closes the dialog and reruns, and the session is then
    what it was before the dialog was opened. *)
Lemma workflow_note_is_not_kept (s : Workflow.SessionState) (lid : string) (loan : Loan)
    (c : Customer) :
  Workflow.selected_loan_id s = Some lid ->
  Workflow.get_loan_by_id s lid = Some loan ->
  Workflow.get_customer_by_id s (loan_customer_id loan) = Some c ->
  risk_profile c ∈ known_risks ->
  Workflow.notes_modal_key ∉ Workflow.flags s ->
  let r1 := run_page (Workflow.render_loan_detail (Some Workflow.AddCustomerNotes)) s in
  let r2 := run_page (Workflow.render_loan_detail (Some Workflow.SaveNote)) (after r1) in
  stop r1 = Ends Finished /\ Workflow.notes_modal_key ∈ Workflow.flags (after r1) /\
  st_success "Note saved successfully!" ∈ shown r2 /\ stop r2 = Ends Rerun /\
  after r2 = s.
Proof.
  intros Hsel Hloan Hc [colour Hcol]%risk_colors_known Hflag r1 r2.
  assert (after r1 = Workflow.with_flags (fun f => f ∪ {[Workflow.notes_modal_key]}) s /\
          stop r1 = Ends Finished) as [H1 Hstop1].
  { subst r1. unfold Workflow.render_loan_detail. pexec.
    rewrite Hsel; cbn. rewrite Hloan; cbn. rewrite Hc; cbn. rewrite Hcol; cbn.
    destruct (Workflow.get_offers_by_loan_id s (loan_id loan)); cbn; which_button; cbn;
      rewrite (bool_decide_eq_true_2 (Workflow.notes_modal_key ∈ _)) by apply elem_of_opened;
      cbn; which_button; done. }
  split; [done|]. split; [rewrite H1; apply elem_of_opened|].
  subst r2. rewrite H1. clear r1 H1 Hstop1.
  destruct (workflow_lookups_flags (fun f => f ∪ {[Workflow.notes_modal_key]}) s)
    as (Hgl & Hgc & Hgo).
  unfold Workflow.render_loan_detail. pexec.
  rewrite Hsel; cbn. rewrite Hgl, Hloan; cbn. rewrite Hgc, Hc; cbn. rewrite Hcol; cbn.
  rewrite Hgo.
  destruct (Workflow.get_offers_by_loan_id s (loan_id loan)); cbn; which_button; cbn;
    rewrite (bool_decide_eq_true_2 (Workflow.notes_modal_key ∈ _)) by apply elem_of_opened;
    cbn; which_button; cbn.
  all: split; [in_list|]; split; [done|].
  all: by apply with_flags_open_close.
Qed.

(** * A selected loan that is not in the session *)

Lemma basic_unknown_loan (s : Basic.SessionState) (lid : string)
    (click : option Basic.DetailButton) (inp : CreateInput) (n1 n2 : datetime) :
  Basic.selected_loan_id s = Some lid -> Basic.get_loan_by_id s lid = None ->
  run_page (Basic.render_loan_detail click) s
  = {| after := s; shown := [st_error "Loan not found"]; stop := Ends Finished |} /\
  run (Basic.render_create_offer inp n1 n2) s
  = {| final := s; notices := []; ending := Raised AttributeError |}.
Proof.
  intros Hsel Hloan. split.
  - unfold Basic.render_loan_detail. pexec. rewrite Hsel; cbn. by rewrite Hloan.
  - unfold run, Basic.render_create_offer. exec. rewrite Hsel; cbn. by rewrite Hloan.
Qed.

Lemma workflow_unknown_loan (s : Workflow.SessionState) (lid : string)
    (click : option Workflow.DetailButton) (inp : CreateInput) (n1 n2 : datetime) :
  Workflow.selected_loan_id s = Some lid -> Workflow.get_loan_by_id s lid = None ->
  run_page (Workflow.render_loan_detail click) s
  = {| after := s; shown := []; stop := Ends (Raised AttributeError) |} /\
  run (Workflow.render_create_offer inp n1 n2) s
  = {| final := s; notices := []; ending := Raised AttributeError |}.
Proof.
  intros Hsel Hloan. split.
  - unfold Workflow.render_loan_detail. pexec. rewrite Hsel; cbn. by rewrite Hloan.
  - unfold run, Workflow.render_create_offer. exec. rewrite Hsel; cbn. by rewrite Hloan.
Qed.

(** * The table of the dashboard, third listing *)

(** Every row of the loan queue is the row of a loan of the session. *)
Lemma loan_data_rows gc go (loans : list Loan) (f : QueueFilter) (row : LoanRow) :
  row ∈ loan_data gc go loans f ->
  exists loan, loan ∈ loans /\ row_loan_id row = loan_id loan /\
    filtered_out f loan (latest_offer_status (go (loan_id loan))) = false.
Proof.
  unfold loan_data. intros (loan & Hin & Hrow)%list_elem_of_omap.
  exists loan. destruct (filtered_out f loan _) eqn:Hf; [done|].
  inversion Hrow; subst row. by repeat split.
Qed.

Lemma workflow_queue_row_loan s f row :
  row ∈ Workflow.loan_queue s f -> is_Some (Workflow.get_loan_by_id s (row_loan_id row)).
Proof.
  intros (loan & Hin & Hid & _)%loan_data_rows.
  unfold Workflow.get_loan_by_id. apply fmap_is_Some.
  by apply (list_find_elem_of _ _ loan).
Qed.

(** X16.  The row selected in the table of the dashboard, third listing:
    a row number outside the table raises [IndexError] and changes nothing;
    a row of the table is the row of a loan of the session, which "View
    Loan Details" selects before it opens the loan detail page. *)
Lemma workflow_dashboard_selection (s : Workflow.SessionState)
    (inp : Workflow.DashboardInput) (k : nat) (rest : list nat) :
  Workflow.loan_queue s (Workflow.in_filter inp) <> [] ->
  Workflow.in_selection_rows inp = k :: rest ->
  let df := Workflow.loan_queue s (Workflow.in_filter inp) in
  let r := run_page (Workflow.render_dashboard inp) s in
  match df !! k with
  | None => stop r = Fails IndexError /\ after r = s
  | Some row =>
    is_Some (Workflow.get_loan_by_id s (row_loan_id row)) /\
    if Workflow.view_loan_details inp then
      stop r = Ends Rerun /\
      after r = Workflow.with_selected_loan_id (row_loan_id row)
                  (Workflow.with_current_page "loan_detail" s)
    else stop r = Ends Finished /\ after r = s
  end.
Proof.
  intros Hq Hrows df r. subst r df.
  unfold Workflow.render_dashboard, Workflow.iloc. pexec.
  destruct (Workflow.loan_queue s (Workflow.in_filter inp)) as [|r0 df] eqn:Hdf; [done|].
  cbn. rewrite Hrows. cbn.
  destruct ((r0 :: df) !! k) as [row|] eqn:Hk; cbn; [|done].
  split.
  - apply (workflow_queue_row_loan s (Workflow.in_filter inp)). rewrite Hdf.
    by eapply list_elem_of_lookup_2.
  - by destruct (Workflow.view_loan_details inp).
Qed.

(** * The second listing: balance ranges of the dashboard *)

Lemma filtered_loans_balance_only me range (all : list Enhanced.Loan) :
  range <> "All" ->
  Enhanced.filtered_loans me (balance_only range) all
  = filter (fun l => Enhanced.in_balance_range range l = true) all.
Proof.
  intros Hr. unfold Enhanced.filtered_loans, balance_only. cbn.
  destruct (String.eqb_spec range "All") as [->|_]; [done|]. done.
Qed.

(** The ranges of one balance. *)
Lemma in_balance_range_cases (l : Enhanced.Loan) :
  let b := Enhanced.current_balance l in
  (Enhanced.in_balance_range "< $10K" l = true <-> (b < 10000)%Q) /\
  (Enhanced.in_balance_range "$10K - $50K" l = true <-> (10000 <= b /\ b <= 50000)%Q) /\
  (Enhanced.in_balance_range "$50K - $100K" l = true <-> (50000 <= b /\ b <= 100000)%Q) /\
  (Enhanced.in_balance_range "> $100K" l = true <-> (100000 < b)%Q).
Proof.
  intros b. unfold Enhanced.in_balance_range. fold b. cbn.
  rewrite !andb_true_iff, !negb_true_iff, !Qle_bool_iff.
  repeat split; try tauto.
  - intros H. apply Qnot_le_lt. intros H'%Qle_bool_iff. congruence.
  - intros H. destruct (Qle_bool 10000 b) eqn:E; [|done].
    apply Qle_bool_iff in E. by apply Qlt_not_le in H.
  - intros H. apply Qnot_le_lt. intros H'%Qle_bool_iff. congruence.
  - intros H. destruct (Qle_bool b 100000) eqn:E; [|done].
    apply Qle_bool_iff in E. by apply Qlt_not_le in H.
Qed.

(** X17.  The balance ranges of the dashboard of the second listing:
    every loan is listed under one of the four ranges; a loan is listed
    under two of them only if its balance is 50,000, and with that balance
    it is listed under both "$10K - $50K" and "$50K - $100K". *)
Lemma enhanced_balance_ranges me (all : list Enhanced.Loan) (l : Enhanced.Loan) :
  l ∈ all ->
  let listed range := l ∈ Enhanced.filtered_loans me (balance_only range) all in
  (exists range, range ∈ Enhanced.balance_ranges /\ listed range) /\
  (forall r1 r2, r1 ∈ Enhanced.balance_ranges -> r2 ∈ Enhanced.balance_ranges ->
     r1 <> r2 -> listed r1 -> listed r2 -> (Enhanced.current_balance l == 50000)%Q) /\
  ((Enhanced.current_balance l == 50000)%Q ->
     listed "$10K - $50K" /\ listed "$50K - $100K").
Proof.
  intros Hin listed.
  assert (Hl : forall range, range ∈ Enhanced.balance_ranges ->
             listed range <-> Enhanced.in_balance_range range l = true).
  { intros range Hr. unfold listed. rewrite filtered_loans_balance_only.
    - rewrite list_elem_of_filter. tauto.
    - intros ->. unfold Enhanced.balance_ranges in Hr.
      repeat (apply elem_of_cons in Hr as [Hr|Hr]; [discriminate|]).
      by apply elem_of_nil in Hr. }
  destruct (in_balance_range_cases l) as (H1 & H2 & H3 & H4).
  cbv zeta in H1, H2, H3, H4.
  set (b := Enhanced.current_balance l) in *.
  assert (M1 : "< $10K" ∈ Enhanced.balance_ranges) by in_list.
  assert (M2 : "$10K - $50K" ∈ Enhanced.balance_ranges) by in_list.
  assert (M3 : "$50K - $100K" ∈ Enhanced.balance_ranges) by in_list.
  assert (M4 : "> $100K" ∈ Enhanced.balance_ranges) by in_list.
  split; [|split].
  - destruct (Qlt_le_dec b 10000) as [Ha|Ha].
    { exists "< $10K". split; [done|]. apply Hl; [done|]. by apply H1. }
    destruct (Qlt_le_dec 50000 b) as [Hb|Hb].
    2:{ exists "$10K - $50K". split; [done|]. apply Hl; [done|]. by apply H2. }
    destruct (Qlt_le_dec 100000 b) as [Hc|Hc].
    { exists "> $100K". split; [done|]. apply Hl; [done|]. by apply H4. }
    exists "$50K - $100K". split; [done|]. apply Hl; [done|]. apply H3.
    split; [by apply Qlt_le_weak|done].
  - intros r1 r2 Hr1 Hr2 Hne L1 L2.
    apply Hl in L1; [|done]. apply Hl in L2; [|done].
    unfold Enhanced.balance_ranges in Hr1, Hr2.
    repeat (apply elem_of_cons in Hr1 as [->|Hr1]); try by apply elem_of_nil in Hr1.
    all: repeat (apply elem_of_cons in Hr2 as [->|Hr2]); try by apply elem_of_nil in Hr2.
    all: try done.
    all: repeat match goal with
         | H : Enhanced.in_balance_range "< $10K" _ = true |- _ => apply H1 in H
         | H : Enhanced.in_balance_range "$10K - $50K" _ = true |- _ => apply H2 in H
         | H : Enhanced.in_balance_range "$50K - $100K" _ = true |- _ => apply H3 in H
         | H : Enhanced.in_balance_range "> $100K" _ = true |- _ => apply H4 in H
         end.
    all: lra.
  - intros Hb. split; (apply Hl; [done|]).
    + apply H2. lra.
    + apply H3. lra.
Qed.

(** * The second listing: the dialog that creates an offer *)

Lemma positions_where_app {A} (p : A -> bool) (k : nat) (l l' : list A) :
  positions_where p k (l ++ l')
  = positions_where p k l ++ positions_where p (k + length l) l'.
Proof.
  revert k. induction l as [|x l IH]; intros k; simpl.
  - by rewrite Nat.add_0_r.
  - rewrite IH, <- Nat.add_succ_comm. by destruct (p x).
Qed.

Ltac eexec :=
  unfold Enhanced.button in *; exec.

(** What a run of the dialog does to the session: nothing, or it closes
    the dialog, or it closes the dialog and appends one offer, which is a
    draft or sent. *)
Lemma enhanced_offer_modal_run seen inp click n1 n2 (d : Enhanced.Desk) :
  let r := run (Enhanced.render_create_offer_modal seen inp click n1 n2) d in
  final r = d \/
  final r = Enhanced.with_show_offer_modal None d \/
  exists lid loan st sent,
    Enhanced.show_offer_modal d = Some lid /\
    Enhanced.get_loan_by_id (Enhanced.session d) lid = Some loan /\
    (st = Enhanced.DRAFT \/ st = Enhanced.SENT) /\
    final r = Enhanced.with_show_offer_modal None
                (Enhanced.with_session
                   (Enhanced.with_offers
                      (fun l => l ++ [Enhanced.modal_offer d lid loan inp st n1 sent])) d).
Proof.
  unfold run, Enhanced.render_create_offer_modal. eexec.
  destruct (Enhanced.show_offer_modal d) as [lid|] eqn:Hk; cbn; [|by left].
  destruct (Enhanced.get_loan_by_id (Enhanced.session d) lid) as [loan|] eqn:Hl; cbn;
    [|by left].
  destruct (bool_decide (Enhanced.ModalCreateOffer ∈ seen)); cbn; [by left|].
  destruct (bool_decide (click = Some Enhanced.ModalCreateOffer)); cbn.
  { right; right. exists lid, loan, Enhanced.DRAFT, None. repeat split; try done. by left. }
  destruct (bool_decide (Enhanced.ModalCreateAndSend ∈ seen)); cbn; [by left|].
  destruct (bool_decide (click = Some Enhanced.ModalCreateAndSend)); cbn.
  { right; right. exists lid, loan, Enhanced.SENT, (Some n2). repeat split; try done. by right. }
  destruct (bool_decide (Enhanced.ModalCancel ∈ seen)); cbn; [by left|].
  destruct (bool_decide (click = Some Enhanced.ModalCancel)); cbn; [by right; left|by left].
Qed.

(** X18.  No offer made in the dialog of the second listing waits for
    approval: whatever is entered and clicked, the offers that were there
    stay in place, an offer that is added is a draft or sent, and the offers
    that the supervisor panel lists are the same before and after. *)
Lemma enhanced_offer_modal_not_pending seen inp click n1 n2 (d : Enhanced.Desk) :
  let r := run (Enhanced.render_create_offer_modal seen inp click n1 n2) d in
  let before := Enhanced.offers (Enhanced.session d) in
  let after := Enhanced.offers (Enhanced.session (final r)) in
  before `prefix_of` after /\
  (forall o, o ∈ after -> o ∈ before \/
     Enhanced.status o = Enhanced.DRAFT \/ Enhanced.status o = Enhanced.SENT) /\
  Enhanced.pending_offers after = Enhanced.pending_offers before.
Proof.
  intros r before after. subst before after.
  destruct (enhanced_offer_modal_run seen inp click n1 n2 d)
    as [H|[H|(lid & loan & st & sent & _ & _ & Hst & H)]]; fold r in H; rewrite H; cbn.
  1,2: by repeat split; [|left].
  split; [by apply prefix_app_r|]. split.
  - intros o [Ho|Ho%list_elem_of_singleton]%elem_of_app; [by left|right].
    subst o. cbn. destruct Hst as [->| ->]; tauto.
  - unfold Enhanced.pending_offers. rewrite positions_where_app. cbn.
    unfold Enhanced.is_pending. cbn.
    rewrite bool_decide_eq_false_2; [by rewrite app_nil_r|].
    by destruct Hst as [->| ->].
Qed.

(** * The second listing: the dialog that adds a note *)

(** X19.  "Add Note" in the second listing keeps the note: it is
    appended as the last note of the loan of the dialog, with the content,
    type, importance and time entered, the notes of the other loans are as
    before, and the dialog is closed. *)
Lemma enhanced_add_note_kept seen inp now (d : Enhanced.Desk) (lid : string) :
  Enhanced.show_note_modal d = Some lid ->
  Enhanced.ModalAddNote ∉ seen ->
  let r := run (Enhanced.render_add_note_modal seen inp (Some Enhanced.ModalAddNote) now) d in
  ending r = Rerun /\
  Enhanced.show_note_modal (final r) = None /\
  (exists n,
     Enhanced.get_notes_by_loan_id (final r) lid
     = Enhanced.get_notes_by_loan_id d lid ++ [n] /\
     Enhanced.note_content n = Enhanced.in_note_content inp /\
     Enhanced.note_type n = Enhanced.in_note_type inp /\
     Enhanced.is_important n = Enhanced.in_is_important inp /\
     Enhanced.note_created_date n = now) /\
  forall other, other <> lid ->
    Enhanced.get_notes_by_loan_id (final r) other = Enhanced.get_notes_by_loan_id d other.
Proof.
  intros Hk Hseen r. subst r.
  unfold run, Enhanced.render_add_note_modal. eexec. rewrite Hk. cbn.
  rewrite bool_decide_eq_false_2 by done. cbn. which_button. cbn.
  split; [done|]. split; [done|]. unfold Enhanced.get_notes_by_loan_id. cbn. split.
  - eexists. rewrite filter_app, filter_cons_True by done. by repeat split.
  - intros other Hne. rewrite filter_app, filter_cons_False by (cbn; congruence).
    by rewrite app_nil_r.
Qed.

(** * The second listing: the dialog that contacts the customer *)

Lemma channel_values_find (pref : string) :
  pref ∈ Enhanced.channel_values <->
  is_Some (list_find (fun y => y = pref) Enhanced.channel_values).
Proof.
  split.
  - intros H. by apply (list_find_elem_of _ _ pref).
  - intros [[i y] H]. apply list_find_Some in H as (Hi & -> & _).
    by eapply list_elem_of_lookup_2.
Qed.

Lemma channel_of_value_Some (v : string) :
  v ∈ Enhanced.channel_values -> is_Some (Enhanced.channel_of_value v).
Proof.
  unfold Enhanced.channel_values. intros (c & -> & Hc)%list_elem_of_fmap.
  unfold Enhanced.channel_of_value. apply fmap_is_Some.
  by apply (list_find_elem_of _ _ c).
Qed.

(** The generator can draw one preference that is not the value of a
    channel. *)
Lemma contact_preferences_channels (pref : string) :
  pref ∈ Enhanced.contact_preferences ->
  pref ∉ Enhanced.channel_values <-> pref = "Mail".
Proof.
  unfold Enhanced.contact_preferences. intros H.
  repeat (apply elem_of_cons in H as [->|H]); try by apply elem_of_nil in H.
  all: split; try done.
  1-3: intros []; unfold Enhanced.channel_values; cbn; in_list.
  intros _ H. unfold Enhanced.channel_values in H. cbn in H.
  repeat (apply elem_of_cons in H as [H|H]; [discriminate|]).
  by apply elem_of_nil in H.
Qed.

(** X20.  The contact dialog raises [ValueError] exactly when the
    preferred contact of the customer is not the value of a channel, and
    then before anything is shown or changed. *)
Lemma enhanced_contact_modal_raises seen inp click n1 n2 (d : Enhanced.Desk) (pref : string) :
  enhanced_contact_for d pref ->
  Enhanced.in_channel inp ∈ Enhanced.channel_values ->
  let r := run_page (Enhanced.render_contact_modal seen inp click n1 n2) d in
  (stop r = Fails ValueError <-> pref ∉ Enhanced.channel_values) /\
  (pref ∉ Enhanced.channel_values -> after r = d /\ shown r = []).
Proof.
  intros (lid & loan & c & Hk & Hl & Hc & Hp) [ch Hch]%channel_of_value_Some r. subst r.
  unfold Enhanced.get_customer_by_id in Hc.
  assert (Hfind : is_Some (list_find (fun y => y = pref) Enhanced.channel_values)
                  <-> pref ∈ Enhanced.channel_values) by (symmetry; apply channel_values_find).
  assert (Hno : forall e : Stop, pref ∈ Enhanced.channel_values -> e <> Fails ValueError ->
            e = Fails ValueError <-> pref ∉ Enhanced.channel_values) by (intros; tauto).
  unfold Enhanced.render_contact_modal, Enhanced.index_of, Enhanced.page_when,
    Enhanced.to_channel.
  rewrite Hch. clear Hch.
  remember Enhanced.channel_values as values eqn:Hvalues. clear Hvalues.
  pexec. unfold Enhanced.button. exec. rewrite Hk. cbn. rewrite Hl. cbn. rewrite Hc. cbn.
  rewrite Hp.
  destruct (list_find (fun y => y = pref) values) as [[i y]|] eqn:Hf; cbn.
  - assert (Hin : pref ∈ values) by (apply Hfind; eauto).
    split; [|done].
    destruct (bool_decide (Enhanced.ModalSendMessage ∈ seen)); cbn; [by apply Hno|].
    destruct (bool_decide (click = Some Enhanced.ModalSendMessage)); cbn; [by apply Hno|].
    destruct (bool_decide (Enhanced.ModalCancel ∈ seen)); cbn; [by apply Hno|].
    destruct (bool_decide (click = Some Enhanced.ModalCancel)); cbn; by apply Hno.
  - assert (Hin : pref ∉ values).
    { intros [? H]%Hfind. done. }
    done.
Qed.

(** * The second listing: all dialogs in one run *)

Lemma enhanced_offer_modal_flow inp click n1 n2 (d : Enhanced.Desk) out :
  exists d' out' fl,
    Enhanced.render_create_offer_modal [] inp click n1 n2 d out = (d', out', fl) /\
    ((fl = Go tt /\ d' = d /\ out' = out /\
      (is_Some (Enhanced.show_offer_modal d) -> click = None \/
         click = Some Enhanced.ModalSendMessage \/ click = Some Enhanced.ModalAddNote)) \/
     ((fl = Halt Rerun \/ fl = Halt (Raised AttributeError)) /\
      enhanced_offer_modal_keeps d d')).
Proof.
  unfold Enhanced.render_create_offer_modal. eexec.
  destruct (Enhanced.show_offer_modal d) as [lid|] eqn:Hk; cbn.
  2:{ do 3 eexists. split; [done|]. right. split; [by right|done]. }
  destruct (Enhanced.get_loan_by_id (Enhanced.session d) lid) as [loan|] eqn:Hl; cbn.
  2:{ do 3 eexists. split; [done|]. right. split; [by right|done]. }
  destruct click as [[]|]; cbn; do 3 eexists; (split; [done|]).
  all: first [ by right; split; [left|] | left; repeat split; eauto ].
Qed.

Lemma enhanced_offer_modal_idle inp click n1 n2 (d : Enhanced.Desk) out lid loan :
  Enhanced.show_offer_modal d = Some lid ->
  Enhanced.get_loan_by_id (Enhanced.session d) lid = Some loan ->
  (forall b, click = Some b -> b ∉ Enhanced.offer_modal_buttons) ->
  Enhanced.render_create_offer_modal [] inp click n1 n2 d out = (d, out, Go tt).
Proof.
  intros Hk Hl Hclick.
  unfold Enhanced.render_create_offer_modal. eexec. rewrite Hk. cbn. rewrite Hl. cbn.
  destruct click as [[]|]; try done.
  all: exfalso; apply (Hclick _ eq_refl); unfold Enhanced.offer_modal_buttons; in_list.
Qed.

Lemma enhanced_contact_modal_flow seen inp click n1 n2 (d : Enhanced.Desk) out pref :
  enhanced_contact_for d pref ->
  (pref ∉ Enhanced.channel_values ->
   Enhanced.render_contact_modal seen inp click n1 n2 d out
   = (d, out, Stopped (Fails ValueError))) /\
  (pref ∈ Enhanced.channel_values -> Enhanced.ModalSendMessage ∉ seen ->
   click <> Some Enhanced.ModalSendMessage -> click <> Some Enhanced.ModalCancel ->
   Enhanced.render_contact_modal seen inp click n1 n2 d out
   = (d, out, if bool_decide (Enhanced.ModalCancel ∈ seen)
              then Stopped (Ends (Raised DuplicateWidgetID)) else Continue tt)).
Proof.
  intros (lid & loan & c & Hk & Hl & Hc & Hp).
  unfold Enhanced.get_customer_by_id in Hc.
  assert (Hfind : is_Some (list_find (fun y => y = pref) Enhanced.channel_values)
                  <-> pref ∈ Enhanced.channel_values) by (symmetry; apply channel_values_find).
  unfold Enhanced.render_contact_modal, Enhanced.index_of, Enhanced.page_when,
    Enhanced.to_channel.
  remember Enhanced.channel_values as values eqn:Hvalues. clear Hvalues.
  remember (Enhanced.channel_of_value (Enhanced.in_channel inp)) as ch eqn:Hch. clear Hch.
  pexec. unfold Enhanced.button. exec. rewrite Hk. cbn. rewrite Hl. cbn. rewrite Hc. cbn.
  rewrite Hp.
  destruct (list_find (fun y => y = pref) values) as [[i y]|] eqn:Hf; cbn.
  - assert (Hin : pref ∈ values) by (apply Hfind; eauto).
    split; [done|]. intros _ Hseen Hsend Hcancel.
    rewrite (bool_decide_eq_false_2 (Enhanced.ModalSendMessage ∈ seen)) by done. cbn.
    rewrite (bool_decide_eq_false_2 (click = _)) by done. cbn.
    destruct (bool_decide (Enhanced.ModalCancel ∈ seen)); cbn; [done|].
    by rewrite (bool_decide_eq_false_2 (click = _)) by done.
  - assert (Hin : pref ∉ values) by (by intros [? H]%Hfind).
    done.
Qed.

Lemma enhanced_note_modal_flow seen inp click now (d : Enhanced.Desk) out :
  is_Some (Enhanced.show_note_modal d) -> Enhanced.ModalAddNote ∉ seen ->
  click <> Some Enhanced.ModalAddNote -> click <> Some Enhanced.ModalCancel ->
  Enhanced.render_add_note_modal seen inp click now d out
  = (d, out, if bool_decide (Enhanced.ModalCancel ∈ seen)
             then Halt (Raised DuplicateWidgetID) else Go tt).
Proof.
  intros [lid Hk] Hseen Hadd Hcancel.
  unfold Enhanced.render_add_note_modal. eexec. rewrite Hk. cbn.
  rewrite (bool_decide_eq_false_2 (Enhanced.ModalAddNote ∈ seen)) by done. cbn.
  rewrite (bool_decide_eq_false_2 (click = _)) by done. cbn.
  destruct (bool_decide (Enhanced.ModalCancel ∈ seen)); cbn; [done|].
  by rewrite (bool_decide_eq_false_2 (click = _)) by done.
Qed.

(** With the contact dialog open for a customer whose preferred contact
    is not the value of a channel, and no offer dialog before it, the run
    of the dialogs raises at once. *)
Lemma enhanced_contact_only_raises (inp : Enhanced.ModalsInput) (d : Enhanced.Desk)
    (pref : string) :
  enhanced_contact_for d pref -> pref ∉ Enhanced.channel_values ->
  Enhanced.show_offer_modal d = None ->
  run_page (Enhanced.render_modals inp) d
  = {| after := d; shown := []; stop := Fails ValueError |}.
Proof.
  intros Hfor Hpref Hoffer. unfold Enhanced.render_modals.
  pose proof (proj1 (enhanced_contact_modal_flow [] (Enhanced.on_contact_modal inp)
              (Enhanced.modal_click inp) (Enhanced.clock1 inp) (Enhanced.clock2 inp) d []
              pref Hfor) Hpref) as Hc0.
  destruct Hfor as (lid & loan & c & Hk & Hl & Hcust & Hp).
  pexec. rewrite Hoffer. cbn. rewrite Hk. cbn. by rewrite Hc0.
Qed.

(** X21.  Once the contact dialog is open for a customer whose preferred
    contact is not the value of a channel, no run of the dialogs finishes:
    it raises, or a button of the offer dialog reruns the script, and the
    contact dialog stays open as it is.  With no offer dialog open the run
    raises [ValueError] and changes nothing. *)
Theorem enhanced_contact_stuck (inp : Enhanced.ModalsInput) (d : Enhanced.Desk)
    (pref : string) :
  enhanced_contact_for d pref -> pref ∉ Enhanced.channel_values ->
  let r := run_page (Enhanced.render_modals inp) d in
  stop r <> Ends Finished /\ enhanced_contact_for (after r) pref /\
  (Enhanced.show_offer_modal d = None -> stop r = Fails ValueError /\ after r = d).
Proof.
  intros Hfor Hpref r. subst r.
  destruct (Enhanced.show_offer_modal d) as [olid|] eqn:Hok.
  2:{ rewrite (enhanced_contact_only_raises inp d pref Hfor Hpref Hok). by cbn. }
  unfold Enhanced.render_modals.
  destruct (enhanced_offer_modal_flow (Enhanced.on_offer_modal inp) (Enhanced.modal_click inp)
              (Enhanced.clock1 inp) (Enhanced.clock2 inp) d [])
    as (d' & out' & fl & Hrun & Hfl).
  pose proof (proj1 (enhanced_contact_modal_flow Enhanced.offer_modal_buttons
              (Enhanced.on_contact_modal inp)
              (Enhanced.modal_click inp) (Enhanced.clock1 inp) (Enhanced.clock2 inp) d []
              pref Hfor) Hpref) as Hc1.
  destruct Hfor as (lid & loan & c & Hk & Hl & Hcust & Hp).
  pexec. rewrite Hok. cbn.
  rewrite Hrun. destruct Hfl as [(-> & -> & -> & _)|[Hhalt (Hcs & Hls & Hck & _)]]; cbn.
  - rewrite Hk. cbn. rewrite Hc1. cbn. split; [done|]. split; [|done].
    by exists lid, loan, c.
  - assert (Hfor' : enhanced_contact_for d' pref).
    { exists lid, loan, c. unfold Enhanced.get_loan_by_id, Enhanced.get_customer_by_id in *.
      by rewrite Hck, Hls, Hcs. }
    by destruct Hhalt as [-> | ->]; cbn.
Qed.

(** The steps of a run, unfolded in the goal only. *)
Ltac goal_exec :=
  unfold Enhanced.button, mbind, script_mbind, mret, script_mret, script_bind, script_ret,
    get, modify, notify, py_return, rerun, halt, attr, when;
  cbn.

Ltac goal_pexec :=
  unfold run_page, mbind, page_mbind, mret, page_mret, page_bind, page_ret, lift, item,
    raise;
  goal_exec.

(** Whether a button is among those already drawn. *)
Ltac button_seen :=
  unfold Enhanced.offer_modal_buttons, Enhanced.contact_modal_buttons; cbn [app];
  first
    [ solve [in_list]
    | let Hin := fresh in
      intros Hin; repeat (apply elem_of_cons in Hin as [Hin|Hin]; [discriminate|]);
      by apply elem_of_nil in Hin ].


(** * Sending a message *)

Lemma list_find_alter {A} (P : A -> Prop) `{forall x, Decision (P x)} (f : A -> A)
    (l : list A) (i : nat) (x : A) :
  (forall y, P (f y) <-> P y) ->
  list_find P l = Some (i, x) ->
  list_find P (alter f i l) = Some (i, f x).
Proof.
  intros Hf. revert i. induction l as [|y l IH]; intros i; [done|].
  cbn. destruct (decide (P y)) as [Hy|Hy].
  - intros [= <- <-]. cbn. by rewrite decide_True by (by apply Hf).
  - destruct (list_find P l) as [[j z]|] eqn:Hl; [|done]. cbn.
    intros [= <- <-]. cbn. rewrite decide_False by done.
    by rewrite (IH j eq_refl).
Qed.

Lemma list_find_alter_other {A} (P Q : A -> Prop) `{forall x, Decision (P x)}
    `{forall x, Decision (Q x)} (f : A -> A) (l : list A) (i : nat) (x : A) :
  (forall y, Q (f y) <-> Q y) ->
  l !! i = Some x -> ~ Q x ->
  snd <$> list_find Q (alter f i l) = snd <$> list_find Q l.
Proof.
  intros Hf. revert i. induction l as [|y l IH]; intros i Hi Hx; [done|].
  destruct i as [|i]; cbn in *.
  - injection Hi as ->. rewrite !decide_False by (by rewrite ?Hf).
    done.
  - destruct (decide (Q y)); [done|].
    specialize (IH i Hi Hx).
    destruct (list_find Q (alter f i l)) as [[? ?]|], (list_find Q l) as [[? ?]|];
      cbn in *; congruence.
Qed.

Lemma channel_of_value_value (ch : Enhanced.CommunicationChannel) :
  Enhanced.channel_of_value (Enhanced.channel_value ch) = Some ch.
Proof. by destruct ch. Qed.

(** X24.  "Send Message" logs the message under the next number and the
    chosen channel, stamps the customer of the loan with the time of the
    contact, leaves the other customers as they are, and closes the
    dialog. *)
Lemma enhanced_contact_sends seen inp n1 n2 (d : Enhanced.Desk) lid loan c ch :
  Enhanced.show_contact_modal d = Some lid ->
  Enhanced.get_loan_by_id (Enhanced.session d) lid = Some loan ->
  Enhanced.get_customer_by_id (Enhanced.session d) (Enhanced.loan_customer_id loan)
    = Some c ->
  Enhanced.preferred_contact c ∈ Enhanced.channel_values ->
  Enhanced.in_channel inp = Enhanced.channel_value ch ->
  Enhanced.ModalSendMessage ∉ seen ->
  let r := run_page (Enhanced.render_contact_modal seen inp
                       (Some Enhanced.ModalSendMessage) n1 n2) d in
  stop r = Ends Rerun /\
  Enhanced.show_contact_modal (after r) = None /\
  (exists m, Enhanced.communications (after r) = Enhanced.communications d ++ [m] /\
     Enhanced.communication_id m
     = "COMM_" +:+ fmt_03d (length (Enhanced.communications d) + 1) /\
     Enhanced.channel m = ch /\ Enhanced.comm_loan_id m = lid /\
     Enhanced.message_content m = Enhanced.in_message_content inp /\
     Enhanced.comm_sent_date m = n1) /\
  Enhanced.get_customer_by_id (Enhanced.session (after r)) (Enhanced.loan_customer_id loan)
  = Some (Enhanced.set_last_contact_date n2 c) /\
  forall cid, cid <> Enhanced.loan_customer_id loan ->
    Enhanced.get_customer_by_id (Enhanced.session (after r)) cid
    = Enhanced.get_customer_by_id (Enhanced.session d) cid.
Proof.
  intros Hk Hl Hc [[i y] Hf]%channel_values_find Hch Hseen r. subst r.
  unfold Enhanced.get_customer_by_id in *.
  destruct (list_find _ (Enhanced.customers (Enhanced.session d))) as [[k c']|] eqn:Hfc;
    [|done].
  cbn in Hc. injection Hc as ->.
  unfold Enhanced.render_contact_modal, Enhanced.index_of, Enhanced.page_when,
    Enhanced.to_channel.
  rewrite Hch, channel_of_value_value.
  remember Enhanced.channel_values as values eqn:Hvalues. clear Hvalues.
  goal_pexec. rewrite Hk. cbn. rewrite Hl. cbn. rewrite Hfc. cbn. rewrite Hf. cbn.
  rewrite (bool_decide_eq_false_2 (Enhanced.ModalSendMessage ∈ seen)) by done. cbn.
  which_button. cbn.
  split; [done|]. split; [done|]. split; [eexists; by repeat split|]. split.
  - by rewrite (list_find_alter _ _ _ k c) by done.
  - intros cid Hne.
    apply list_find_Some in Hfc as (Hkc & Hid & _).
    apply (list_find_alter_other (fun x => True)
             (fun x => Enhanced.customer_id x = cid) _ _ k c); [done|done|].
    congruence.
Qed.

(** * From the loan view to the dialog *)

(** "Contact Customer" in the loan view opens the contact dialog for the
    loan that is shown. *)
Lemma enhanced_view_opens_contact (d : Enhanced.Desk) lid loan c :
  Enhanced.get_loan_by_id (Enhanced.session d) lid = Some loan ->
  Enhanced.get_customer_by_id (Enhanced.session d) (Enhanced.loan_customer_id loan)
    = Some c ->
  let r := run (Enhanced.render_loan_detail_view lid (Some Enhanced.ViewContactCustomer)) d in
  ending r = Finished /\ final r = Enhanced.with_show_contact_modal (Some lid) d /\
  enhanced_contact_for (final r) (Enhanced.preferred_contact c).
Proof.
  intros Hl Hc r. subst r. unfold run, Enhanced.render_loan_detail_view.
  goal_exec. rewrite Hl. cbn. rewrite Hc. cbn.
  split; [done|]. split; [done|]. by exists lid, loan, c.
Qed.

(** * Whole sessions *)

(** ** The first listing *)

Lemma basic_transition_terms_kept s s' :
  basic_transition s s' -> terms_kept (Basic.offers s) (Basic.offers s').
Proof.
  intros Ht i o Hi. destruct Ht as [|p ? ?|lid|lid loan inp now ? ? ?|s2 ? Hrev].
  1-3: by exists o.
  - exists o. split; [|done]. cbn. by apply lookup_app_l_Some.
  - destruct Hrev as (_ & _ & _ & _ & _ & HF).
    destruct (Forall2_lookup_l _ _ _ _ _ HF Hi) as (o' & Ho' & Hsame). by exists o'.
Qed.

Lemma terms_kept_trans (l1 l2 l3 : list Offer) :
  terms_kept l1 l2 -> terms_kept l2 l3 -> terms_kept l1 l3.
Proof.
  intros H12 H23 i o Hi.
  destruct (H12 i o Hi) as (o2 & Ho2 & (? & ? & ? & ? & ? & ? & ? & ?)).
  destruct (H23 i o2 Ho2) as (o3 & Ho3 & (? & ? & ? & ? & ? & ? & ? & ?)).
  exists o3. split; [done|]. repeat split; congruence.
Qed.

(** X9.  No run of [main] of the first listing raises: from the session
    that [initialize_session_state] sets up with the sample data, whatever
    the generators draw and whatever is entered or clicked in any number of
    runs, the next run finishes or reruns the script. *)
Theorem basic_session_never_raises (risk : nat -> RiskDraw) (loan_draw : nat -> LoanDraw)
    (offer_draw : nat -> SampleDraw) (l : list Basic.Browser) (b : Basic.Browser) :
  let s := Basic.main_steps (Basic.first_session risk loan_draw offer_draw) l in
  ends_well (stop (run_page (Basic.main b) s)).
Proof.
  cbv zeta. apply basic_main_ends_well, basic_main_steps_consistent, first_session_consistent.
Qed.

(** X10.  In every session of the first listing that is reached from the
    first one, the offers are numbered in the order of the list, so their
    ids are distinct; the loan of every offer and the customer of that loan
    are found; and the current page is one that [main] knows. *)
Theorem basic_session_ready (risk : nat -> RiskDraw) (loan_draw : nat -> LoanDraw)
    (offer_draw : nat -> SampleDraw) (l : list Basic.Browser) :
  let s := Basic.main_steps (Basic.first_session risk loan_draw offer_draw) l in
  numbered (Basic.offers s) /\
  NoDup (offer_id <$> Basic.offers s) /\
  (forall o, o ∈ Basic.offers s -> basic_renders s o) /\
  Basic.current_page s ∈ basic_pages.
Proof.
  intros s.
  assert (Hs : basic_consistent s)
    by apply basic_main_steps_consistent, first_session_consistent.
  split; [apply Hs|]. split; [apply numbered_NoDup, Hs|]. split.
  - intros o Ho. by apply basic_consistent_renders.
  - apply Hs.
Qed.

(** X11.  No run of [main] of the first listing changes a customer, a loan
    or the user, removes an offer, or changes the terms of an offer: after
    any number of runs every offer is at its position with the id, loan,
    agent, percentage, amount, due date, notes and creation date it had. *)
Theorem basic_session_keeps_records (s : Basic.SessionState) (l : list Basic.Browser) :
  let s' := Basic.main_steps s l in
  Basic.customers s' = Basic.customers s /\
  Basic.loans s' = Basic.loans s /\
  Basic.current_user s' = Basic.current_user s /\
  terms_kept (Basic.offers s) (Basic.offers s').
Proof.
  cbv zeta. revert s. induction l as [|b l IH]; intros s.
  - repeat split. intros i o Hi. by exists o.
  - cbn. destruct (IH (Basic.main_step s b)) as (Hc & Hl & Hu & Ht).
    pose proof (basic_main_transition s b) as Hstep.
    destruct (basic_transition_reference _ _ Hstep) as (Hc' & Hl' & Hu').
    unfold Basic.main_steps in *.
    rewrite Hc, Hl, Hu. repeat split; try done.
    eapply terms_kept_trans; [by apply basic_transition_terms_kept|done].
Qed.

(** ** The third listing *)

(** X12.  In every session of the third listing that is reached from the
    first one by runs of its pages, the review page can be drawn: the
    offer ids are distinct, and the loan of every offer and the customer of
    that loan are found. *)
Theorem workflow_session_ready (risk : nat -> RiskDraw) (loan_draw : nat -> LoanDraw)
    (offer_draw : nat -> SampleDraw) (l : list Workflow.Visit) :
  let s := Workflow.visits (Workflow.first_session risk loan_draw offer_draw) l in
  review_ready s /\ numbered (Workflow.offers s) /\
  forall o, o ∈ Workflow.offers s -> renders s o.
Proof.
  intros s.
  assert (Hs : workflow_consistent s)
    by apply workflow_visits_consistent, workflow_first_session_consistent.
  split; [by apply workflow_consistent_ready|]. split; [apply Hs|].
  intros o Ho. by apply workflow_consistent_renders.
Qed.

(** * The theorems at sample sessions *)

Lemma sample_loan_customer_witness :
  let customers := generate_sample_customers medium_risk in
  let loan := sample_loan 0 (sample_customer 0 "Alice Johnson" Medium) (loan_draw_20000 0) in
  generate_sample_loans customers loan_draw_20000 !! 0%nat = Some loan /\
  exists c, customers !! 0%nat = Some c /\
    snd <$> list_find (fun c => customer_id c = loan_customer_id loan) customers = Some c.
Proof.
  intros customers loan.
  assert (generate_sample_loans customers loan_draw_20000 !! 0%nat = Some loan) as H
    by reflexivity.
  split; [exact H|].
  exact (sample_loan_customer medium_risk loan_draw_20000 0%nat loan H).
Defined.


Lemma basic_dashboard_session_shows : basic_shows_loans basic_dashboard_session.
Proof.
  intros loan Hin. exists alice.
  cbn in Hin. repeat (apply elem_of_cons in Hin as [->|Hin]); [| |by apply elem_of_nil in Hin].
  all: split; [reflexivity|by eexists].
Qed.

Lemma basic_queue_to_offer_witness :
  let s := basic_dashboard_session in
  let f := queue_filter "All" "All" "All" in
  let row := loan_row loan_001 (Some alice) "No Offers" in
  let inp := create_form 50 "" in
  let s3 := Basic.main_steps s
              [basic_view_loan f "LOAN_001";
               basic_detail_click Basic.CreateSettlementOffer;
               basic_form inp midday midday] in
  row ∈ Basic.loan_queue s f /\
  Basic.get_loan_by_id s (row_loan_id row) = Some loan_001 /\
  create_errors loan_001 inp midday = [] /\
  Basic.offers s3 = Basic.offers s ++ [Basic.new_offer s loan_001 inp midday] /\
  Basic.current_page s3 = "dashboard" /\
  Basic.selected_loan_id s3 = Some "LOAN_001".
Proof.
  intros s f row inp s3.
  assert (Basic.current_page s = "dashboard") as H1 by reflexivity.
  assert (row ∈ Basic.loan_queue s f) as H2.
  { apply (list_elem_of_lookup_2 _ 0%nat). by vm_compute. }
  assert (row_loan_id row <> "None") as H3 by discriminate.
  assert (Basic.get_loan_by_id s (row_loan_id row) = Some loan_001) as H4 by reflexivity.
  assert (create_click inp = Some CreateOffer) as H5 by reflexivity.
  assert (create_errors loan_001 inp midday = []) as H6 by reflexivity.
  split; [exact H2|]. split; [exact H4|]. split; [exact H6|].
  exact (basic_queue_to_offer s f row loan_001 inp midday midday
           basic_dashboard_session_shows H1 H2 H3 H4 H5 H6).
Defined.

Lemma basic_created_offer_in_queue_witness :
  let s := basic_new_session in
  let inp := create_form 80 "Hardship, one payment." in
  let s' := final (run (Basic.render_create_offer inp midday midday) s) in
  Basic.get_loan_by_id s "LOAN_001" = Some loan_001 /\
  create_errors loan_001 inp midday = [] /\
  latest_offer_status (Basic.get_offers_by_loan_id s' "LOAN_001") = "Pending Approval".
Proof.
  intros s inp s'.
  assert (Basic.selected_loan_id s = Some "LOAN_001") as H1 by reflexivity.
  assert (Basic.get_loan_by_id s "LOAN_001" = Some loan_001) as H2 by reflexivity.
  assert (Basic.get_customer_by_id s (loan_customer_id loan_001) = Some alice) as H3
    by reflexivity.
  assert (create_click inp = Some CreateOffer) as H4 by reflexivity.
  assert (create_errors loan_001 inp midday = []) as H5 by reflexivity.
  split; [exact H2|]. split; [exact H5|].
  exact (proj1 (proj2 (basic_created_offer_in_queue s inp midday midday "LOAN_001" loan_001
                         alice H1 H2 H3 H4 H5))).
Defined.

Lemma workflow_create_then_send_witness :
  let s := new_session in
  let inp := create_form 50 "" in
  let s2 := Workflow.steps s
              [Workflow.CreatePage inp midday midday;
               Workflow.SendPage send_form midday midday] in
  numbered (Workflow.offers s) /\
  Workflow.get_loan_by_id s "LOAN_001" = Some loan_001 /\
  create_errors loan_001 inp midday = [] /\
  Workflow.offers s2
  = [set_sent_date midday (set_status SENT (Workflow.new_offer s loan_001 inp midday))] /\
  Workflow.current_page s2 = "customer_response".
Proof.
  intros s inp s2.
  assert (numbered (Workflow.offers s)) as H0 by (by intros i o Hi).
  assert (Workflow.selected_loan_id s = Some "LOAN_001") as H1 by reflexivity.
  assert (Workflow.get_loan_by_id s "LOAN_001" = Some loan_001) as H2 by reflexivity.
  assert (Workflow.get_customer_by_id s (loan_customer_id loan_001) = Some alice) as H3
    by reflexivity.
  assert (create_click inp = Some CreateOffer) as H4 by reflexivity.
  assert (create_errors loan_001 inp midday = []) as H5 by reflexivity.
  assert (Workflow.send_click send_form = Some Workflow.SendOffer) as H6 by reflexivity.
  split; [exact H0|]. split; [exact H2|]. split; [exact H5|].
  pose proof (workflow_create_then_send s inp midday midday send_form midday midday
                "LOAN_001" loan_001 alice H0 H1 H2 H3 H4 H5 H6) as H.
  exact (conj (proj1 H) (proj2 (proj2 H))).
Defined.

Lemma workflow_note_is_not_kept_witness :
  let s := Workflow.with_current_page "loan_detail" new_session in
  let r1 := run_page (Workflow.render_loan_detail (Some Workflow.AddCustomerNotes)) s in
  let r2 := run_page (Workflow.render_loan_detail (Some Workflow.SaveNote)) (after r1) in
  Workflow.get_loan_by_id s "LOAN_001" = Some loan_001 /\
  st_success "Note saved successfully!" ∈ shown r2 /\ after r2 = s.
Proof.
  intros s r1 r2.
  assert (Workflow.selected_loan_id s = Some "LOAN_001") as H1 by reflexivity.
  assert (Workflow.get_loan_by_id s "LOAN_001" = Some loan_001) as H2 by reflexivity.
  assert (Workflow.get_customer_by_id s (loan_customer_id loan_001) = Some alice) as H3
    by reflexivity.
  assert (risk_profile alice ∈ known_risks) as H4 by (apply elem_of_cons; by left).
  assert (Workflow.notes_modal_key ∉ Workflow.flags s) as H5 by apply not_elem_of_empty.
  split; [exact H2|].
  pose proof (workflow_note_is_not_kept s "LOAN_001" loan_001 alice H1 H2 H3 H4 H5) as H.
  exact (conj (proj1 (proj2 (proj2 H))) (proj2 (proj2 (proj2 (proj2 H))))).
Defined.

Lemma workflow_dashboard_selection_witness :
  let s := workflow_dashboard_session in
  let inp k := {| Workflow.in_filter := queue_filter "All" "All" "All";
                  Workflow.in_selection_rows := [k];
                  Workflow.view_loan_details := true |} in
  Workflow.loan_queue s (queue_filter "All" "All" "All") <> [] /\
  (stop (run_page (Workflow.render_dashboard (inp 1%nat)) s) = Ends Rerun /\
   Workflow.selected_loan_id (after (run_page (Workflow.render_dashboard (inp 1%nat)) s))
   = Some "LOAN_002") /\
  stop (run_page (Workflow.render_dashboard (inp 2%nat)) s) = Fails IndexError.
Proof.
  intros s inp.
  assert (Workflow.loan_queue s (queue_filter "All" "All" "All") <> []) as H1
    by (by vm_compute).
  split; [exact H1|]. split.
  - pose proof (workflow_dashboard_selection s (inp 1%nat) 1%nat [] H1 eq_refl) as H.
    assert (Workflow.loan_queue s (Workflow.in_filter (inp 1%nat)) !! 1%nat
            = Some (loan_row loan_002 (Some alice) "No Offers")) as Hrow by (by vm_compute).
    cbv zeta in H. rewrite Hrow in H. destruct H as (_ & Hstop & Hafter).
    split; [exact Hstop|]. by rewrite Hafter.
  - pose proof (workflow_dashboard_selection s (inp 2%nat) 2%nat [] H1 eq_refl) as H.
    assert (Workflow.loan_queue s (Workflow.in_filter (inp 2%nat)) !! 2%nat = None) as Hrow
      by (by vm_compute).
    cbv zeta in H. rewrite Hrow in H. exact (proj1 H).
Defined.

(** X15.  A selected loan id that is the id of no loan of the session: the
    loan detail page of the first listing reports "Loan not found" and
    finishes; the loan detail page of the third listing has no such guard
    and raises [AttributeError] before it shows anything, as the creation
    form does in both listings.  Whatever is clicked, the session is left
    as it was. *)
Theorem unknown_loan_is_guarded_in_first_listing_only
    (s1 : Basic.SessionState) (s3 : Workflow.SessionState) (lid : string)
    (click1 : option Basic.DetailButton) (click3 : option Workflow.DetailButton)
    (inp : CreateInput) (n1 n2 : datetime) :
  Basic.selected_loan_id s1 = Some lid -> Basic.get_loan_by_id s1 lid = None ->
  Workflow.selected_loan_id s3 = Some lid -> Workflow.get_loan_by_id s3 lid = None ->
  run_page (Basic.render_loan_detail click1) s1
  = {| after := s1; shown := [st_error "Loan not found"]; stop := Ends Finished |} /\
  run_page (Workflow.render_loan_detail click3) s3
  = {| after := s3; shown := []; stop := Ends (Raised AttributeError) |} /\
  run (Basic.render_create_offer inp n1 n2) s1
  = {| final := s1; notices := []; ending := Raised AttributeError |} /\
  run (Workflow.render_create_offer inp n1 n2) s3
  = {| final := s3; notices := []; ending := Raised AttributeError |}.
Proof.
  intros H1 H2 H3 H4.
  destruct (basic_unknown_loan s1 lid click1 inp n1 n2 H1 H2) as [Ha Hb].
  destruct (workflow_unknown_loan s3 lid click3 inp n1 n2 H3 H4) as [Hc Hd].
  by repeat split.
Qed.

Lemma unknown_loan_witness :
  Basic.get_loan_by_id basic_stale_session "LOAN_999" = None /\
  Workflow.get_loan_by_id workflow_stale_session "LOAN_999" = None /\
  shown (run_page (Basic.render_loan_detail None) basic_stale_session)
  = [st_error "Loan not found"] /\
  stop (run_page (Workflow.render_loan_detail None) workflow_stale_session)
  = Ends (Raised AttributeError).
Proof.
  assert (Basic.get_loan_by_id basic_stale_session "LOAN_999" = None) as H2 by reflexivity.
  assert (Workflow.get_loan_by_id workflow_stale_session "LOAN_999" = None) as H4
    by reflexivity.
  split; [exact H2|]. split; [exact H4|].
  pose proof (unknown_loan_is_guarded_in_first_listing_only basic_stale_session
                workflow_stale_session "LOAN_999" None None (create_form 50 "") midday midday
                eq_refl H2 eq_refl H4) as (Ha & Hb & _).
  split; [by rewrite Ha|by rewrite Hb].
Defined.

(** ** The second listing *)

Lemma enhanced_balance_ranges_witness :
  let all := Enhanced.loans (Enhanced.session enhanced_desk) in
  let listed range :=
    enhanced_loan_002 ∈ Enhanced.filtered_loans "agent_001" (balance_only range) all in
  enhanced_loan_002 ∈ all /\ listed "$10K - $50K" /\ listed "$50K - $100K".
Proof.
  intros all listed.
  assert (enhanced_loan_002 ∈ all) as H by (apply elem_of_cons; right; apply elem_of_cons; by left).
  split; [exact H|].
  exact (proj2 (proj2 (enhanced_balance_ranges "agent_001" all enhanced_loan_002 H))
           (Qeq_refl _)).
Defined.

Lemma enhanced_add_note_kept_witness :
  let d := Enhanced.with_show_note_modal (Some "LOAN_001") enhanced_desk in
  let r := run (Enhanced.render_add_note_modal [] enhanced_note_input
                  (Some Enhanced.ModalAddNote) midday) d in
  Enhanced.show_note_modal d = Some "LOAN_001" /\
  ending r = Rerun /\ Enhanced.show_note_modal (final r) = None /\
  length (Enhanced.get_notes_by_loan_id (final r) "LOAN_001") = 1%nat.
Proof.
  intros d r.
  assert (Enhanced.show_note_modal d = Some "LOAN_001") as H1 by reflexivity.
  assert (Enhanced.ModalAddNote ∉ ([] : list Enhanced.ModalButton)) as H2
    by apply not_elem_of_nil.
  split; [exact H1|].
  destruct (enhanced_add_note_kept [] enhanced_note_input midday d "LOAN_001" H1 H2)
    as (Ha & Hb & (n & Hn & _) & _).
  split; [exact Ha|]. split; [exact Hb|].
  fold r in Hn. rewrite Hn. reflexivity.
Defined.

(** * The contact dialog for the customers of the generator *)

Lemma enhanced_contact_modal_ends seen inp click n1 n2 (d : Enhanced.Desk) out pref :
  enhanced_contact_for d pref -> pref ∈ Enhanced.channel_values ->
  Enhanced.in_channel inp ∈ Enhanced.channel_values ->
  exists d' out' nx,
    Enhanced.render_contact_modal seen inp click n1 n2 d out = (d', out', nx) /\
    ((nx = Continue tt /\ d' = d) \/ exists e, nx = Stopped (Ends e)).
Proof.
  intros (lid & loan & c & Hk & Hl & Hc & Hp) [[i y] Hf]%channel_values_find
    [ch Hch]%channel_of_value_Some.
  unfold Enhanced.get_customer_by_id in Hc.
  unfold Enhanced.render_contact_modal, Enhanced.index_of, Enhanced.page_when,
    Enhanced.to_channel.
  rewrite Hch. clear Hch.
  remember Enhanced.channel_values as values eqn:Hvalues. clear Hvalues.
  goal_pexec. rewrite Hk. cbn. rewrite Hl. cbn. rewrite Hc. cbn. rewrite Hp, Hf. cbn.
  destruct (bool_decide (Enhanced.ModalSendMessage ∈ seen)); cbn; [by eauto 8|].
  destruct (bool_decide (click = Some Enhanced.ModalSendMessage)); cbn; [by eauto 8|].
  destruct (bool_decide (Enhanced.ModalCancel ∈ seen)); cbn; [by eauto 8|].
  destruct (bool_decide (click = Some Enhanced.ModalCancel)); cbn; by eauto 8.
Qed.

(** X22.  "Contact Customer" in the loan view, for a customer whose
    preferred contact is one of the four texts that the generator draws
    from: the next run of the dialogs raises [ValueError] exactly when that
    text is "Mail", which is the value of no channel. *)
Theorem enhanced_contact_customer_who_prefers_mail (d : Enhanced.Desk) (lid : string)
    (loan : Enhanced.Loan) (c : Enhanced.Customer) (inp : Enhanced.ModalsInput) :
  Enhanced.get_loan_by_id (Enhanced.session d) lid = Some loan ->
  Enhanced.get_customer_by_id (Enhanced.session d) (Enhanced.loan_customer_id loan)
    = Some c ->
  Enhanced.preferred_contact c ∈ Enhanced.contact_preferences ->
  Enhanced.show_offer_modal d = None ->
  Enhanced.in_channel (Enhanced.on_contact_modal inp) ∈ Enhanced.channel_values ->
  let d1 :=
    final (run (Enhanced.render_loan_detail_view lid (Some Enhanced.ViewContactCustomer)) d) in
  let r := run_page (Enhanced.render_modals inp) d1 in
  Enhanced.show_contact_modal d1 = Some lid /\
  (stop r = Fails ValueError <-> Enhanced.preferred_contact c = "Mail").
Proof.
  intros Hl Hc Hpref Hoffer Hch d1 r.
  destruct (enhanced_view_opens_contact d lid loan c Hl Hc) as (_ & Hd1 & Hfor).
  fold d1 in Hd1, Hfor. split; [by rewrite Hd1|].
  rewrite <- (contact_preferences_channels _ Hpref).
  assert (Hoffer1 : Enhanced.show_offer_modal d1 = None) by (by rewrite Hd1).
  assert (Hk1 : Enhanced.show_contact_modal d1 = Some lid) by (by rewrite Hd1).
  clearbody d1. subst r.
  destruct (decide (Enhanced.preferred_contact c ∈ Enhanced.channel_values)) as [Hin|Hout].
  - destruct (enhanced_contact_modal_ends [] (Enhanced.on_contact_modal inp)
                (Enhanced.modal_click inp) (Enhanced.clock1 inp) (Enhanced.clock2 inp)
                d1 [] _ Hfor Hin Hch) as (d' & out' & nx & Hrun & Hnx).
    assert (stop (run_page (Enhanced.render_modals inp) d1) <> Fails ValueError) as Hno.
    { unfold Enhanced.render_modals. goal_pexec. rewrite Hoffer1. cbn. rewrite Hk1. cbn.
      rewrite Hrun. destruct Hnx as [[-> ->]|[e ->]]; cbn; [|done].
      destruct (Enhanced.show_note_modal d1); cbn; [|done].
      by destruct (Enhanced.render_add_note_modal _ _ _ _ _ _) as [[? ?] [[]|?]]. }
    tauto.
  - rewrite (enhanced_contact_only_raises inp d1 _ Hfor Hout Hoffer1). cbn. tauto.
Qed.

(** * The dialogs at the sample session *)

Lemma enhanced_contact_bob :
  enhanced_contact_for (Enhanced.with_show_contact_modal (Some "LOAN_002") enhanced_desk)
    "Mail".
Proof. by exists "LOAN_002", enhanced_loan_002, enhanced_bob. Qed.

Lemma enhanced_mail_is_no_channel : "Mail" ∉ Enhanced.channel_values.
Proof. by apply contact_preferences_channels; [in_list|]. Qed.

Lemma enhanced_contact_modal_raises_witness :
  let d := Enhanced.with_show_contact_modal (Some "LOAN_002") enhanced_desk in
  let r := run_page (Enhanced.render_contact_modal [] enhanced_contact_input
                       (Some Enhanced.ModalSendMessage) midday midday) d in
  enhanced_contact_for d "Mail" /\
  Enhanced.in_channel enhanced_contact_input ∈ Enhanced.channel_values /\
  stop r = Fails ValueError /\ after r = d.
Proof.
  intros d r.
  assert (Enhanced.in_channel enhanced_contact_input ∈ Enhanced.channel_values) as H2
    by (unfold Enhanced.channel_values; cbn; in_list).
  split; [exact enhanced_contact_bob|]. split; [exact H2|].
  destruct (enhanced_contact_modal_raises [] enhanced_contact_input
              (Some Enhanced.ModalSendMessage) midday midday d "Mail"
              enhanced_contact_bob H2) as [Hiff Hsame].
  split; [exact (proj2 Hiff enhanced_mail_is_no_channel)|].
  exact (proj1 (Hsame enhanced_mail_is_no_channel)).
Defined.

Lemma enhanced_contact_stuck_witness :
  let d := Enhanced.with_show_contact_modal (Some "LOAN_002") enhanced_desk in
  let r := run_page (Enhanced.render_modals enhanced_idle) d in
  enhanced_contact_for d "Mail" /\ stop r = Fails ValueError /\ after r = d.
Proof.
  intros d r.
  split; [exact enhanced_contact_bob|].
  exact (proj2 (proj2 (enhanced_contact_stuck enhanced_idle d "Mail" enhanced_contact_bob
                         enhanced_mail_is_no_channel)) eq_refl).
Defined.

Lemma enhanced_contact_customer_who_prefers_mail_witness :
  let d1 :=
    final (run (Enhanced.render_loan_detail_view "LOAN_002"
                  (Some Enhanced.ViewContactCustomer)) enhanced_desk) in
  Enhanced.get_loan_by_id (Enhanced.session enhanced_desk) "LOAN_002"
  = Some enhanced_loan_002 /\
  Enhanced.preferred_contact enhanced_bob ∈ Enhanced.contact_preferences /\
  stop (run_page (Enhanced.render_modals enhanced_idle) d1) = Fails ValueError.
Proof.
  intros d1.
  assert (Enhanced.get_loan_by_id (Enhanced.session enhanced_desk) "LOAN_002"
          = Some enhanced_loan_002) as H1 by reflexivity.
  assert (Enhanced.get_customer_by_id (Enhanced.session enhanced_desk)
            (Enhanced.loan_customer_id enhanced_loan_002) = Some enhanced_bob) as H2
    by reflexivity.
  assert (Enhanced.preferred_contact enhanced_bob ∈ Enhanced.contact_preferences) as H3
    by (unfold Enhanced.contact_preferences; in_list).
  assert (Enhanced.in_channel (Enhanced.on_contact_modal enhanced_idle)
          ∈ Enhanced.channel_values) as H5 by (unfold Enhanced.channel_values; cbn; in_list).
  split; [exact H1|]. split; [exact H3|].
  exact (proj2 (proj2 (enhanced_contact_customer_who_prefers_mail enhanced_desk "LOAN_002"
                         enhanced_loan_002 enhanced_bob enhanced_idle H1 H2 H3 eq_refl H5))
           eq_refl).
Defined.


Lemma enhanced_contact_sends_witness :
  let d := Enhanced.with_show_contact_modal (Some "LOAN_001") enhanced_desk in
  let r := run_page (Enhanced.render_contact_modal [] enhanced_contact_input
                       (Some Enhanced.ModalSendMessage) midday (plus_days midday 1)) d in
  Enhanced.get_loan_by_id (Enhanced.session d) "LOAN_001" = Some enhanced_loan /\
  Enhanced.preferred_contact enhanced_alice ∈ Enhanced.channel_values /\
  stop r = Ends Rerun /\
  Enhanced.get_customer_by_id (Enhanced.session (after r)) "CUST_001"
  = Some (Enhanced.set_last_contact_date (plus_days midday 1) enhanced_alice).
Proof.
  intros d r.
  assert (Enhanced.show_contact_modal d = Some "LOAN_001") as H1 by reflexivity.
  assert (Enhanced.get_loan_by_id (Enhanced.session d) "LOAN_001" = Some enhanced_loan) as H2
    by reflexivity.
  assert (Enhanced.get_customer_by_id (Enhanced.session d)
            (Enhanced.loan_customer_id enhanced_loan) = Some enhanced_alice) as H3
    by reflexivity.
  assert (Enhanced.preferred_contact enhanced_alice ∈ Enhanced.channel_values) as H4
    by (unfold Enhanced.channel_values; cbn; in_list).
  assert (Enhanced.in_channel enhanced_contact_input
          = Enhanced.channel_value Enhanced.PHONE) as H5 by reflexivity.
  assert (Enhanced.ModalSendMessage ∉ ([] : list Enhanced.ModalButton)) as H6
    by apply not_elem_of_nil.
  split; [exact H2|]. split; [exact H4|].
  destruct (enhanced_contact_sends [] enhanced_contact_input midday (plus_days midday 1) d
              "LOAN_001" enhanced_loan enhanced_alice Enhanced.PHONE H1 H2 H3 H4 H5 H6)
    as (Ha & _ & _ & Hb & _).
  split; [exact Ha|exact Hb].
Defined.

(** * From the dashboard to a sent offer, second listing *)

(** X25.  In the second listing an offer is created and sent in two runs
    without any check against the policy: choosing a loan on the dashboard
    and clicking "Create Offer" in its view opens the dialog, and "Create &
    Send" in the next run appends an offer for that loan with the
    percentage entered, in status Sent with its sent date, closes the
    dialog and reruns.  The supervisor panel lists the same offers as
    before. *)
Theorem enhanced_dashboard_to_sent_offer (d : Enhanced.Desk)
    (inp : Enhanced.DashboardInput) (minp : Enhanced.ModalsInput) (lid : string)
    (loan : Enhanced.Loan) (c : Enhanced.Customer) :
  Enhanced.filtered_loans (Enhanced.user_id d) (Enhanced.in_filter inp)
    (Enhanced.loans (Enhanced.session d)) <> [] ->
  Enhanced.refresh_data inp = false ->
  Enhanced.in_selected_loan_id inp = lid -> lid <> "Choose a loan..." ->
  Enhanced.view_click inp = Some Enhanced.ViewCreateOffer ->
  Enhanced.get_loan_by_id (Enhanced.session d) lid = Some loan ->
  Enhanced.get_customer_by_id (Enhanced.session d) (Enhanced.loan_customer_id loan)
    = Some c ->
  Enhanced.modal_click minp = Some Enhanced.ModalCreateAndSend ->
  let r1 := run (Enhanced.render_enhanced_dashboard inp) d in
  let r2 := run_page (Enhanced.render_modals minp) (final r1) in
  let new := Enhanced.modal_offer d lid loan (Enhanced.on_offer_modal minp) Enhanced.SENT
               (Enhanced.clock1 minp) (Some (Enhanced.clock2 minp)) in
  ending r1 = Finished /\ Enhanced.show_offer_modal (final r1) = Some lid /\
  stop r2 = Ends Rerun /\
  Enhanced.offers (Enhanced.session (after r2)) = Enhanced.offers (Enhanced.session d) ++ [new] /\
  (Enhanced.settlement_amount new
   == Enhanced.current_balance loan * (Enhanced.in_settlement_percentage
                                         (Enhanced.on_offer_modal minp) / 100))%Q /\
  Enhanced.show_offer_modal (after r2) = None /\
  Enhanced.pending_offers (Enhanced.offers (Enhanced.session (after r2)))
  = Enhanced.pending_offers (Enhanced.offers (Enhanced.session d)).
Proof.
  intros Hq Hrefresh Hsel Hne Hclick Hl Hc Hmclick r1 r2 new.
  assert (H1 : r1 = {| final := Enhanced.with_show_offer_modal (Some lid) d;
                       notices := []; ending := Finished |}).
  { subst r1. unfold run, Enhanced.render_enhanced_dashboard, Enhanced.render_loan_detail_view.
    goal_exec.
    destruct (Enhanced.filtered_loans _ _ _) as [|l0 ls]; [done|]. cbn.
    rewrite Hrefresh, Hsel, Hclick. cbn.
    destruct (String.eqb_spec lid "Choose a loan...") as [|_]; [done|]. cbn.
    rewrite Hl. cbn. by rewrite Hc. }
  assert (H2 : r2 = {| after := Enhanced.with_show_offer_modal None
                                  (Enhanced.with_session
                                     (Enhanced.with_offers (fun l => l ++ [new])) d);
                       shown := [st_success ("✅ Offer " +:+ Enhanced.offer_id new
                                             +:+ " created and sent!")];
                       stop := Ends Rerun |}).
  { subst r2. rewrite H1. cbn [final]. unfold Enhanced.render_modals.
    unfold Enhanced.render_create_offer_modal. goal_pexec. rewrite Hl. cbn.
    rewrite Hmclick. cbn. done. }
  rewrite H1, H2. cbn. repeat split; try done.
  unfold Enhanced.pending_offers. rewrite positions_where_app. cbn.
  by rewrite app_nil_r.
Qed.

Lemma enhanced_dashboard_to_sent_offer_witness :
  let r1 := run (Enhanced.render_enhanced_dashboard
                   (enhanced_view_click "LOAN_001" Enhanced.ViewCreateOffer)) enhanced_desk in
  let r2 := run_page (Enhanced.render_modals (enhanced_modal_click Enhanced.ModalCreateAndSend))
              (final r1) in
  Enhanced.get_loan_by_id (Enhanced.session enhanced_desk) "LOAN_001" = Some enhanced_loan /\
  stop r2 = Ends Rerun /\
  Enhanced.status <$> Enhanced.offers (Enhanced.session (after r2))
  = [Enhanced.PENDING_APPROVAL; Enhanced.SENT] /\
  Enhanced.pending_offers (Enhanced.offers (Enhanced.session (after r2))) = [0%nat].
Proof.
  intros r1 r2.
  assert (Enhanced.get_loan_by_id (Enhanced.session enhanced_desk) "LOAN_001"
          = Some enhanced_loan) as H1 by reflexivity.
  assert (Enhanced.get_customer_by_id (Enhanced.session enhanced_desk)
            (Enhanced.loan_customer_id enhanced_loan) = Some enhanced_alice) as H2
    by reflexivity.
  assert (Enhanced.filtered_loans (Enhanced.user_id enhanced_desk)
            (Enhanced.in_filter (enhanced_view_click "LOAN_001" Enhanced.ViewCreateOffer))
            (Enhanced.loans (Enhanced.session enhanced_desk)) <> []) as H3 by discriminate.
  assert ("LOAN_001" <> "Choose a loan...") as H4 by discriminate.
  split; [exact H1|].
  destruct (enhanced_dashboard_to_sent_offer enhanced_desk
              (enhanced_view_click "LOAN_001" Enhanced.ViewCreateOffer)
              (enhanced_modal_click Enhanced.ModalCreateAndSend) "LOAN_001" enhanced_loan
              enhanced_alice H3 eq_refl eq_refl H4 eq_refl H1 H2 eq_refl)
    as (_ & _ & Hstop & Hoffers & _ & _ & Hpending).
  split; [exact Hstop|]. fold r1 r2 in Hoffers, Hpending.
  split; [by rewrite Hoffers|by rewrite Hpending].
Defined.
